(** * Entity creation of jhipster-uml ([lib/entitiescreator.js])

    A shallow embedding of the entity assembly pipeline: one entity per
    class of the parsed model, changelog dates, fields, and the
    relationship records resolved from the directed associations.

    JavaScript objects that are iterated ([parsedData.classes],
    [parsedData.associations]) are association lists in iteration order;
    objects that are only indexed ([entities], [onDiskEntities], the
    option maps, the snapshot directory) are [gmap]s.  The module-level
    variables of the file, the clock and the snapshot directory form the
    state that every function threads; a thrown exception leaves the state
    as it was at the [throw].

    The identifiers of the parsed model are taken to differ from the
    property names that every JavaScript object inherits ([constructor],
    [toString], ...), so that looking up an identifier finds what the code
    stored under it and nothing else.  [getRelatedAssociations] takes its
    identifiers as an argument and treats those names as the code does
    ([inheritedProperty]). *)

From Stdlib Require Import Ascii String.
From stdpp Require Import gmap strings list fin_maps pretty.

Local Open Scope string_scope.

(** ** JavaScript values

    Values whose shape the code does not fix: the parsed content of a
    snapshot file, a validation's value, the generation options of a
    class. *)

Local Unset Elimination Schemes.

Inductive JsVal : Type :=
| JUndefined
| JNull
| JBool (b : bool)
| JNum (n : Z)
| JStr (s : string)
| JArr (items : list JsVal)
| JObj (props : list (string * JsVal)).

Local Set Elimination Schemes.

(** Truthiness, as [if (v)] and [||] test it. *)
Definition truthy (v : JsVal) : bool :=
  match v with
  | JUndefined | JNull => false
  | JBool b => b
  | JNum n => negb (n =? 0)%Z
  | JStr s => negb (String.eqb s "")
  | JArr _ | JObj _ => true
  end.

Fixpoint assoc {A} (k : string) (l : list (string * A)) : option A :=
  match l with
  | [] => None
  | (k', v) :: l' => if String.eqb k k' then Some v else assoc k l'
  end.

(** [v.key] for a truthy [v]: an own property of an object, [undefined]
    on anything else. *)
Definition getProp (v : JsVal) (key : string) : JsVal :=
  match v with
  | JObj props => default JUndefined (assoc key props)
  | _ => JUndefined
  end.

(** [o[key] = v] on the property list of an object. *)
Fixpoint setProp (key : string) (v : JsVal) (props : list (string * JsVal))
  : list (string * JsVal) :=
  match props with
  | [] => [(key, v)]
  | (k, w) :: ps =>
      if String.eqb key k then (k, v) :: ps else (k, w) :: setProp key v ps
  end.

(** ** Strings *)

(** An optional string of the model ([undefined] when [None]) is truthy
    when it is present and not empty. *)
Definition present (o : option string) : bool :=
  match o with
  | Some s => negb (String.eqb s "")
  | None => false
  end.

(** [a || b] on strings. *)
Definition orElse (a : string) (b : string) : string :=
  if String.eqb a "" then b else a.

Definition lowerAscii (c : ascii) : ascii :=
  let n := nat_of_ascii c in
  if (65 <=? n)%nat && (n <=? 90)%nat then ascii_of_nat (n + 32) else c.

(** [s.toLowerCase()].  Letters outside ASCII are left alone; none of them
    lowers to a letter of ['user'], so the test in [fillEntities] is
    exact. *)
Fixpoint toLowerCase (s : string) : string :=
  match s with
  | EmptyString => EmptyString
  | String c s' => String (lowerAscii c) (toLowerCase s')
  end.

(** [s.replace(c, r)] with a one-character pattern: the first occurrence
    only. *)
Fixpoint replaceFirst (c : ascii) (r : string) (s : string) : string :=
  match s with
  | EmptyString => EmptyString
  | String d s' =>
      if Ascii.eqb c d then r +:+ s' else String d (replaceFirst c r s')
  end.

(** [s.split(c)]: never empty, [''] splits to [['']]. *)
Fixpoint split (c : ascii) (s : string) : list string :=
  match s with
  | EmptyString => [EmptyString]
  | String d s' =>
      if Ascii.eqb c d then EmptyString :: split c s'
      else match split c s' with
           | [] => [String d EmptyString]
           | w :: ws => String d w :: ws
           end
  end.

(** [l.join(sep)]. *)
Fixpoint join (sep : string) (l : list string) : string :=
  match l with
  | [] => ""
  | [x] => x
  | x :: l' => x +:+ sep +:+ join sep l'
  end.

(** ** The clock and [dateFormatForLiquibase] *)

(** What one [new Date()] yields through its [getUTC*] accessors; the month
    is 0-based as in JavaScript. *)
Record UTC : Type := mkUTC {
  utcFullYear : nat;
  utcMonth : nat;
  utcDate : nat;
  utcHours : nat;
  utcMinutes : nat;
  utcSeconds : nat
}.

(** ['' + n] *)
Definition toString (n : nat) : string := pretty n.

(** [dateFormatForLiquibase(increment)], lines 121-152, given the reading
    [now] of the clock.  [now_utc] is a local date built from the UTC
    components of [now]; its local accessors give these components back
    (for a year from 100 on and a local time that exists), so the model
    reads them off [now]. *)
Definition dateFormatForLiquibase (now : UTC) (increment : nat) : string :=
  let year := toString (utcFullYear now) in
  let month := toString (utcMonth now + 1) in
  let month := if (String.length month =? 1)%nat then "0" +:+ month else month in
  let day := toString (utcDate now) in
  let day := if (String.length day =? 1)%nat then "0" +:+ day else day in
  let hour := toString (utcHours now) in
  let hour := if (String.length hour =? 1)%nat then "0" +:+ hour else hour in
  let minute := toString (utcMinutes now) in
  let minute := if (String.length minute =? 1)%nat then "0{minute}" else minute in
  let second := toString ((utcSeconds now + increment) mod 60) in
  let second := if (String.length second =? 1)%nat then "0" +:+ second else second in
  year +:+ month +:+ day +:+ hour +:+ minute +:+ second.

(** ** The parsed model (input) *)

Inductive Cardinality : Type :=
| ONE_TO_ONE
| ONE_TO_MANY
| MANY_TO_ONE
| MANY_TO_MANY.

Global Instance Cardinality_eq_dec : EqDecision Cardinality.
Proof. solve_decision. Defined.

Record ClassData : Type := mkClass {
  class_name : string;
  class_tableName : string;
  class_comment : option string;
  class_dto : JsVal;
  class_pagination : JsVal;
  class_service : JsVal;
  class_microserviceName : JsVal;
  class_searchEngine : JsVal;
  class_fields : list string
}.

Record FieldData : Type := mkField {
  field_name : string;
  field_type : string;
  field_comment : option string;
  field_validations : list string
}.

Record TypeData : Type := mkType { type_name : string }.

Record EnumData : Type := mkEnum {
  enum_name : string;
  enum_values : list string
}.

Record ValidationData : Type := mkValidation {
  validation_name : string;
  validation_value : JsVal
}.

Record Association : Type := mkAssociation {
  assoc_from : string;
  assoc_to : string;
  assoc_type : Cardinality;
  injectedFieldInFrom : option string;
  injectedFieldInTo : option string
}.

(** [classes] and [associations] list their entries in the order
    [Object.keys] and [for .. in] enumerate them. *)
Record ParsedData : Type := mkParsedData {
  classes : list (string * ClassData);
  pd_fields : gmap string FieldData;
  pd_types : gmap string TypeData;
  pd_enums : gmap string EnumData;
  pd_validations : gmap string ValidationData;
  associations : list (string * Association)
}.

(** ** Entities (output) *)

(** A relationship record; a property the code never sets is [None].
    [origin] is a ghost annotation without counterpart in the JavaScript
    object: the embedding is polymorphic in its type [G], so no
    definition can inspect it. *)
Record Relationship (G : Type) : Type := mkRelationship {
  relationshipId : nat;
  relationshipType : Cardinality;
  relationshipName : option string;
  otherEntityName : option string;
  otherEntityField : option string;
  ownerSide : option bool;
  otherEntityRelationshipName : option string;
  origin : G
}.

Arguments mkRelationship {G}.
Arguments relationshipId {G}.
Arguments relationshipType {G}.
Arguments relationshipName {G}.
Arguments otherEntityName {G}.
Arguments otherEntityField {G}.
Arguments ownerSide {G}.
Arguments otherEntityRelationshipName {G}.
Arguments origin {G}.

(** A field record is an object whose property names are partly computed
    (['fieldValidateRules' + ...]): a property list. *)
Definition FieldRecord : Type := list (string * JsVal).

Record Entity (G : Type) : Type := mkEntity {
  relationships : list (Relationship G);
  fields : list FieldRecord;
  changelogDate : JsVal;
  dto : JsVal;
  pagination : JsVal;
  service : JsVal;
  microserviceName : JsVal;
  searchEngine : JsVal;
  javadoc : option string;
  entityTableName : string
}.

Arguments mkEntity {G}.
Arguments relationships {G}.
Arguments fields {G}.
Arguments changelogDate {G}.
Arguments dto {G}.
Arguments pagination {G}.
Arguments service {G}.
Arguments microserviceName {G}.
Arguments searchEngine {G}.
Arguments javadoc {G}.
Arguments entityTableName {G}.

(** The three places of [setRelationshipOfEntity] that push a record. *)
Inductive Site : Type :=
| FromSide   (* line 346 *)
| Synthesized (* line 332 *)
| ToSide.    (* line 381 *)

Global Instance Site_eq_dec : EqDecision Site.
Proof. solve_decision. Defined.

(** ** Exceptions and the state *)

Inductive Exn : Type :=
| NullPointer
| NoSQLModeling
| InvalidAssociation
| TypeError
| SyntaxError.

Global Instance Exn_eq_dec : EqDecision Exn.
Proof. solve_decision. Defined.

Inductive Result (A : Type) : Type :=
| Ok (a : A)
| Throw (e : Exn).

Arguments Ok {A}.
Arguments Throw {A}.

(** The arguments of [createEntities]; a key the caller leaves out is
    [None]. *)
Record Args (DB : Type) : Type := mkArgs {
  arg_parsedData : option ParsedData;
  arg_databaseTypes : option DB;
  arg_listDTO : option (list string);
  arg_listPagination : option (gmap string JsVal);
  arg_listService : option (gmap string JsVal);
  arg_microserviceNames : option (gmap string JsVal);
  arg_searchEngines : option (list string)
}.

Arguments mkArgs {DB}.
Arguments arg_parsedData {DB}.
Arguments arg_databaseTypes {DB}.
Arguments arg_listDTO {DB}.
Arguments arg_listPagination {DB}.
Arguments arg_listService {DB}.
Arguments arg_microserviceNames {DB}.
Arguments arg_searchEngines {DB}.

(** The module-level variables of the file (lines 17-26), then what the
    file reads from outside: the snapshot directory and the clock.
    [parsedData] is the caller's object itself, not a copy: what the run
    leaves in it is what the caller sees afterwards.
    [disk] maps a path to what [JSON.parse] makes of the file's text
    ([None] when it throws); [clock k] is the reading of the [k]-th
    [new Date()]. *)
Record State (DB G : Type) : Type := mkState {
  entitiesToSuppress : list string;
  listDTO : list string;
  listPagination : gmap string JsVal;
  listService : gmap string JsVal;
  microserviceNames : gmap string JsVal;
  entities : gmap string (Entity G);
  onDiskEntities : gmap string JsVal;
  searchEngines : list string;
  databaseTypes : option DB;
  parsedData : option ParsedData;
  disk : gmap string (option JsVal);
  clock : nat -> UTC;
  clockReads : nat
}.

Arguments mkState {DB G}.
Arguments entitiesToSuppress {DB G}.
Arguments listDTO {DB G}.
Arguments listPagination {DB G}.
Arguments listService {DB G}.
Arguments microserviceNames {DB G}.
Arguments entities {DB G}.
Arguments onDiskEntities {DB G}.
Arguments searchEngines {DB G}.
Arguments databaseTypes {DB G}.
Arguments parsedData {DB G}.
Arguments disk {DB G}.
Arguments clock {DB G}.
Arguments clockReads {DB G}.

(** ** Collaborators

    Functions the file requires from lodash and from other files of the
    repository.  They are parameters of the embedding.
    [checkValidityOfAssociation a from to] is [false] when the helper
    throws its association-validity error. *)
Class Externals (DB : Type) : Type := {
  isNoSQL : DB -> bool;
  checkValidityOfAssociation : Association -> string -> string -> bool;
  camelCase : string -> string;
  lowerFirst : string -> string;
  snakeCase : string -> string;
  capitalize : string -> string;
  formatComment : option string -> option string
}.

(** The ghost annotation put on the record that the emission site [s]
    pushes for the association [associationId]. *)
Class Tagging (G : Type) : Type := tag : string -> Site -> G.

(** [extractField(field)], lines 276-289. *)
Record SplitField : Type := mkSplitField {
  sf_otherEntityField : string;
  sf_relationshipName : string
}.

Definition extractField (field : option string) : SplitField :=
  match field with
  | Some f =>
      if String.eqb f "" then mkSplitField "id" ""
      else
        let chunks := split "/" (replaceFirst ")" "" (replaceFirst "(" "/" f)) in
        mkSplitField
          (match chunks with _ :: c1 :: _ => c1 | _ => "id" end)
          (match chunks with c0 :: _ => c0 | [] => "" end)
  | None => mkSplitField "id" ""
  end.

(** Modelled from the spec: [merge] of [utils/object_utils], which is not
    part of the sources.  The caller's options are laid over the defaults
    of [defaults()] (lines 173-181), each override collection being empty
    when absent; the values are kept as they are, so [parsedData] stays
    the caller's object. *)
Definition merge {DB} (args : Args DB) : Args DB :=
  mkArgs (arg_parsedData args) (arg_databaseTypes args)
    (Some (default [] (arg_listDTO args)))
    (Some (default ∅ (arg_listPagination args)))
    (Some (default ∅ (arg_listService args)))
    (Some (default ∅ (arg_microserviceNames args)))
    (Some (default [] (arg_searchEngines args))).

Reserved Notation "'let*' x := m 'in' k"
  (at level 10, x pattern, m at level 100, k at level 200).
Reserved Notation "m ;; k"
  (at level 100, k at level 200, right associativity).

Section Embedding.
Context {DB G : Type} `{!Externals DB} `{!Tagging G}.

Abbreviation St := (State DB G).

(** *** The state-and-exception monad *)

Definition M (A : Type) : Type := St -> Result A * St.

Definition ret {A} (a : A) : M A := fun st => (Ok a, st).

Definition throw {A} (e : Exn) : M A := fun st => (Throw e, st).

Definition bind {A B} (m : M A) (k : A -> M B) : M B :=
  fun st =>
    match m st with
    | (Ok a, st') => k a st'
    | (Throw e, st') => (Throw e, st')
    end.

Definition gets {A} (f : St -> A) : M A := fun st => (Ok (f st), st).

Definition modify (f : St -> St) : M unit := fun st => (Ok tt, f st).

(** [o.p] where [o] may be [undefined]: a [TypeError] then. *)
Definition defined {A} (o : option A) : M A :=
  match o with
  | Some a => ret a
  | None => throw TypeError
  end.

Notation "'let*' x := m 'in' k" := (bind m (fun x => k)).
Notation "m ;; k" := (bind m (fun _ => k)).

(** [l.forEach(f)] *)
Fixpoint forEach {A} (f : A -> M unit) (l : list A) : M unit :=
  match l with
  | [] => ret tt
  | x :: l' => f x ;; forEach f l'
  end.

(** *** State updates *)

Definition set_entities (f : gmap string (Entity G) -> gmap string (Entity G))
  (st : St) : St :=
  mkState (entitiesToSuppress st) (listDTO st) (listPagination st)
    (listService st) (microserviceNames st) (f (entities st))
    (onDiskEntities st) (searchEngines st) (databaseTypes st)
    (parsedData st) (disk st) (clock st) (clockReads st).

Definition set_parsedData (f : option ParsedData -> option ParsedData)
  (st : St) : St :=
  mkState (entitiesToSuppress st) (listDTO st) (listPagination st)
    (listService st) (microserviceNames st) (entities st)
    (onDiskEntities st) (searchEngines st) (databaseTypes st)
    (f (parsedData st)) (disk st) (clock st) (clockReads st).

Definition set_onDiskEntities (f : gmap string JsVal -> gmap string JsVal)
  (st : St) : St :=
  mkState (entitiesToSuppress st) (listDTO st) (listPagination st)
    (listService st) (microserviceNames st) (entities st)
    (f (onDiskEntities st)) (searchEngines st) (databaseTypes st)
    (parsedData st) (disk st) (clock st) (clockReads st).

Definition set_entitiesToSuppress (f : list string -> list string)
  (st : St) : St :=
  mkState (f (entitiesToSuppress st)) (listDTO st) (listPagination st)
    (listService st) (microserviceNames st) (entities st)
    (onDiskEntities st) (searchEngines st) (databaseTypes st)
    (parsedData st) (disk st) (clock st) (clockReads st).

Definition set_clockReads (f : nat -> nat) (st : St) : St :=
  mkState (entitiesToSuppress st) (listDTO st) (listPagination st)
    (listService st) (microserviceNames st) (entities st)
    (onDiskEntities st) (searchEngines st) (databaseTypes st)
    (parsedData st) (disk st) (clock st) (f (clockReads st)).

Definition set_relationships (f : list (Relationship G) -> list (Relationship G))
  (e : Entity G) : Entity G :=
  mkEntity (f (relationships e)) (fields e) (changelogDate e) (dto e)
    (pagination e) (service e) (microserviceName e) (searchEngine e)
    (javadoc e) (entityTableName e).

Definition set_fields (f : list FieldRecord -> list FieldRecord)
  (e : Entity G) : Entity G :=
  mkEntity (relationships e) (f (fields e)) (changelogDate e) (dto e)
    (pagination e) (service e) (microserviceName e) (searchEngine e)
    (javadoc e) (entityTableName e).

Definition set_assoc_type (t : Cardinality) (a : Association) : Association :=
  mkAssociation (assoc_from a) (assoc_to a) t
    (injectedFieldInFrom a) (injectedFieldInTo a).

Definition set_injectedFieldInTo (f : option string) (a : Association)
  : Association :=
  mkAssociation (assoc_from a) (assoc_to a) (assoc_type a)
    (injectedFieldInFrom a) f.

(** [l[k] = f(l[k])] for a key the list has. *)
Fixpoint update {A} (k : string) (f : A -> A) (l : list (string * A))
  : list (string * A) :=
  match l with
  | [] => []
  | (k', v) :: l' =>
      if String.eqb k k' then (k', f v) :: l' else (k', v) :: update k f l'
  end.

Definition set_associations
  (f : list (string * Association) -> list (string * Association))
  (pd : ParsedData) : ParsedData :=
  mkParsedData (classes pd) (pd_fields pd) (pd_types pd) (pd_enums pd)
    (pd_validations pd) (f (associations pd)).

(** *** Accessors of the parsed model and of the module variables *)

Definition theParsedData : M ParsedData :=
  let* pd := gets parsedData in defined pd.

(** [parsedData.getClass(id)], dereferenced. *)
Definition getClass (classId : string) : M ClassData :=
  let* pd := theParsedData in defined (assoc classId (classes pd)).

Definition getField (fieldId : string) : M FieldData :=
  let* pd := theParsedData in defined (pd_fields pd !! fieldId).

Definition getValidation (validationId : string) : M ValidationData :=
  let* pd := theParsedData in defined (pd_validations pd !! validationId).

Definition getAssociation (associationId : string) : M Association :=
  let* pd := theParsedData in defined (assoc associationId (associations pd)).

(** [entities[classId]], dereferenced. *)
Definition getEntity (classId : string) : M (Entity G) :=
  let* es := gets entities in defined (es !! classId).

(** An assignment to a property of the shared association object. *)
Definition modifyAssociation (associationId : string)
  (f : Association -> Association) : M unit :=
  modify (set_parsedData (fmap (set_associations (update associationId f)))).

(** [entities[classId].relationships.push(r)] *)
Definition pushRelationship (classId : string) (r : Relationship G) : M unit :=
  getEntity classId ;;
  modify (set_entities (alter (set_relationships (fun rs => (rs ++ [r])%list)) classId)).

(** [new Date()] *)
Definition newDate : M UTC :=
  let* t := gets (fun st => clock st (clockReads st)) in
  modify (set_clockReads S) ;;
  ret t.

(** *** [init] and [checkNoSQLModeling], lines 57-75 *)

(** [merged] comes out of [merge], so its collections are there; one
    that is not would be [undefined] in the module variable and is
    modelled as empty. *)
Definition init (merged : Args DB) : M unit :=
  modify (fun st =>
    mkState [] (default [] (arg_listDTO merged))
      (default ∅ (arg_listPagination merged))
      (default ∅ (arg_listService merged))
      (default ∅ (arg_microserviceNames merged))
      ∅ ∅ (default [] (arg_searchEngines merged))
      (arg_databaseTypes merged) (arg_parsedData merged)
      (disk st) (clock st) (clockReads st)).

Definition checkNoSQLModeling : M unit :=
  let* db := gets databaseTypes in
  let* db := defined db in
  let* pd := theParsedData in
  if isNoSQL db && negb (length (map fst (associations pd)) =? 0)%nat
  then throw NoSQLModeling
  else ret tt.

(** *** [readJSONFiles], lines 77-86 *)

Definition readJSONFile (classId : string) : M unit :=
  let* c := getClass classId in
  let file := ".jhipster/" +:+ class_name c +:+ ".json" in
  let* d := gets disk in
  match d !! file with
  | Some content =>
      match content with
      | Some v => modify (set_onDiskEntities (<[classId := v]>))
      | None => throw SyntaxError
      end
  | None => ret tt
  end.

Definition readJSONFiles : M unit :=
  let* pd := theParsedData in
  forEach readJSONFile (map fst (classes pd)).

(** *** [getChangelogDate], lines 114-119 *)

Definition getChangelogDate (classId : string) (increment : nat) : M JsVal :=
  let* od := gets onDiskEntities in
  if truthy (default JUndefined (od !! classId))
  then ret (getProp (default JUndefined (od !! classId)) "changelogDate")
  else
    let* now := newDate in
    ret (JStr (dateFormatForLiquibase now increment)).

(** *** [setOptions], lines 154-171 *)

Definition set_dto (v : JsVal) (e : Entity G) : Entity G :=
  mkEntity (relationships e) (fields e) (changelogDate e) v
    (pagination e) (service e) (microserviceName e) (searchEngine e)
    (javadoc e) (entityTableName e).

Definition set_pagination (v : JsVal) (e : Entity G) : Entity G :=
  mkEntity (relationships e) (fields e) (changelogDate e) (dto e)
    v (service e) (microserviceName e) (searchEngine e)
    (javadoc e) (entityTableName e).

Definition set_service (v : JsVal) (e : Entity G) : Entity G :=
  mkEntity (relationships e) (fields e) (changelogDate e) (dto e)
    (pagination e) v (microserviceName e) (searchEngine e)
    (javadoc e) (entityTableName e).

Definition set_microserviceName (v : JsVal) (e : Entity G) : Entity G :=
  mkEntity (relationships e) (fields e) (changelogDate e) (dto e)
    (pagination e) (service e) v (searchEngine e)
    (javadoc e) (entityTableName e).

Definition set_searchEngine (v : JsVal) (e : Entity G) : Entity G :=
  mkEntity (relationships e) (fields e) (changelogDate e) (dto e)
    (pagination e) (service e) (microserviceName e) v
    (javadoc e) (entityTableName e).

Definition contains (l : list string) (s : string) : bool :=
  existsb (String.eqb s) l.

Definition setOptions (entity : Entity G) (entityName : string) : M (Entity G) :=
  let* st := gets id in
  let entity :=
    if contains (listDTO st) entityName
    then set_dto (JStr "mapstruct") entity else entity in
  let entity :=
    match listPagination st !! entityName with
    | Some v => set_pagination v entity | None => entity end in
  let entity :=
    match listService st !! entityName with
    | Some v => set_service v entity | None => entity end in
  let entity :=
    match microserviceNames st !! entityName with
    | Some v => set_microserviceName v entity | None => entity end in
  let entity :=
    if contains (searchEngines st) entityName
    then set_searchEngine (JStr "elasticsearch") entity else entity in
  ret entity.

(** *** [initializeEntities], lines 88-112 *)

Definition initializeEntity (classId : string) (index : nat) : M unit :=
  let* date := getChangelogDate classId index in
  let* c := getClass classId in
  let initializedEntity :=
    mkEntity [] [] date (class_dto c) (class_pagination c) (class_service c)
      (class_microserviceName c) (class_searchEngine c)
      (formatComment (class_comment c)) (snakeCase (class_tableName c)) in
  let* initializedEntity := setOptions initializedEntity (class_name c) in
  modify (set_entities (<[classId := initializedEntity]>)).

(** The loop of [initializeEntities] from the value [index] on. *)
Fixpoint initializeEntitiesFrom (index : nat) (classIds : list string) : M unit :=
  match classIds with
  | [] => ret tt
  | classId :: rest =>
      initializeEntity classId index ;;
      initializeEntitiesFrom (S index) rest
  end.

Definition initializeEntities : M unit :=
  let* pd := theParsedData in
  initializeEntitiesFrom 0 (map fst (classes pd)).

(** *** [setFieldsOfEntity] and [setValidationsOfField], lines 209-251 *)

Definition ofOption (o : option string) : JsVal :=
  match o with
  | Some s => JStr s
  | None => JUndefined
  end.

Definition isStr (v : JsVal) (s : string) : bool :=
  match v with
  | JStr s' => String.eqb s' s
  | _ => false
  end.

(** The callback of the loop over the validations, on the field record
    built so far. *)
Definition setValidation (field : FieldRecord) (validationId : string)
  : M FieldRecord :=
  let* validation := getValidation validationId in
  match default JUndefined (assoc "fieldValidateRules" field) with
  | JArr rules =>
      let field :=
        setProp "fieldValidateRules"
          (JArr (rules ++ [JStr (validation_name validation)])%list) field in
      if negb (String.eqb (validation_name validation) "required")
      then ret (setProp
                  ("fieldValidateRules" +:+ capitalize (validation_name validation))
                  (validation_value validation) field)
      else ret field
  | _ => throw TypeError
  end.

Fixpoint setValidations (field : FieldRecord) (validationIds : list string)
  : M FieldRecord :=
  match validationIds with
  | [] => ret field
  | validationId :: rest =>
      let* field := setValidation field validationId in
      setValidations field rest
  end.

Definition setValidationsOfField (field : FieldRecord) (fieldId : string)
  : M FieldRecord :=
  let* f := getField fieldId in
  if (length (field_validations f) =? 0)%nat then ret field
  else setValidations (setProp "fieldValidateRules" (JArr []) field)
         (field_validations f).

(** The callback of the loop of [setFieldsOfEntity]. *)
Definition setField (classId fieldId : string) : M unit :=
  let* entity := getEntity classId in
  let* f := getField fieldId in
  let fieldData : FieldRecord :=
    [ ("fieldId", JNum (Z.of_nat (length (fields entity) + 1)));
      ("fieldName", JStr (camelCase (field_name f)));
      ("javadoc", ofOption (formatComment (field_comment f))) ] in
  let* pd := theParsedData in
  let fieldData :=
    match pd_types pd !! field_type f with
    | Some t => setProp "fieldType" (JStr (type_name t)) fieldData
    | None =>
        match pd_enums pd !! field_type f with
        | Some e =>
            setProp "fieldValues" (JStr (join "," (enum_values e)))
              (setProp "fieldType" (JStr (enum_name e)) fieldData)
        | None => fieldData
        end
    end in
  let fieldType := default JUndefined (assoc "fieldType" fieldData) in
  let fieldData :=
    if isStr fieldType "ImageBlob"
    then setProp "fieldTypeBlobContent" (JStr "image")
           (setProp "fieldType" (JStr "byte[]") fieldData)
    else if isStr fieldType "Blob" || isStr fieldType "AnyBlob"
    then setProp "fieldTypeBlobContent" (JStr "any")
           (setProp "fieldType" (JStr "byte[]") fieldData)
    else fieldData in
  let* fieldData := setValidationsOfField fieldData fieldId in
  getEntity classId ;;
  modify (set_entities
            (alter (set_fields (fun fs => (fs ++ [fieldData])%list)) classId)).

Definition setFieldsOfEntity (classId : string) : M unit :=
  let* c := getClass classId in
  forEach (setField classId) (class_fields c).

(** The names that an object inherits from [Object.prototype].  Looking
    one of them up in an object that has no key of that name gives a
    function, or the prototype itself, where any other missing name
    gives [undefined]. *)
Definition inheritedProperty (name : string) : bool :=
  bool_decide
    (name ∈ ["constructor"; "hasOwnProperty"; "isPrototypeOf";
             "propertyIsEnumerable"; "toLocaleString"; "toString";
             "valueOf"; "__proto__"; "__defineGetter__"; "__defineSetter__";
             "__lookupGetter__"; "__lookupSetter__"]).

(** *** [getRelatedAssociations], lines 253-268

    The list [associations] holds the keys of the object.  For an
    identifier that is not one of them, [associations[associationId]] is
    [undefined] and reading its [from] throws ([None]); unless the
    identifier names an inherited property: the value read then has no
    [from] and no [to], and nothing is pushed. *)
Fixpoint getRelatedAssociations (classId : string) (associationIds : list string)
  (associations : list (string * Association))
  : option (list string * list string) :=
  match associationIds with
  | [] => Some ([], [])
  | associationId :: rest =>
      match assoc associationId associations with
      | Some association =>
          match getRelatedAssociations classId rest associations with
          | Some (from, to) =>
              Some
                ((if String.eqb (assoc_from association) classId
                  then associationId :: from else from),
                 (if String.eqb (assoc_to association) classId
                     && present (injectedFieldInTo association)
                  then associationId :: to else to))
          | None => None
          end
      | None =>
          if inheritedProperty associationId
          then getRelatedAssociations classId rest associations
          else None
      end
  end.

(** [o || s] where [o] may be [undefined]. *)
Definition optOrElse (o : option string) (s : string) : string :=
  match o with
  | Some a => orElse a s
  | None => s
  end.

(** *** [setRelationshipOfEntity], lines 291-383 *)

(** The callback of the loop over [associations.from], lines 296-347. *)
Definition fromStep (classId associationId : string) : M unit :=
  let* association := getAssociation associationId in
  let* fromClass := getClass (assoc_from association) in
  let* toClass := getClass (assoc_to association) in
  if negb (checkValidityOfAssociation association
             (class_name fromClass) (class_name toClass))
  then throw InvalidAssociation
  else
    let* entity := getEntity classId in
    let relationshipId := length (relationships entity) + 1 in
    let relationshipType := assoc_type association in
    let g := tag associationId FromSide in
    match assoc_type association with
    | ONE_TO_ONE =>
        let splitField := extractField (injectedFieldInFrom association) in
        pushRelationship classId
          (mkRelationship relationshipId relationshipType
             (Some (camelCase (sf_relationshipName splitField)))
             (Some (lowerFirst (camelCase (class_name toClass))))
             (Some (lowerFirst (sf_otherEntityField splitField)))
             (Some true)
             (Some (lowerFirst (optOrElse (injectedFieldInTo association)
                                  (class_name fromClass))))
             g)
    | ONE_TO_MANY =>
        let splitField := extractField (injectedFieldInFrom association) in
        let otherSplitField := extractField (injectedFieldInTo association) in
        let relationshipName :=
          lowerFirst (camelCase (orElse (sf_relationshipName splitField)
                                   (class_name toClass))) in
        let otherEntityName := lowerFirst (camelCase (class_name toClass)) in
        if negb (present (injectedFieldInTo association))
        then
          let otherSplitField := extractField (injectedFieldInTo association) in
          let* otherEntity := getEntity (assoc_to association) in
          let otherSideRelationship :=
            mkRelationship (length (relationships otherEntity) + 1)
              MANY_TO_ONE
              (Some (camelCase (lowerFirst (class_name fromClass))))
              (Some (lowerFirst (camelCase (class_name fromClass))))
              (Some (lowerFirst (sf_otherEntityField otherSplitField)))
              None None
              (tag associationId Synthesized) in
          modifyAssociation associationId (set_assoc_type MANY_TO_ONE) ;;
          pushRelationship (assoc_to association) otherSideRelationship ;;
          pushRelationship classId
            (mkRelationship relationshipId relationshipType
               (Some relationshipName) (Some otherEntityName) None None
               (Some (lowerFirst (class_name fromClass)))
               g)
        else
          pushRelationship classId
            (mkRelationship relationshipId relationshipType
               (Some relationshipName) (Some otherEntityName) None None
               (Some (lowerFirst (sf_relationshipName otherSplitField)))
               g)
    | MANY_TO_ONE =>
        if present (injectedFieldInFrom association)
        then
          let splitField := extractField (injectedFieldInFrom association) in
          pushRelationship classId
            (mkRelationship relationshipId relationshipType
               (Some (camelCase (sf_relationshipName splitField)))
               (Some (lowerFirst (camelCase (class_name toClass))))
               (Some (lowerFirst (sf_otherEntityField splitField)))
               None None g)
        else
          pushRelationship classId
            (mkRelationship relationshipId relationshipType
               None None None None None g)
    | MANY_TO_MANY =>
        let splitField := extractField (injectedFieldInFrom association) in
        pushRelationship classId
          (mkRelationship relationshipId relationshipType
             (Some (camelCase (sf_relationshipName splitField)))
             (Some (lowerFirst (camelCase (class_name toClass))))
             (Some (lowerFirst (sf_otherEntityField splitField)))
             (Some true) None g)
    end.

(** The callback of the loop over [associations.to], lines 348-382. *)
Definition toStep (classId associationId : string) : M unit :=
  let* association := getAssociation associationId in
  let* entity := getEntity classId in
  let relationshipId := length (relationships entity) + 1 in
  let relationshipType :=
    if decide (assoc_type association = ONE_TO_MANY)
    then MANY_TO_ONE else assoc_type association in
  let g := tag associationId ToSide in
  match assoc_type association with
  | ONE_TO_ONE =>
      let splitField := extractField (injectedFieldInTo association) in
      let otherSplitField := extractField (injectedFieldInFrom association) in
      let* fromClass := getClass (assoc_from association) in
      pushRelationship classId
        (mkRelationship relationshipId relationshipType
           (Some (camelCase (sf_relationshipName splitField)))
           (Some (lowerFirst (camelCase (class_name fromClass))))
           None (Some false)
           (Some (lowerFirst (sf_relationshipName otherSplitField)))
           g)
  | ONE_TO_MANY =>
      let injected :=
        Some (optOrElse (injectedFieldInTo association)
                (lowerFirst (assoc_from association))) in
      modifyAssociation associationId (set_injectedFieldInTo injected) ;;
      let splitField := extractField injected in
      let* fromClass := getClass (assoc_from association) in
      pushRelationship classId
        (mkRelationship relationshipId relationshipType
           (Some (lowerFirst (camelCase (orElse (sf_relationshipName splitField)
                                           (class_name fromClass)))))
           (Some (lowerFirst (camelCase (class_name fromClass))))
           (Some (lowerFirst (sf_otherEntityField splitField)))
           None None g)
  | MANY_TO_ONE =>
      if present (injectedFieldInTo association)
      then
        let splitField := extractField (injectedFieldInTo association) in
        let* fromClass := getClass (assoc_from association) in
        pushRelationship classId
          (mkRelationship relationshipId relationshipType
             (Some (camelCase (sf_relationshipName splitField)))
             (Some (lowerFirst (camelCase (class_name fromClass))))
             (Some (lowerFirst (sf_otherEntityField splitField)))
             None None g)
      else
        pushRelationship classId
          (mkRelationship relationshipId relationshipType
             None None None None None g)
  | MANY_TO_MANY =>
      let splitField := extractField (injectedFieldInTo association) in
      let* fromClass := getClass (assoc_from association) in
      pushRelationship classId
        (mkRelationship relationshipId relationshipType
           (Some (camelCase (sf_relationshipName splitField)))
           (Some (lowerFirst (camelCase (class_name fromClass))))
           None (Some false)
           (Some (lowerFirst (sf_relationshipName
                                (extractField (injectedFieldInFrom association)))))
           g)
  end.

Definition setRelationshipOfEntity (classId : string) : M unit :=
  let* pd := theParsedData in
  let* related :=
    defined (getRelatedAssociations classId (map fst (associations pd))
               (associations pd)) in
  forEach (fromStep classId) (fst related) ;;
  forEach (toStep classId) (snd related).

(** *** [fillEntities], lines 183-207 *)

Definition USER : string := "user".

(** The callback of the first loop of [fillEntities]; the warning on the
    console is left out. *)
Definition fillEntity (classId : string) : M unit :=
  let* c := getClass classId in
  (if String.eqb (toLowerCase (class_name c)) USER
   then modify (set_entitiesToSuppress (fun l => (l ++ [classId])%list))
   else ret tt) ;;
  setFieldsOfEntity classId ;;
  setRelationshipOfEntity classId.

Definition suppressEntity (entity : string) : M unit :=
  modify (set_entities (delete entity)).

(** The first loop of [fillEntities], lines 184-202. *)
Definition resolveEntities : M unit :=
  let* pd := theParsedData in
  forEach fillEntity (map fst (classes pd)).

(** The second loop, lines 204-206. *)
Definition suppressEntities : M unit :=
  let* toSuppress := gets entitiesToSuppress in
  forEach suppressEntity toSuppress.

Definition fillEntities : M unit :=
  resolveEntities ;;
  suppressEntities.

(** *** [createEntities], lines 42-55 *)

Definition createEntities (args : Args DB) : M (gmap string (Entity G)) :=
  let merged := merge args in
  match arg_parsedData merged, arg_databaseTypes merged with
  | Some _, Some _ =>
      init merged ;;
      checkNoSQLModeling ;;
      readJSONFiles ;;
      initializeEntities ;;
      fillEntities ;;
      gets entities
  | _, _ => throw NullPointer
  end.

(** The run up to the end of the first loop of [fillEntities]: every
    entity is resolved and none is removed yet. *)
Definition resolveAll (args : Args DB) : M unit :=
  init (merge args) ;;
  checkNoSQLModeling ;;
  readJSONFiles ;;
  initializeEntities ;;
  resolveEntities.
End Embedding.

Notation "'let*' x := m 'in' k" := (bind m (fun x => k)).
Notation "m ;; k" := (bind m (fun _ => k)).

(** ** A concrete instance, for the examples

    Stand-ins for the collaborators on plain ASCII identifiers (letters
    only, no two capitals in a row), where lodash's [camelCase] lowers the
    first letter and nothing else.  Every association is taken as valid. *)

Inductive StorageKind : Type := sql | mongodb | cassandra.

Definition asciiLowerFirst (s : string) : string :=
  match s with
  | EmptyString => EmptyString
  | String c s' => String (lowerAscii c) s'
  end.

Definition upperAscii (c : ascii) : ascii :=
  let n := nat_of_ascii c in
  if (97 <=? n)%nat && (n <=? 122)%nat then ascii_of_nat (n - 32) else c.

Definition asciiCapitalize (s : string) : string :=
  match s with
  | EmptyString => EmptyString
  | String c s' => String (upperAscii c) (toLowerCase s')
  end.

Fixpoint asciiSnakeTail (s : string) : string :=
  match s with
  | EmptyString => EmptyString
  | String c s' =>
      if Ascii.eqb (lowerAscii c) c then String c (asciiSnakeTail s')
      else String "_" (String (lowerAscii c) (asciiSnakeTail s'))
  end.

Definition asciiSnakeCase (s : string) : string :=
  match s with
  | EmptyString => EmptyString
  | String c s' => String (lowerAscii c) (asciiSnakeTail s')
  end.

Global Instance sampleExternals : Externals StorageKind := {|
  isNoSQL := fun db => match db with sql => false | _ => true end;
  checkValidityOfAssociation := fun _ _ _ => true;
  camelCase := asciiLowerFirst;
  lowerFirst := asciiLowerFirst;
  snakeCase := asciiSnakeCase;
  capitalize := asciiCapitalize;
  formatComment := fun c => c
|}.

(** The annotation used throughout: the association and the emission
    site. *)
Global Instance originTagging : Tagging (string * Site) := pair.

Definition plainClass (name : string) : ClassData :=
  mkClass name name None (JStr "no") (JStr "no") (JStr "no")
    JUndefined JUndefined [].

Definition model (cs : list (string * ClassData))
  (asss : list (string * Association)) : ParsedData :=
  mkParsedData cs ∅ ∅ ∅ ∅ asss.

Definition argsOf (db : StorageKind) (pd : ParsedData) : Args StorageKind :=
  mkArgs (Some pd) (Some db) None None None None None.

(** A module that has not run yet, an empty snapshot directory, and a
    clock that stands still at [t]. *)
Definition freshAt (t : UTC) (d : gmap string (option JsVal))
  : State StorageKind (string * Site) :=
  mkState [] [] ∅ ∅ ∅ ∅ ∅ [] None None d (fun _ => t) 0.

Definition noon : UTC := mkUTC 2016 2 5 12 30 10.

Definition sevenPastTen : UTC := mkUTC 2016 2 5 10 7 30.
Definition endOfMinute : UTC := mkUTC 2016 2 5 12 30 59.

Definition authorBook (t : Cardinality) (iF iT : option string) : ParsedData :=
  model [("c1", plainClass "Author"); ("c2", plainClass "Book")]
        [("a1", mkAssociation "c1" "c2" t iF iT)].

(** A run on [pd] with relational storage, at time [t], over the snapshot
    directory [d]; and the entities it returns. *)
Definition runAt (t : UTC) (d : gmap string (option JsVal)) (pd : ParsedData)
  : Result (gmap string (Entity (string * Site)))
    * State StorageKind (string * Site) :=
  createEntities (argsOf sql pd) (freshAt t d).

Definition entitiesOf
  (r : Result (gmap string (Entity (string * Site)))
       * State StorageKind (string * Site))
  : gmap string (Entity (string * Site)) :=
  match fst r with
  | Ok es => es
  | Throw _ => ∅
  end.

Definition entityOf
  (r : Result (gmap string (Entity (string * Site)))
       * State StorageKind (string * Site))
  (c : string) : Entity (string * Site) :=
  default (mkEntity [] [] JUndefined JUndefined JUndefined JUndefined
             JUndefined JUndefined None "")
    (entitiesOf r !! c).

(** The example of the specification: Author has many Books. *)
Definition authorHasBooks : ParsedData :=
  authorBook ONE_TO_MANY (Some "books") None.

(** A one-to-one association declared on the source side only. *)
Definition authorHasOneBook : ParsedData :=
  authorBook ONE_TO_ONE (Some "book") None.

(** A many-to-one association that names the target side only. *)
Definition manyToOneWithoutFrom : ParsedData :=
  authorBook MANY_TO_ONE None (Some "author").

(** A class named User at the source of a many-to-one association. *)
Definition userOwnsBook : ParsedData :=
  model [("c1", plainClass "User"); ("c2", plainClass "Book")]
        [("a1", mkAssociation "c1" "c2" MANY_TO_ONE (Some "book") None)].

(** [n] classes without association. *)
Definition manyClasses (n : nat) : ParsedData :=
  model (map (fun i => ("c" +:+ pretty i, plainClass ("Class" +:+ pretty i)))
           (seq 0 n))
        [].

(** A snapshot directory that holds a previous Author entity. *)
Definition authorSnapshot : gmap string (option JsVal) :=
  {[ ".jhipster/Author.json" :=
       Some (JObj [("changelogDate", JStr "20150101000000")]) ]}.

(** ** The changelog date of the specification

    From the specification, section 4.2: the base time plus [i] seconds,
    written as the 14 digits [YYYYMMDDHHMMSS].  The date arithmetic is the
    one of the proleptic Gregorian calendar. *)

Definition isLeapYear (y : nat) : bool :=
  (y mod 4 =? 0)%nat && (negb (y mod 100 =? 0)%nat || (y mod 400 =? 0)%nat).

(** The length of the month [m] (0-based) of the year [y]. *)
Definition daysInMonth (y m : nat) : nat :=
  match m with
  | 1 => if isLeapYear y then 29 else 28
  | 3 | 5 | 8 | 10 => 30
  | _ => 31
  end.

Definition nextDay (t : UTC) : UTC :=
  if (utcDate t <? daysInMonth (utcFullYear t) (utcMonth t))%nat
  then mkUTC (utcFullYear t) (utcMonth t) (utcDate t + 1)
         (utcHours t) (utcMinutes t) (utcSeconds t)
  else if (utcMonth t <? 11)%nat
  then mkUTC (utcFullYear t) (utcMonth t + 1) 1
         (utcHours t) (utcMinutes t) (utcSeconds t)
  else mkUTC (utcFullYear t + 1) 0 1
         (utcHours t) (utcMinutes t) (utcSeconds t).

Definition addSeconds (t : UTC) (i : nat) : UTC :=
  let seconds := utcSeconds t + i in
  let minutes := utcMinutes t + seconds / 60 in
  let hours := utcHours t + minutes / 60 in
  Nat.iter (hours / 24) nextDay
    (mkUTC (utcFullYear t) (utcMonth t) (utcDate t)
       (hours mod 24) (minutes mod 60) (seconds mod 60)).

Fixpoint zeros (n : nat) : string :=
  match n with
  | 0 => ""
  | S n' => String "0" (zeros n')
  end.

(** [n] in decimal, padded with zeros to [width] digits. *)
Definition padded (width n : nat) : string :=
  zeros (width - String.length (toString n)) +:+ toString n.

(** The padding of lines 131-150 for the month, the day, the hour and the
    second. *)
Definition twoDigits (n : nat) : string :=
  if (String.length (toString n) =? 1)%nat then "0" +:+ toString n
  else toString n.

Definition format14 (t : UTC) : string :=
  padded 4 (utcFullYear t) +:+ padded 2 (utcMonth t + 1)
  +:+ padded 2 (utcDate t) +:+ padded 2 (utcHours t)
  +:+ padded 2 (utcMinutes t) +:+ padded 2 (utcSeconds t).

Definition specChangelogDate (base_time : UTC) (i : nat) : string :=
  format14 (addSeconds base_time i).

(** ** What the resolver pushes, as values

    The records of [fromStep] and [toStep] written as functions of the
    association, the names of its two classes and the sequence number;
    the step lemmas below relate them to the code. *)

Section Records.
Context {DB G : Type} `{!Externals DB} `{!Tagging G}.

(** The record pushed at line 346. *)
Definition fromRecord (a : Association) (fromName toName : string)
  (id : nat) (g : G) : Relationship G :=
  let splitField := extractField (injectedFieldInFrom a) in
  match assoc_type a with
  | ONE_TO_ONE =>
      mkRelationship id ONE_TO_ONE
        (Some (camelCase (sf_relationshipName splitField)))
        (Some (lowerFirst (camelCase toName)))
        (Some (lowerFirst (sf_otherEntityField splitField)))
        (Some true)
        (Some (lowerFirst (optOrElse (injectedFieldInTo a) fromName)))
        g
  | ONE_TO_MANY =>
      mkRelationship id ONE_TO_MANY
        (Some (lowerFirst (camelCase (orElse (sf_relationshipName splitField)
                                        toName))))
        (Some (lowerFirst (camelCase toName)))
        None None
        (Some (if present (injectedFieldInTo a)
               then lowerFirst (sf_relationshipName
                                  (extractField (injectedFieldInTo a)))
               else lowerFirst fromName))
        g
  | MANY_TO_ONE =>
      if present (injectedFieldInFrom a)
      then mkRelationship id MANY_TO_ONE
             (Some (camelCase (sf_relationshipName splitField)))
             (Some (lowerFirst (camelCase toName)))
             (Some (lowerFirst (sf_otherEntityField splitField)))
             None None g
      else mkRelationship id MANY_TO_ONE None None None None None g
  | MANY_TO_MANY =>
      mkRelationship id MANY_TO_MANY
        (Some (camelCase (sf_relationshipName splitField)))
        (Some (lowerFirst (camelCase toName)))
        (Some (lowerFirst (sf_otherEntityField splitField)))
        (Some true) None g
  end.

(** The record pushed at line 332. *)
Definition synthesizedRecord (a : Association) (fromName : string)
  (id : nat) (g : G) : Relationship G :=
  mkRelationship id MANY_TO_ONE
    (Some (camelCase (lowerFirst fromName)))
    (Some (lowerFirst (camelCase fromName)))
    (Some (lowerFirst (sf_otherEntityField
                         (extractField (injectedFieldInTo a)))))
    None None g.

(** The record pushed at line 381, for an association whose
    [injectedFieldInTo] is present. *)
Definition toRecord (a : Association) (fromName : string)
  (id : nat) (g : G) : Relationship G :=
  let splitField := extractField (injectedFieldInTo a) in
  match assoc_type a with
  | ONE_TO_ONE =>
      mkRelationship id ONE_TO_ONE
        (Some (camelCase (sf_relationshipName splitField)))
        (Some (lowerFirst (camelCase fromName)))
        None (Some false)
        (Some (lowerFirst (sf_relationshipName
                             (extractField (injectedFieldInFrom a)))))
        g
  | ONE_TO_MANY =>
      mkRelationship id MANY_TO_ONE
        (Some (lowerFirst (camelCase (orElse (sf_relationshipName splitField)
                                        fromName))))
        (Some (lowerFirst (camelCase fromName)))
        (Some (lowerFirst (sf_otherEntityField splitField)))
        None None g
  | MANY_TO_ONE =>
      mkRelationship id MANY_TO_ONE
        (Some (camelCase (sf_relationshipName splitField)))
        (Some (lowerFirst (camelCase fromName)))
        (Some (lowerFirst (sf_otherEntityField splitField)))
        None None g
  | MANY_TO_MANY =>
      mkRelationship id MANY_TO_MANY
        (Some (camelCase (sf_relationshipName splitField)))
        (Some (lowerFirst (camelCase fromName)))
        None (Some false)
        (Some (lowerFirst (sf_relationshipName
                             (extractField (injectedFieldInFrom a)))))
        g
  end.

(** The state after [entities[classId].relationships.push(r)]. *)
Definition pushed (classId : string) (r : Relationship G)
  (st : State DB G) : State DB G :=
  set_entities (alter (set_relationships (fun rs => (rs ++ [r])%list)) classId) st.

(** The state after [association.type = MANY_TO_ONE]. *)
Definition retyped (associationId : string) (st : State DB G) : State DB G :=
  set_parsedData
    (fmap (set_associations (update associationId (set_assoc_type MANY_TO_ONE))))
    st.

(** An association of this kind has its inverse side synthesized. *)
Definition synthesizes (a : Association) : bool :=
  bool_decide (assoc_type a = ONE_TO_MANY) && negb (present (injectedFieldInTo a)).

(** The records of an entity that the site [s] pushed for the
    association [associationId]. *)
Definition recordsOf `{!EqDecision G} (e : Entity G) (associationId : string)
  (s : Site) : list (Relationship G) :=
  filter (fun r => origin r = tag associationId s) (relationships e).

(** The number of records of the entity of [classId] that come from the
    association, whatever the site; [0] when the map has no such
    entity. *)
Definition attributable `{!EqDecision G} (associationId : string)
  (es : gmap string (Entity G)) (classId : string) : nat :=
  match es !! classId with
  | Some e =>
      length (recordsOf e associationId FromSide)
      + length (recordsOf e associationId Synthesized)
      + length (recordsOf e associationId ToSide)
  | None => 0
  end.

(** The same, summed over the two endpoint entities of the association
    (one entity when it loops on a class). *)
Definition totalRecords `{!EqDecision G} (associationId : string)
  (a : Association) (es : gmap string (Entity G)) : nat :=
  if decide (assoc_from a = assoc_to a)
  then attributable associationId es (assoc_from a)
  else attributable associationId es (assoc_from a)
       + attributable associationId es (assoc_to a).

(** The identifiers of a JavaScript object are pairwise distinct. *)
Definition wellFormed (pd : ParsedData) : Prop :=
  NoDup (map fst (classes pd)) /\ NoDup (map fst (associations pd)).

(** The class of this identifier is named "User", in whatever case. *)
Definition isUserClass (pd : ParsedData) (classId : string) : Prop :=
  exists cd,
    assoc classId (classes pd) = Some cd /\
    toLowerCase (class_name cd) = USER.

(** The snapshot file of a class, as [readJSONFiles] names it. *)
Definition snapshotFile (cd : ClassData) : string :=
  ".jhipster/" +:+ class_name cd +:+ ".json".
End Records.

(** ** The invariant of the resolution

    Relative to the classes [cs] and the associations [as0] of the parsed
    model as the caller passed it.  [D] lists the emissions made so far:
    the pairs of an association and a site. *)

Section Invariant.
Context {DB G : Type} `{!Externals DB} `{!Tagging G}.
Variable cs : list (string * ClassData).
Variable as0 : list (string * Association).

(** The entity on which a site pushes. *)
Definition place (a : Association) (s : Site) : string :=
  match s with
  | FromSide => assoc_from a
  | Synthesized | ToSide => assoc_to a
  end.

(** [r] is the record that the site [s] pushes for the association. *)
Definition shape (associationId : string) (a : Association) (s : Site)
  (r : Relationship G) : Prop :=
  match s with
  | FromSide =>
      exists fc tc id,
        assoc (assoc_from a) cs = Some fc /\
        assoc (assoc_to a) cs = Some tc /\
        r = fromRecord a (class_name fc) (class_name tc) id
              (tag associationId FromSide)
  | Synthesized =>
      synthesizes a = true /\
      exists fc id,
        assoc (assoc_from a) cs = Some fc /\
        r = synthesizedRecord a (class_name fc) id
              (tag associationId Synthesized)
  | ToSide =>
      present (injectedFieldInTo a) = true /\
      exists fc id,
        assoc (assoc_from a) cs = Some fc /\
        r = toRecord a (class_name fc) id (tag associationId ToSide)
  end.

(** The stored association once the emissions of [D] are made: its type
    is rewritten when its inverse side has been synthesized. *)
Definition normalize (D : list (string * Site)) (p : string * Association)
  : string * Association :=
  (p.1, if bool_decide ((p.1, Synthesized) ∈ D)
        then set_assoc_type MANY_TO_ONE p.2 else p.2).

Record resolvedUpTo (D : list (string * Site))
  (es : gmap string (Entity G)) : Prop := {
  ru_sound : forall c e r,
    es !! c = Some e -> r ∈ relationships e ->
    exists aid s a,
      origin r = tag aid s /\ assoc aid as0 = Some a /\
      (aid, s) ∈ D /\ place a s = c /\ shape aid a s r;
  ru_unique : forall c e,
    es !! c = Some e -> NoDup (origin <$> relationships e);
  ru_complete : forall aid s a,
    (aid, s) ∈ D -> assoc aid as0 = Some a ->
    exists e r,
      es !! place a s = Some e /\ r ∈ relationships e /\
      origin r = tag aid s
}.

Definition Inv (D : list (string * Site)) (st : State DB G) : Prop :=
  exists pd,
    parsedData st = Some pd /\ classes pd = cs /\
    associations pd = normalize D <$> as0 /\
    resolvedUpTo D (entities st).

(** The emissions of one run of the from-side callback. *)
Definition fromAdds (associationId : string) (a : Association)
  : list (string * Site) :=
  (associationId, FromSide)
    :: (if synthesizes a then [(associationId, Synthesized)] else []).

(** The emissions due once the classes [ids] are resolved. *)
Definition doneBy (ids : list string) (x : string * Site) : Prop :=
  exists a,
    assoc x.1 as0 = Some a /\
    match x.2 with
    | FromSide => assoc_from a ∈ ids
    | Synthesized => assoc_from a ∈ ids /\ synthesizes a = true
    | ToSide => assoc_to a ∈ ids /\ present (injectedFieldInTo a) = true
    end.
End Invariant.

(** ** Predicates on computations and on states *)

Section Predicates.
Context {DB G : Type}.

(** The exceptions that [m] can throw satisfy [P]. *)
Definition raises {A} (P : Exn -> Prop) (m : @M DB G A) : Prop :=
  forall st e st', m st = (Throw e, st') -> P e.

(** A successful run of [m] takes a state to a state related by [R]. *)
Definition relates {A} (R : relation (State DB G)) (m : @M DB G A) : Prop :=
  forall st a st', m st = (Ok a, st') -> R st st'.

(** What stays while the fields of the entities are assembled, and
    what stays while their relationships are resolved. *)
Definition fieldsFrame (st st' : State DB G) : Prop :=
  parsedData st' = parsedData st /\
  entitiesToSuppress st' = entitiesToSuppress st /\
  forall c,
    (fun e => (relationships e, changelogDate e)) <$> entities st' !! c
    = (fun e => (relationships e, changelogDate e)) <$> entities st !! c.

Definition relationshipsFrame (st st' : State DB G) : Prop :=
  classes <$> parsedData st' = classes <$> parsedData st /\
  entitiesToSuppress st' = entitiesToSuppress st /\
  forall c,
    (fun e => (fields e, changelogDate e)) <$> entities st' !! c
    = (fun e => (fields e, changelogDate e)) <$> entities st !! c.

(** What [readJSONFiles] and [initializeEntities] do not touch. *)
Definition setupFrame (pd : ParsedData) (d : gmap string (option JsVal))
  (st : State DB G) : Prop :=
  parsedData st = Some pd /\ disk st = d /\ entitiesToSuppress st = [].

(** The entities that the loop of [initializeEntities] has made have no
    relationship and no field yet, and take their changelog date from
    the snapshot when there is one. *)
Definition initialized (od : gmap string JsVal) (c : string) (e : Entity G)
  : Prop :=
  relationships e = [] /\ fields e = [] /\
  (truthy (default JUndefined (od !! c)) = true ->
   changelogDate e = getProp (default JUndefined (od !! c)) "changelogDate").
End Predicates.

(** * Decoding, options, fields and the model after a run: definitions *)

(** The character [c] occurs in [s]. *)
Fixpoint occurs (c : ascii) (s : string) : bool :=
  match s with
  | EmptyString => false
  | String d s' => Ascii.eqb c d || occurs c s'
  end.

(** Line 259 reads a value whose properties can be read: the identifier
    is a key of the association object or names an inherited property. *)
Definition readable (associations : list (string * Association))
  (associationId : string) : bool :=
  bool_decide (is_Some (assoc associationId associations))
  || inheritedProperty associationId.

(** The tests of lines 260 and 263 on an identifier; what an inherited
    name gives has no [from] and no [to]. *)
Definition leavesFrom (associations : list (string * Association))
  (classId associationId : string) : bool :=
  match assoc associationId associations with
  | Some association => String.eqb (assoc_from association) classId
  | None => false
  end.

Definition arrivesAt (associations : list (string * Association))
  (classId associationId : string) : bool :=
  match assoc associationId associations with
  | Some association =>
      String.eqb (assoc_to association) classId
      && present (injectedFieldInTo association)
  | None => false
  end.

(** The snapshot file of the class [classId] exists and does not parse. *)
Definition unparsable (pd : ParsedData) (d : gmap string (option JsVal))
  (classId : string) : bool :=
  match assoc classId (classes pd) with
  | Some cd =>
      match d !! snapshotFile cd with
      | Some None => true
      | _ => false
      end
  | None => false
  end.

Section Settings.
Context {DB G : Type}.

(** The option collections of the module (lines 18-21 and 24). *)
Definition settingsOf (st : State DB G)
  : list string * gmap string JsVal * gmap string JsVal * gmap string JsVal
    * list string :=
  (listDTO st, listPagination st, listService st, microserviceNames st,
   searchEngines st).

(** What [initializeEntities] sets on an entity besides its lists. *)
Definition optionsOf (e : Entity G)
  : JsVal * JsVal * JsVal * JsVal * JsVal * option string * string * JsVal :=
  (dto e, pagination e, service e, microserviceName e, searchEngine e,
   javadoc e, entityTableName e, changelogDate e).

(** The parts of the parsed model apart from the content of the
    associations. *)
Definition partsOf (pd : ParsedData)
  : list (string * ClassData) * gmap string FieldData * gmap string TypeData
    * gmap string EnumData * gmap string ValidationData * list string :=
  (classes pd, pd_fields pd, pd_types pd, pd_enums pd, pd_validations pd,
   map fst (associations pd)).

(** What the first loop of [fillEntities] leaves as it is. *)
Definition resolutionFrame (st st' : State DB G) : Prop :=
  partsOf <$> parsedData st' = partsOf <$> parsedData st /\
  settingsOf st' = settingsOf st /\
  forall c, optionsOf <$> entities st' !! c = optionsOf <$> entities st !! c.
End Settings.

Section Options.
Context {DB G : Type} `{!Externals DB}.

(** The options of the entity of a class, given the option collections:
    an entry of a collection for the name of the class goes before what the
    class itself says (lines 96-106 and 154-171). *)
Definition optionsFor
  (s : list string * gmap string JsVal * gmap string JsVal * gmap string JsVal
       * list string)
  (cd : ClassData) (e : Entity G) : Prop :=
  let '(dtos, paginations, services, microservices, engines) := s in
  dto e = (if contains dtos (class_name cd) then JStr "mapstruct"
           else class_dto cd) /\
  pagination e = default (class_pagination cd) (paginations !! class_name cd) /\
  service e = default (class_service cd) (services !! class_name cd) /\
  microserviceName e
  = default (class_microserviceName cd) (microservices !! class_name cd) /\
  searchEngine e = (if contains engines (class_name cd) then JStr "elasticsearch"
                    else class_searchEngine cd) /\
  javadoc e = formatComment (class_comment cd) /\
  entityTableName e = snakeCase (class_tableName cd).
End Options.

(** ** What the field assembler pushes, as values

    The record of [setFieldsOfEntity] written as a function of the parsed
    model, of the field and of its sequence number; [None] where the code
    dereferences [undefined] or pushes on something that is not an
    array. *)

Section FieldRecords.
Context {DB : Type} `{!Externals DB}.

(** The body of the loop of lines 243-250, for one validation. *)
Definition ruled (field : FieldRecord) (validation : ValidationData)
  : option FieldRecord :=
  match default JUndefined (assoc "fieldValidateRules" field) with
  | JArr rules =>
      let field :=
        setProp "fieldValidateRules"
          (JArr (rules ++ [JStr (validation_name validation)])%list) field in
      Some (if negb (String.eqb (validation_name validation) "required")
            then setProp
                   ("fieldValidateRules" +:+ capitalize (validation_name validation))
                   (validation_value validation) field
            else field)
  | _ => None
  end.

Fixpoint validatedBy (validations : gmap string ValidationData)
  (field : FieldRecord) (validationIds : list string) : option FieldRecord :=
  match validationIds with
  | [] => Some field
  | validationId :: rest =>
      match validations !! validationId with
      | Some validation =>
          match ruled field validation with
          | Some field => validatedBy validations field rest
          | None => None
          end
      | None => None
      end
  end.

(** The record of lines 211-230, before the validations. *)
Definition typedField (pd : ParsedData) (fieldId : nat) (f : FieldData)
  : FieldRecord :=
  let fieldData : FieldRecord :=
    [ ("fieldId", JNum (Z.of_nat fieldId));
      ("fieldName", JStr (camelCase (field_name f)));
      ("javadoc", ofOption (formatComment (field_comment f))) ] in
  let fieldData :=
    match pd_types pd !! field_type f with
    | Some t => setProp "fieldType" (JStr (type_name t)) fieldData
    | None =>
        match pd_enums pd !! field_type f with
        | Some e =>
            setProp "fieldValues" (JStr (join "," (enum_values e)))
              (setProp "fieldType" (JStr (enum_name e)) fieldData)
        | None => fieldData
        end
    end in
  let fieldType := default JUndefined (assoc "fieldType" fieldData) in
  if isStr fieldType "ImageBlob"
  then setProp "fieldTypeBlobContent" (JStr "image")
         (setProp "fieldType" (JStr "byte[]") fieldData)
  else if isStr fieldType "Blob" || isStr fieldType "AnyBlob"
  then setProp "fieldTypeBlobContent" (JStr "any")
         (setProp "fieldType" (JStr "byte[]") fieldData)
  else fieldData.

(** The record that line 233 pushes. *)
Definition fieldRecord (pd : ParsedData) (fieldId : nat) (f : FieldData)
  : option FieldRecord :=
  if (length (field_validations f) =? 0)%nat then Some (typedField pd fieldId f)
  else validatedBy (pd_validations pd)
         (setProp "fieldValidateRules" (JArr []) (typedField pd fieldId f))
         (field_validations f).

(** The records pushed for the fields [fieldIds] on an entity that has
    [n] fields already. *)
Fixpoint fieldRecords (pd : ParsedData) (n : nat) (fieldIds : list string)
  : option (list FieldRecord) :=
  match fieldIds with
  | [] => Some []
  | fieldId :: rest =>
      match pd_fields pd !! fieldId with
      | Some f =>
          match fieldRecord pd (n + 1) f with
          | Some r =>
              match fieldRecords pd (S n) rest with
              | Some rs => Some (r :: rs)
              | None => None
              end
          | None => None
          end
      | None => None
      end
  end.
End FieldRecords.

(** The name of the type or of the enumeration that the field refers to
    (lines 217-222), and the content kind of the three binary types
    (lines 224-230). *)
Definition declaredType (pd : ParsedData) (f : FieldData) : option string :=
  match pd_types pd !! field_type f with
  | Some t => Some (type_name t)
  | None => enum_name <$> pd_enums pd !! field_type f
  end.

Definition blobContent (typeName : string) : option string :=
  if String.eqb typeName "ImageBlob" then Some "image"
  else if String.eqb typeName "Blob" || String.eqb typeName "AnyBlob"
  then Some "any"
  else None.

(** The property that holds the value of a validation. *)
Definition ruleKey {DB} `{!Externals DB} (validation : ValidationData) : string :=
  "fieldValidateRules" +:+ capitalize (validation_name validation).

(** ** What a run leaves of the parsed model *)

(** An association after a run: as it was, or retyped to MANY_TO_ONE
    when its inverse side is one that gets synthesized (line 331). *)
Definition evolved (a a' : Association) : Prop :=
  a' = a \/ (synthesizes a = true /\ a' = set_assoc_type MANY_TO_ONE a).

(** The association object after a run: the same identifiers in the same
    order, each with its association evolved. *)
Definition evolvedList (l l' : list (string * Association)) : Prop :=
  Forall2 (fun p p' => p'.1 = p.1 /\ evolved p.2 p'.2) l l'.

(** No association that gets its inverse side synthesized loops on one
    class. *)
Definition selfFree (pd : ParsedData) : Prop :=
  forall aid a,
    assoc aid (associations pd) = Some a ->
    synthesizes a = true -> assoc_from a <> assoc_to a.

(** The records are numbered 1, 2, ... in their order. *)
Definition numbered {G} (rs : list (Relationship G)) : Prop :=
  relationshipId <$> rs = seq 1 (length rs).

(** The invariant of the first loop of [fillEntities], relative to the
    model [pd] as the caller passed it: the stored model is [pd] with its
    associations evolved, and the records of every entity are numbered in
    their order, when no synthesized inverse side lands on the entity of
    its own source. *)
Definition evolving {DB G} (pd : ParsedData) (st : State DB G) : Prop :=
  (exists l',
      parsedData st = Some (set_associations (fun _ => l') pd) /\
      evolvedList (associations pd) l') /\
  (selfFree pd ->
   forall c e, entities st !! c = Some e -> numbered (relationships e)).

Section Tracking.
Context {DB G : Type} `{!Externals DB}.

(** The association has its two ends among the classes and passes
    [checkValidityOfAssociation] with their names. *)
Definition admitted (pd : ParsedData) (a : Association) : Prop :=
  exists fc tc,
    assoc (assoc_from a) (classes pd) = Some fc /\
    assoc (assoc_to a) (classes pd) = Some tc /\
    checkValidityOfAssociation a (class_name fc) (class_name tc) = true.

(** The stored model while the associations of [T] have gone through the
    from-side callback and no other has: the others are as the caller
    passed them, and those of [T] have been admitted. *)
Definition tracking (pd : ParsedData) (T : string -> Prop) (st : State DB G)
  : Prop :=
  (exists l',
      parsedData st = Some (set_associations (fun _ => l') pd) /\
      evolvedList (associations pd) l' /\
      forall aid, ~ T aid -> assoc aid l' = assoc aid (associations pd)) /\
  forall aid a,
    T aid -> assoc aid (associations pd) = Some a -> admitted pd a.

(** The associations whose source is one of the classes [ids]. *)
Definition leaving (pd : ParsedData) (ids : list string) (aid : string) : Prop :=
  exists a, assoc aid (associations pd) = Some a /\ assoc_from a ∈ ids.

(** The fields of the classes are there, with their validations, and no
    validation but [required] has a name that capitalizes to nothing. *)
Definition fieldsResolvable (pd : ParsedData) : Prop :=
  forall c cd fid,
    assoc c (classes pd) = Some cd -> fid ∈ class_fields cd ->
    exists f,
      pd_fields pd !! fid = Some f /\
      forall vid,
        vid ∈ field_validations f ->
        exists v,
          pd_validations pd !! vid = Some v /\
          (validation_name v = "required" \/
           capitalize (validation_name v) <> "").
End Tracking.

(** Every class has its entity. *)
Definition populated {DB G} (pd : ParsedData) (st : State DB G) : Prop :=
  forall c, c ∈ (classes pd).*1 -> is_Some (entities st !! c).

(** ** More concrete models *)

(** An Author with a name (required, at most 40 characters) and a
    portrait (an image), who has many Books with a title. *)
Definition catalogue : ParsedData :=
  mkParsedData
    [("c1", mkClass "Author" "Author" None (JStr "no") (JStr "no") (JStr "no")
              JUndefined JUndefined ["f1"; "f2"]);
     ("c2", mkClass "Book" "Book" None (JStr "no") (JStr "no") (JStr "no")
              JUndefined JUndefined ["f3"])]
    {[ "f1" := mkField "name" "t1" None ["v1"; "v2"];
       "f2" := mkField "portrait" "t2" None [];
       "f3" := mkField "title" "t1" None [] ]}
    {[ "t1" := mkType "String"; "t2" := mkType "ImageBlob" ]}
    ∅
    {[ "v1" := mkValidation "required" JUndefined;
       "v2" := mkValidation "maxlength" (JNum 40) ]}
    [("a1", mkAssociation "c1" "c2" ONE_TO_MANY (Some "books") None)].

(** A one-to-one association declared on both sides. *)
Definition authorAndBook : ParsedData :=
  authorBook ONE_TO_ONE (Some "book") (Some "author").

(** A class whose instances have many instances of the same class. *)
Definition nodeTree : ParsedData :=
  model [("c1", plainClass "Node")]
        [("a1", mkAssociation "c1" "c1" ONE_TO_MANY (Some "children") None)].

(** Authors and their Books, and a Shelf that no association touches. *)
Definition withShelf : ParsedData :=
  model [("c1", plainClass "Author"); ("c2", plainClass "Book");
         ("c3", plainClass "Shelf")]
        [("a1", mkAssociation "c1" "c2" ONE_TO_MANY (Some "books") None)].

(** Authors write Books, and Books have authors. *)
Definition coAuthored : ParsedData :=
  model [("c1", plainClass "Author"); ("c2", plainClass "Book")]
        [("a1", mkAssociation "c1" "c2" MANY_TO_MANY (Some "books")
                  (Some "authors"))].

(** A User with a login who has many Books, each of which names its
    owner. *)
Definition userLibrary : ParsedData :=
  mkParsedData
    [("c1", mkClass "User" "User" None (JStr "no") (JStr "no") (JStr "no")
              JUndefined JUndefined ["f1"]);
     ("c2", plainClass "Book")]
    {[ "f1" := mkField "login" "t1" None [] ]}
    {[ "t1" := mkType "String" ]}
    ∅ ∅
    [("a1", mkAssociation "c2" "c1" MANY_TO_ONE (Some "owner") None);
     ("a2", mkAssociation "c1" "c2" ONE_TO_MANY (Some "books") None)].

(** A snapshot directory whose Author file holds [null], and one whose
    Author file does not parse. *)
Definition nullSnapshot : gmap string (option JsVal) :=
  {[ ".jhipster/Author.json" := Some JNull ]}.

Definition brokenSnapshot : gmap string (option JsVal) :=
  {[ ".jhipster/Author.json" := None ]}.

(** Arguments with option collections. *)
Definition argsWithOptions : Args StorageKind :=
  mkArgs (Some authorHasBooks) (Some sql) (Some ["Author"])
    (Some {[ "Author" := JStr "pager" ]}) None None (Some ["Book"]).

(** The state that a run leaves, with the clock set back. *)
Definition leftover : State StorageKind (string * Site) :=
  set_clockReads (fun _ => 0) (snd (runAt noon ∅ userOwnsBook)).

(** * Properties *)

Local Open Scope list_scope.

Section Theory.
Context {DB G : Type} `{!Externals DB} `{!Tagging G} `{!EqDecision G}.

Implicit Types (st : State DB G) (pd : ParsedData).

Local Abbreviation raises := (raises (DB:=DB) (G:=G)).
Local Abbreviation relates := (relates (DB:=DB) (G:=G)).
Local Abbreviation fieldsFrame := (fieldsFrame (DB:=DB) (G:=G)).
Local Abbreviation relationshipsFrame := (relationshipsFrame (DB:=DB) (G:=G)).

(** ** Running the monad *)

Lemma bind_ok {A B} (m : M A) (k : A -> M B) st b st' :
  bind m k st = (Ok b, st') ->
  exists a st1, m st = (Ok a, st1) /\ k a st1 = (Ok b, st').
Proof.
  unfold bind. destruct (m st) as [[a|e] st1]; [eauto | discriminate].
Qed.

Lemma bind_throw {A B} (m : M A) (k : A -> M B) st e st' :
  bind m k st = (Throw e, st') ->
  m st = (Throw e, st') \/
  exists a st1, m st = (Ok a, st1) /\ k a st1 = (Throw e, st').
Proof.
  unfold bind. destruct (m st) as [[a|e1] st1]; intros H.
  - right. eauto.
  - left. injection H as <- <-. reflexivity.
Qed.

Lemma bind_run {A B} (m : M A) (k : A -> M B) st a st1 :
  m st = (Ok a, st1) -> bind m k st = k a st1.
Proof. unfold bind. intros ->. reflexivity. Qed.

Lemma ret_ok {A} (a b : A) st st' :
  ret a st = (Ok b, st') -> b = a /\ st' = st.
Proof. unfold ret. intros [= <- <-]. auto. Qed.

Lemma gets_ok {A} (f : State DB G -> A) st b st' :
  gets f st = (Ok b, st') -> b = f st /\ st' = st.
Proof. unfold gets. intros [= <- <-]. auto. Qed.

Lemma modify_ok (f : State DB G -> State DB G) st u st' :
  modify f st = (Ok u, st') -> st' = f st.
Proof. unfold modify. intros [= <-]. auto. Qed.

Lemma defined_ok {A} (o : option A) st a st' :
  defined o st = (Ok a, st') -> o = Some a /\ st' = st.
Proof. destruct o; cbn; [intros [= <- <-]; auto | discriminate]. Qed.

Lemma throw_ok {A} e st (a : A) st' : throw e st = (Ok a, st') -> False.
Proof. discriminate. Qed.

(** ** Which exceptions a computation can raise *)

Lemma raises_ret {A} P (a : A) : raises P (ret a).
Proof. intros st e st'. discriminate. Qed.

Lemma raises_gets {A} P (f : State DB G -> A) : raises P (gets f).
Proof. intros st e st'. discriminate. Qed.

Lemma raises_modify P (f : State DB G -> State DB G) : raises P (modify f).
Proof. intros st e st'. discriminate. Qed.

Lemma raises_throw {A} (P : Exn -> Prop) e : P e -> raises P (throw (A:=A) e).
Proof. intros HP st e' st' [= <- _]. exact HP. Qed.

Lemma raises_defined {A} (P : Exn -> Prop) (o : option A) :
  P TypeError -> raises P (defined o).
Proof. intros HP. destruct o; [apply raises_ret | apply raises_throw, HP]. Qed.

Lemma raises_bind {A B} P (m : M A) (k : A -> M B) :
  raises P m -> (forall a, raises P (k a)) -> raises P (bind m k).
Proof.
  intros Hm Hk st e st' H. apply bind_throw in H as [H | (a & st1 & _ & H)].
  - eapply Hm, H.
  - eapply Hk, H.
Qed.

Lemma raises_forEach {A} P (f : A -> M unit) (l : list A) :
  (forall x, raises P (f x)) -> raises P (forEach f l).
Proof.
  intros Hf. induction l as [|x l IH]; cbn.
  - apply raises_ret.
  - apply raises_bind; auto.
Qed.

Ltac raises_step :=
  first
    [ apply raises_ret | apply raises_gets | apply raises_modify
    | apply raises_throw; done | apply raises_defined; done
    | apply raises_bind; [| intros ?]
    | apply raises_forEach; intros ? ].

Ltac raises_tac := repeat (first [ raises_step | case_match ]).

Section Raises.
Variable P : Exn -> Prop.
Hypothesis P_TypeError : P TypeError.
Hypothesis P_SyntaxError : P SyntaxError.
Hypothesis P_InvalidAssociation : P InvalidAssociation.

Lemma raises_getClass c : raises P (getClass c).
Proof. unfold getClass, theParsedData. raises_tac. Qed.

Lemma raises_getEntity c : raises P (getEntity (G:=G) c).
Proof. unfold getEntity. raises_tac. Qed.

Lemma raises_readJSONFiles : raises P readJSONFiles.
Proof.
  unfold readJSONFiles, readJSONFile, getClass, theParsedData. raises_tac.
Qed.

Lemma raises_initializeEntitiesFrom i l : raises P (initializeEntitiesFrom i l).
Proof.
  revert i. induction l as [|c l IH]; intros i; cbn; [apply raises_ret|].
  apply raises_bind; [| intros _; apply IH].
  unfold initializeEntity, getChangelogDate, newDate, setOptions,
    getClass, theParsedData.
  raises_tac.
Qed.

Lemma raises_initializeEntities : raises P initializeEntities.
Proof.
  unfold initializeEntities, theParsedData.
  apply raises_bind; [raises_tac | intros ?].
  apply raises_initializeEntitiesFrom.
Qed.

Lemma raises_setValidations f l : raises P (setValidations f l).
Proof.
  revert f. induction l as [|v l IH]; intros f; cbn; [apply raises_ret|].
  apply raises_bind; [| intros ?; apply IH].
  unfold setValidation, getValidation, theParsedData. raises_tac.
Qed.

Lemma raises_setField c f : raises P (setField c f).
Proof.
  unfold setField.
  apply raises_bind; [apply raises_getEntity | intros ?].
  apply raises_bind; [unfold getField, theParsedData; raises_tac | intros ?].
  apply raises_bind; [unfold theParsedData; raises_tac | intros ?].
  apply raises_bind; [| intros ?].
  - unfold setValidationsOfField.
    apply raises_bind; [unfold getField, theParsedData; raises_tac | intros ?].
    case_match; [apply raises_ret | apply raises_setValidations].
  - apply raises_bind; [apply raises_getEntity | intros ?].
    apply raises_modify.
Qed.

Lemma raises_setFieldsOfEntity c : raises P (setFieldsOfEntity c).
Proof.
  unfold setFieldsOfEntity.
  apply raises_bind; [apply raises_getClass | intros ?].
  apply raises_forEach. intros ?. apply raises_setField.
Qed.

Lemma raises_fromStep c a : raises P (fromStep c a).
Proof.
  unfold fromStep, modifyAssociation, pushRelationship, getEntity,
    getClass, getAssociation, theParsedData.
  raises_tac.
Qed.

Lemma raises_toStep c a : raises P (toStep c a).
Proof.
  unfold toStep, modifyAssociation, pushRelationship, getEntity,
    getClass, getAssociation, theParsedData.
  raises_tac.
Qed.

Lemma raises_setRelationshipOfEntity c : raises P (setRelationshipOfEntity c).
Proof.
  unfold setRelationshipOfEntity.
  apply raises_bind; [unfold theParsedData; raises_tac | intros ?].
  apply raises_bind; [raises_tac | intros ?].
  apply raises_bind; [| intros ?]; apply raises_forEach; intros ?.
  - apply raises_fromStep.
  - apply raises_toStep.
Qed.

Lemma raises_fillEntities : raises P fillEntities.
Proof.
  unfold fillEntities, resolveEntities, suppressEntities.
  apply raises_bind; [| intros ?].
  - apply raises_bind; [unfold theParsedData; raises_tac | intros ?].
    apply raises_forEach. intros c. unfold fillEntity.
    apply raises_bind; [apply raises_getClass | intros ?].
    apply raises_bind; [raises_tac | intros ?].
    apply raises_bind; [apply raises_setFieldsOfEntity | intros ?].
    apply raises_setRelationshipOfEntity.
  - apply raises_bind; [apply raises_gets | intros ?].
    apply raises_forEach. intros ?. apply raises_modify.
Qed.
End Raises.

(** ** The guard on non-relational storage *)

Lemma checkNoSQLModeling_run st db pd :
  databaseTypes st = Some db -> parsedData st = Some pd ->
  checkNoSQLModeling st =
    (if isNoSQL db && negb (length (associations pd) =? 0)%nat
     then Throw NoSQLModeling else Ok tt, st).
Proof.
  intros Hdb Hpd. unfold checkNoSQLModeling, theParsedData, bind, gets.
  rewrite Hdb. cbn. rewrite Hpd. cbn. rewrite length_map.
  destruct (isNoSQL db && _); reflexivity.
Qed.

Lemma after_check_not_NoSQLModeling :
  raises (fun e => e <> NoSQLModeling)
    (readJSONFiles ;; initializeEntities ;; fillEntities ;; gets entities).
Proof.
  apply raises_bind; [apply raises_readJSONFiles; done | intros _].
  apply raises_bind; [apply raises_initializeEntities; done | intros _].
  apply raises_bind; [apply raises_fillEntities; done | intros _].
  apply raises_gets.
Qed.

Lemma createEntities_run (args : Args DB) st pd db :
  arg_parsedData args = Some pd -> arg_databaseTypes args = Some db ->
  createEntities args st =
    if isNoSQL db && negb (length (associations pd) =? 0)%nat
    then (Throw NoSQLModeling, snd (init (merge args) st))
    else (readJSONFiles ;; initializeEntities ;; fillEntities ;; gets entities)
           (snd (init (merge args) st)).
Proof.
  intros Hpd Hdb. unfold createEntities.
  cbn [merge arg_parsedData arg_databaseTypes]. rewrite Hpd, Hdb.
  set (st0 := snd (init (merge args) st)).
  assert (Hinit : init (merge args) st = (Ok tt, st0)) by reflexivity.
  rewrite (bind_run _ _ _ _ _ Hinit).
  unfold bind at 1.
  rewrite (checkNoSQLModeling_run st0 db pd) by (cbn; assumption).
  destruct (isNoSQL db && _); reflexivity.
Qed.

Lemma createEntities_missing (args : Args DB) st :
  arg_parsedData args = None \/ arg_databaseTypes args = None ->
  createEntities args st = (Throw NullPointer, st).
Proof.
  unfold createEntities. cbn [merge arg_parsedData arg_databaseTypes].
  intros [-> | ->]; [| destruct (arg_parsedData args)]; reflexivity.
Qed.

(** C8.  [createEntities] throws the NoSQLModeling exception exactly when
    the parsed model and the storage types are given, the storage is
    non-relational and there is at least one association; the state at
    that throw holds no entity (and no snapshot has been read), and the
    parsed model is the caller's, untouched. *)
Theorem createEntities_NoSQLModeling_iff (args : Args DB) st :
  (fst (createEntities args st) = Throw NoSQLModeling <->
   exists pd db,
     arg_parsedData args = Some pd /\ arg_databaseTypes args = Some db /\
     isNoSQL db = true /\ associations pd <> []) /\
  (fst (createEntities args st) = Throw NoSQLModeling ->
   entities (snd (createEntities args st)) = ∅ /\
   onDiskEntities (snd (createEntities args st)) = ∅ /\
   parsedData (snd (createEntities args st)) = arg_parsedData args).
Proof.
  destruct (arg_parsedData args) as [pd|] eqn:Hpd;
    [destruct (arg_databaseTypes args) as [db|] eqn:Hdb |].
  2,3: rewrite createEntities_missing by auto;
    split; [split; [discriminate | intros (? & ? & ? & ? & _); congruence]
           | discriminate].
  rewrite (createEntities_run args st pd db Hpd Hdb).
  destruct (isNoSQL db && negb (length (associations pd) =? 0)%nat) eqn:Hguard.
  - apply andb_prop in Hguard as [Hno Hne].
    split; [split; [intros _ | reflexivity] | intros _; cbn; auto].
    exists pd, db. repeat split; [exact Hno |].
    intros Has. rewrite Has in Hne. discriminate.
  - assert (Hnot : fst ((readJSONFiles ;; initializeEntities ;; fillEntities ;;
                         gets entities) (snd (init (merge args) st)))
                   <> Throw NoSQLModeling).
    { destruct ((readJSONFiles ;; initializeEntities ;; fillEntities ;;
                 gets entities) (snd (init (merge args) st)))
        as [[r|e] st1] eqn:Hrest; [discriminate |].
      cbn. intros [= ->].
      eapply after_check_not_NoSQLModeling; [exact Hrest | reflexivity]. }
    split; [split |]; [tauto | | tauto].
    intros (pd' & db' & [= <-] & [= <-] & Hyes & Hne).
    rewrite Hyes in Hguard. destruct (associations pd); [congruence | discriminate].
Qed.
(** ** What a computation leaves unchanged *)

Section Relates.
Context (R : relation (State DB G)) `{!PreOrder R}.

Lemma relates_ret {A} (a : A) : relates R (ret a).
Proof. intros st b st' [_ ->]%ret_ok. reflexivity. Qed.

Lemma relates_gets {A} (f : State DB G -> A) : relates R (gets f).
Proof. intros st b st' [_ ->]%gets_ok. reflexivity. Qed.

Lemma relates_throw {A} ex : relates R (throw (A:=A) ex).
Proof. intros st b st' []%throw_ok. Qed.

Lemma relates_defined {A} (o : option A) : relates R (defined o).
Proof. intros st b st' [_ ->]%defined_ok. reflexivity. Qed.

Lemma relates_modify f : (forall st, R st (f st)) -> relates R (modify f).
Proof. intros Hf st b st' ->%modify_ok. apply Hf. Qed.

Lemma relates_bind {A B} (m : M A) (k : A -> M B) :
  relates R m -> (forall a, relates R (k a)) -> relates R (bind m k).
Proof.
  intros Hm Hk st b st' (a & st1 & H1 & H2)%bind_ok.
  transitivity st1; [eapply Hm, H1 | eapply Hk, H2].
Qed.

Lemma relates_forEach {A} (f : A -> M unit) (l : list A) :
  (forall x, relates R (f x)) -> relates R (forEach f l).
Proof.
  intros Hf. induction l as [|x l IH]; cbn.
  - apply relates_ret.
  - apply relates_bind; auto.
Qed.

Lemma relates_theParsedData : relates R theParsedData.
Proof.
  apply relates_bind; [apply relates_gets | intros ?; apply relates_defined].
Qed.

Lemma relates_getClass c : relates R (getClass c).
Proof.
  apply relates_bind;
    [apply relates_theParsedData | intros ?; apply relates_defined].
Qed.

Lemma relates_getAssociation c : relates R (getAssociation c).
Proof.
  apply relates_bind;
    [apply relates_theParsedData | intros ?; apply relates_defined].
Qed.

Lemma relates_getField c : relates R (getField c).
Proof.
  apply relates_bind;
    [apply relates_theParsedData | intros ?; apply relates_defined].
Qed.

Lemma relates_getEntity c : relates R (getEntity (G:=G) c).
Proof.
  apply relates_bind; [apply relates_gets | intros ?; apply relates_defined].
Qed.

Lemma relates_setValidations f l : relates R (setValidations f l).
Proof.
  revert f. induction l as [|v l IH]; intros f; cbn; [apply relates_ret |].
  apply relates_bind; [| intros ?; apply IH].
  unfold setValidation, getValidation.
  apply relates_bind.
  - apply relates_bind;
      [apply relates_theParsedData | intros ?; apply relates_defined].
  - intros ?. repeat case_match;
      first [apply relates_ret | apply relates_throw].
Qed.

(** The field assembler, given that appending a field record to an
    entity is within [R]. *)
Lemma relates_setFieldsOfEntity c :
  (forall c' fd st,
      R st (set_entities
              (alter (set_fields (fun fs => fs ++ [fd])) c') st)) ->
  relates R (setFieldsOfEntity c).
Proof.
  intros Hpush. unfold setFieldsOfEntity.
  apply relates_bind; [apply relates_getClass | intros ?].
  apply relates_forEach. intros fieldId. unfold setField.
  apply relates_bind; [apply relates_getEntity | intros ?].
  apply relates_bind; [apply relates_getField | intros ?].
  apply relates_bind; [apply relates_theParsedData | intros ?].
  apply relates_bind.
  - unfold setValidationsOfField.
    apply relates_bind; [apply relates_getField | intros ?].
    case_match; [apply relates_ret | apply relates_setValidations].
  - intros ?. apply relates_bind; [apply relates_getEntity | intros ?].
    apply relates_modify. intros st. apply Hpush.
Qed.

(** The relationship resolver, given that pushing a record and
    assigning to an association are within [R]. *)
Lemma relates_setRelationshipOfEntity c :
  (forall c' r st, R st (pushed c' r st)) ->
  (forall aid f st,
      R st (set_parsedData (fmap (set_associations (update aid f))) st)) ->
  relates R (setRelationshipOfEntity c).
Proof.
  intros Hpush Hassoc.
  assert (HpushR : forall c' r, relates R (pushRelationship c' r)).
  { intros c' r. apply relates_bind; [apply relates_getEntity | intros ?].
    apply relates_modify. intros st. apply Hpush. }
  assert (Hmod : forall aid f, relates R (modifyAssociation aid f)).
  { intros aid f. apply relates_modify. intros st. apply Hassoc. }
  unfold setRelationshipOfEntity.
  apply relates_bind; [apply relates_theParsedData | intros ?].
  apply relates_bind; [apply relates_defined | intros ?].
  apply relates_bind; [| intros ?]; apply relates_forEach; intros aid.
  - unfold fromStep.
    apply relates_bind; [apply relates_getAssociation | intros asc].
    apply relates_bind; [apply relates_getClass | intros ?].
    apply relates_bind; [apply relates_getClass | intros ?].
    case_match; [apply relates_throw |].
    apply relates_bind; [apply relates_getEntity | intros ?].
    destruct (assoc_type asc); try apply HpushR.
    + case_match; [| apply HpushR].
      apply relates_bind; [apply relates_getEntity | intros ?].
      apply relates_bind; [apply Hmod | intros ?].
      apply relates_bind; [apply HpushR | intros ?]. apply HpushR.
    + case_match; apply HpushR.
  - unfold toStep.
    apply relates_bind; [apply relates_getAssociation | intros asc].
    apply relates_bind; [apply relates_getEntity | intros ?].
    destruct (assoc_type asc).
    + apply relates_bind; [apply relates_getClass | intros ?]. apply HpushR.
    + apply relates_bind; [apply Hmod | intros ?].
      apply relates_bind; [apply relates_getClass | intros ?]. apply HpushR.
    + case_match; [| apply HpushR].
      apply relates_bind; [apply relates_getClass | intros ?]. apply HpushR.
    + apply relates_bind; [apply relates_getClass | intros ?]. apply HpushR.
Qed.
End Relates.

Global Instance fieldsFrame_PreOrder : PreOrder fieldsFrame.
Proof.
  split.
  - intros st. unfold fieldsFrame. auto.
  - intros st1 st2 st3 (H1 & H2 & H3) (H1' & H2' & H3').
    unfold fieldsFrame. repeat split; try congruence;
      intros c; by rewrite H3', H3.
Qed.

Global Instance relationshipsFrame_PreOrder : PreOrder relationshipsFrame.
Proof.
  split.
  - intros st. unfold relationshipsFrame. auto.
  - intros st1 st2 st3 (H1 & H2 & H3) (H1' & H2' & H3').
    unfold relationshipsFrame. repeat split; try congruence;
      intros c; by rewrite H3', H3.
Qed.

Lemma setFieldsOfEntity_frame c : relates fieldsFrame (setFieldsOfEntity c).
Proof.
  apply relates_setFieldsOfEntity; [apply _ |].
  intros c' fd st. unfold fieldsFrame. cbn. repeat split.
  intros c0. rewrite lookup_alter. case_decide; [subst |]; [| done].
  by destruct (entities st !! c0).
Qed.

Lemma setRelationshipOfEntity_frame c :
  relates relationshipsFrame (setRelationshipOfEntity c).
Proof.
  apply relates_setRelationshipOfEntity; [apply _ | |].
  - intros c' r st. unfold relationshipsFrame. cbn. repeat split.
    intros c0. rewrite lookup_alter. case_decide; [subst |]; [| done].
    by destruct (entities st !! c0).
  - intros aid f st. unfold relationshipsFrame. cbn. repeat split.
    by destruct (parsedData st).
Qed.

(** ** What the accessors return *)

Lemma theParsedData_ok st pd st' :
  theParsedData st = (Ok pd, st') -> st' = st /\ parsedData st = Some pd.
Proof.
  unfold theParsedData. intros H.
  apply bind_ok in H as (o & st1 & H1 & H).
  apply gets_ok in H1 as [-> ->]. apply defined_ok in H as [H ->]. auto.
Qed.

Lemma getClass_ok c st x st' :
  getClass c st = (Ok x, st') ->
  st' = st /\ exists pd, parsedData st = Some pd /\ assoc c (classes pd) = Some x.
Proof.
  unfold getClass. intros H.
  apply bind_ok in H as (pd & st1 & H1 & H).
  apply theParsedData_ok in H1 as [-> Hpd].
  apply defined_ok in H as [H ->]. eauto.
Qed.

Lemma getAssociation_ok aid st a st' :
  getAssociation aid st = (Ok a, st') ->
  st' = st /\
  exists pd, parsedData st = Some pd /\ assoc aid (associations pd) = Some a.
Proof.
  unfold getAssociation. intros H.
  apply bind_ok in H as (pd & st1 & H1 & H).
  apply theParsedData_ok in H1 as [-> Hpd].
  apply defined_ok in H as [H ->]. eauto.
Qed.

Lemma getEntity_ok c st (x : Entity G) st' :
  getEntity c st = (Ok x, st') -> st' = st /\ entities st !! c = Some x.
Proof.
  unfold getEntity. intros H.
  apply bind_ok in H as (es & st1 & H1 & H).
  apply gets_ok in H1 as [-> ->]. apply defined_ok in H as [H ->]. auto.
Qed.

Lemma pushRelationship_ok c r st u st' :
  pushRelationship c r st = (Ok u, st') ->
  is_Some (entities st !! c) /\ st' = pushed c r st.
Proof.
  unfold pushRelationship. intros H.
  apply bind_ok in H as (x & st1 & H1 & H).
  apply getEntity_ok in H1 as [-> Hx]. apply modify_ok in H. eauto.
Qed.

Lemma modifyAssociation_ok aid f st u st' :
  modifyAssociation aid f st = (Ok u, st') ->
  st' = set_parsedData (fmap (set_associations (update aid f))) st.
Proof. unfold modifyAssociation. apply modify_ok. Qed.

(** ** What one step of the resolver does *)

Lemma fromStep_ok c aid st st' :
  fromStep c aid st = (Ok tt, st') ->
  exists pd a fc tc e,
    parsedData st = Some pd /\
    assoc aid (associations pd) = Some a /\
    assoc (assoc_from a) (classes pd) = Some fc /\
    assoc (assoc_to a) (classes pd) = Some tc /\
    checkValidityOfAssociation a (class_name fc) (class_name tc) = true /\
    entities st !! c = Some e /\
    let r := fromRecord a (class_name fc) (class_name tc)
               (length (relationships e) + 1) (tag aid FromSide) in
    if synthesizes a
    then exists et,
        entities st !! assoc_to a = Some et /\
        st' = pushed c r
                (pushed (assoc_to a)
                   (synthesizedRecord a (class_name fc)
                      (length (relationships et) + 1) (tag aid Synthesized))
                   (retyped aid st))
    else st' = pushed c r st.
Proof.
  unfold fromStep. intros H.
  apply bind_ok in H as (a & st1 & H1 & H).
  apply getAssociation_ok in H1 as [-> (pd & Hpd & Ha)].
  apply bind_ok in H as (fc & st1 & H1 & H).
  apply getClass_ok in H1 as [-> (pd1 & Hpd1 & Hfc)].
  apply bind_ok in H as (tc & st1 & H1 & H).
  apply getClass_ok in H1 as [-> (pd2 & Hpd2 & Htc)].
  assert (pd1 = pd) as -> by congruence.
  assert (pd2 = pd) as -> by congruence.
  destruct (checkValidityOfAssociation a (class_name fc) (class_name tc))
    eqn:Hvalid; cbn [negb] in H; [| discriminate].
  apply bind_ok in H as (e & st1 & H1 & H).
  apply getEntity_ok in H1 as [-> He].
  exists pd, a, fc, tc, e. repeat (split; [assumption |]).
  unfold fromRecord, synthesizes. cbn zeta.
  destruct (assoc_type a) eqn:Hty; cbn [bool_decide andb].
  - rewrite bool_decide_eq_false_2 by discriminate. cbn [andb].
    apply pushRelationship_ok in H as [_ ->]. reflexivity.
  - rewrite bool_decide_eq_true_2 by reflexivity. cbn [andb].
    destruct (present (injectedFieldInTo a)) eqn:HiT; cbn [negb] in *.
    + apply pushRelationship_ok in H as [_ ->]. reflexivity.
    + apply bind_ok in H as (et & st1 & H1 & H).
      apply getEntity_ok in H1 as [-> Het].
      apply bind_ok in H as (u1 & st1 & H1 & H).
      apply modifyAssociation_ok in H1 as ->.
      apply bind_ok in H as (u2 & st2 & H1 & H).
      apply pushRelationship_ok in H1 as [_ ->].
      apply pushRelationship_ok in H as [_ ->].
      exists et. split; [exact Het | reflexivity].
  - rewrite bool_decide_eq_false_2 by discriminate. cbn [andb].
    destruct (present (injectedFieldInFrom a));
      apply pushRelationship_ok in H as [_ ->]; reflexivity.
  - rewrite bool_decide_eq_false_2 by discriminate. cbn [andb].
    apply pushRelationship_ok in H as [_ ->]. reflexivity.
Qed.
Lemma update_same {A} k (f : A -> A) (l : list (string * A)) v :
  assoc k l = Some v -> f v = v -> update k f l = l.
Proof.
  induction l as [|[k' v'] l IH]; cbn; [done |].
  destruct (String.eqb k k'); intros Hv Hf.
  - injection Hv as ->. rewrite Hf. reflexivity.
  - rewrite IH; auto.
Qed.

Lemma set_injectedFieldInTo_present a s :
  present (injectedFieldInTo a) = true ->
  set_injectedFieldInTo (Some (optOrElse (injectedFieldInTo a) s)) a = a.
Proof.
  destruct a as [f t ty iF [iT|]]; cbn; [| discriminate].
  unfold orElse. destruct (String.eqb iT ""); [discriminate | reflexivity].
Qed.

Lemma set_parsedData_same st pd (f : list (string * Association) -> _) :
  parsedData st = Some pd -> f (associations pd) = associations pd ->
  set_parsedData (fmap (set_associations f)) st = st.
Proof.
  destruct st, pd. cbn. intros -> Hf. unfold set_parsedData, set_associations.
  cbn. rewrite Hf. reflexivity.
Qed.

Lemma toStep_ok c aid st st' :
  toStep c aid st = (Ok tt, st') ->
  exists pd a,
    parsedData st = Some pd /\
    assoc aid (associations pd) = Some a /\
    (present (injectedFieldInTo a) = true ->
     exists fc e,
       assoc (assoc_from a) (classes pd) = Some fc /\
       entities st !! c = Some e /\
       st' = pushed c (toRecord a (class_name fc)
                         (length (relationships e) + 1) (tag aid ToSide)) st).
Proof.
  unfold toStep. intros H.
  apply bind_ok in H as (a & st1 & H1 & H).
  apply getAssociation_ok in H1 as [-> (pd & Hpd & Ha)].
  apply bind_ok in H as (e & st1 & H1 & H).
  apply getEntity_ok in H1 as [-> He].
  exists pd, a. do 2 (split; [assumption |]). intros HiT.
  unfold toRecord. cbn zeta.
  destruct (assoc_type a) eqn:Hty.
  - apply bind_ok in H as (fc & st1 & H1 & H).
    apply getClass_ok in H1 as [-> (pd1 & Hpd1 & Hfc)].
    assert (pd1 = pd) as -> by congruence.
    apply pushRelationship_ok in H as [_ ->].
    exists fc, e. rewrite decide_False by discriminate. auto.
  - apply bind_ok in H as (u & st1 & H1 & H).
    apply modifyAssociation_ok in H1.
    rewrite (set_parsedData_same st pd) in H1; [subst st1 | exact Hpd |].
    2:{ eapply update_same; [exact Ha |].
        apply set_injectedFieldInTo_present, HiT. }
    apply bind_ok in H as (fc & st1 & H1 & H).
    apply getClass_ok in H1 as [-> (pd1 & Hpd1 & Hfc)].
    assert (pd1 = pd) as -> by congruence.
    apply pushRelationship_ok in H as [_ ->].
    exists fc, e. rewrite decide_True by reflexivity.
    do 2 (split; [assumption |]).
    assert (Hsame : Some (optOrElse (injectedFieldInTo a)
                            (lowerFirst (assoc_from a))) = injectedFieldInTo a).
    { pose proof (set_injectedFieldInTo_present a (lowerFirst (assoc_from a)) HiT)
        as Hs.
      apply (f_equal injectedFieldInTo) in Hs. exact Hs. }
    rewrite Hsame. reflexivity.
  - rewrite HiT in H.
    apply bind_ok in H as (fc & st1 & H1 & H).
    apply getClass_ok in H1 as [-> (pd1 & Hpd1 & Hfc)].
    assert (pd1 = pd) as -> by congruence.
    apply pushRelationship_ok in H as [_ ->].
    exists fc, e. rewrite decide_False by discriminate. auto.
  - apply bind_ok in H as (fc & st1 & H1 & H).
    apply getClass_ok in H1 as [-> (pd1 & Hpd1 & Hfc)].
    assert (pd1 = pd) as -> by congruence.
    apply pushRelationship_ok in H as [_ ->].
    exists fc, e. rewrite decide_False by discriminate. auto.
Qed.
(** ** Association lists *)

Lemma assoc_elem {A} k (l : list (string * A)) v :
  assoc k l = Some v -> (k, v) ∈ l.
Proof.
  induction l as [|[k' v'] l IH]; cbn; [done |].
  destruct (String.eqb k k') eqn:Hk.
  - apply String.eqb_eq in Hk as ->. intros [= ->]. left.
  - intros H. right. auto.
Qed.

Lemma assoc_NoDup {A} k (l : list (string * A)) v :
  NoDup l.*1 -> (k, v) ∈ l -> assoc k l = Some v.
Proof.
  induction l as [|[k' v'] l IH]; cbn; intros Hnd Hin.
  - by apply elem_of_nil in Hin.
  - apply NoDup_cons in Hnd as [Hk' Hnd].
    apply elem_of_cons in Hin as [[= -> ->] | Hin].
    + by rewrite String.eqb_refl.
    + destruct (String.eqb k k') eqn:Hk; [| auto].
      apply String.eqb_eq in Hk as ->. exfalso. apply Hk'.
      apply list_elem_of_fmap. by exists (k', v).
Qed.

Lemma assoc_fmap_snd {A B} (g : string * A -> B) k (l : list (string * A)) :
  assoc k ((fun p => (p.1, g p)) <$> l) = (fun v => g (k, v)) <$> assoc k l.
Proof.
  induction l as [|[k' v'] l IH]; cbn; [done |].
  destruct (String.eqb k k') eqn:Hk; [| exact IH].
  apply String.eqb_eq in Hk as ->. reflexivity.
Qed.

Lemma update_fmap_NoDup {A} (g h : string * A -> A) (f : A -> A) k
  (l : list (string * A)) :
  NoDup l.*1 ->
  (forall v, h (k, v) = f (g (k, v))) ->
  (forall k' v, k' <> k -> h (k', v) = g (k', v)) ->
  update k f ((fun p => (p.1, g p)) <$> l) = (fun p => (p.1, h p)) <$> l.
Proof.
  intros Hnd Hk Hother.
  induction l as [|[k' v'] l IH]; cbn; [done |].
  apply NoDup_cons in Hnd as [Hk' Hnd].
  destruct (String.eqb k k') eqn:Hkk.
  - apply String.eqb_eq in Hkk as <-. rewrite Hk. f_equal.
    apply list_fmap_ext. intros i [k2 v2] Hl. cbn. f_equal.
    symmetry. apply Hother. intros ->. apply Hk'.
    apply list_elem_of_fmap. exists (k, v2). split; [done |].
    eapply list_elem_of_lookup_2, Hl.
  - apply String.eqb_neq in Hkk. rewrite Hother by congruence.
    f_equal. apply IH, Hnd.
Qed.

Lemma origin_fromRecord a fromName toName id (g : G) :
  origin (fromRecord a fromName toName id g) = g.
Proof.
  unfold fromRecord.
  destruct (assoc_type a), (present (injectedFieldInFrom a)); reflexivity.
Qed.

Lemma origin_toRecord a fromName id (g : G) :
  origin (toRecord a fromName id g) = g.
Proof. unfold toRecord. destruct (assoc_type a); reflexivity. Qed.

(** ** The invariant, step by step *)

Section Resolution.
Variable cs : list (string * ClassData).
Variable as0 : list (string * Association).
Hypothesis as0_NoDup : NoDup as0.*1.
Hypothesis tag_inj :
  forall a s a' s', tag (G:=G) a s = tag a' s' -> a = a' /\ s = s'.

Lemma normalize_other D aid s :
  s <> Synthesized ->
  normalize ((aid, s) :: D) <$> as0 = normalize D <$> as0.
Proof.
  intros Hs. apply list_fmap_ext. intros i [k a] _. unfold normalize. cbn.
  f_equal. rewrite !bool_decide_decide.
  destruct (decide ((k, Synthesized) ∈ D)) as [Hin | Hin].
  - rewrite decide_True; [done | by right].
  - rewrite decide_False; [done |].
    intros [[= _ <-] | ?]%elem_of_cons; done.
Qed.

Lemma normalize_retype D aid :
  (aid, Synthesized) ∉ D ->
  update aid (set_assoc_type MANY_TO_ONE) (normalize D <$> as0)
  = normalize ((aid, Synthesized) :: D) <$> as0.
Proof.
  intros Hfresh. unfold normalize.
  apply (update_fmap_NoDup
           (fun p => if bool_decide ((p.1, Synthesized) ∈ D)
                     then set_assoc_type MANY_TO_ONE p.2 else p.2)
           (fun p => if bool_decide ((p.1, Synthesized) ∈ (aid, Synthesized) :: D)
                     then set_assoc_type MANY_TO_ONE p.2 else p.2));
    [exact as0_NoDup | |].
  - intros v. cbn. rewrite bool_decide_eq_true_2 by left.
    rewrite bool_decide_eq_false_2 by exact Hfresh. reflexivity.
  - intros k' v Hk'. cbn. rewrite !bool_decide_decide.
    destruct (decide ((k', Synthesized) ∈ D)) as [Hin | Hin].
    + rewrite decide_True; [done | by right].
    + rewrite decide_False; [done |].
      intros [[= ->] | ?]%elem_of_cons; done.
Qed.

Lemma assoc_normalize D aid :
  assoc aid (normalize D <$> as0)
  = (fun a => (normalize D (aid, a)).2) <$> assoc aid as0.
Proof. unfold normalize. apply assoc_fmap_snd. Qed.

Lemma resolvedUpTo_push D es aid s a c e r :
  resolvedUpTo cs as0 D es ->
  (aid, s) ∉ D ->
  es !! c = Some e ->
  assoc aid as0 = Some a ->
  place a s = c ->
  shape cs aid a s r ->
  origin r = tag aid s ->
  resolvedUpTo cs as0 ((aid, s) :: D)
    (alter (set_relationships (fun rs => (rs ++ [r])%list)) c es).
Proof.
  intros [Hsound Huniq Hcompl] Hfresh He Ha Hplace Hshape Horigin.
  split.
  - intros c' e' r' He' Hr'. rewrite lookup_alter in He'.
    destruct (decide (c = c')) as [<- | Hne]; cbn in He'.
    + rewrite He in He'. injection He' as <-. cbn in Hr'.
      apply elem_of_app in Hr' as [Hr' | ->%list_elem_of_singleton].
      * destruct (Hsound _ _ _ He Hr') as (aid' & s' & a' & ? & ? & ? & ? & ?).
        exists aid', s', a'. repeat split; try done. by right.
      * exists aid, s, a. repeat split; try done. by left.
    + destruct (Hsound _ _ _ He' Hr') as (aid' & s' & a' & ? & ? & ? & ? & ?).
      exists aid', s', a'. repeat split; try done. by right.
  - intros c' e' He'. rewrite lookup_alter in He'.
    destruct (decide (c = c')) as [<- | Hne]; cbn in He'; [| eauto].
    rewrite He in He'. injection He' as <-. cbn.
    rewrite fmap_app. apply NoDup_app. split; [eauto |]. split.
    + intros g Hg Hg'. apply list_elem_of_singleton in Hg'. subst g.
      apply list_elem_of_fmap in Hg as (r0 & Hr0 & Hin0).
      destruct (Hsound _ _ _ He Hin0) as (aid' & s' & a' & Ho & _ & HD & _).
      rewrite Horigin, Ho in Hr0. apply tag_inj in Hr0 as [-> ->].
      exact (Hfresh HD).
    + apply NoDup_singleton.
  - intros aid' s' a' HD Ha'.
    apply elem_of_cons in HD as [[= -> ->] | HD].
    + assert (a' = a) as -> by congruence. rewrite Hplace.
      exists (set_relationships (fun rs => (rs ++ [r])%list) e), r.
      rewrite lookup_alter, decide_True by done. rewrite He. cbn.
      split; [done |]. split; [| done].
      apply elem_of_app. right. by apply list_elem_of_singleton.
    + destruct (Hcompl _ _ _ HD Ha') as (e0 & r0 & He0 & Hr0 & Ho).
      rewrite lookup_alter.
      destruct (decide (c = place a' s')) as [Hc | Hc].
      * rewrite <- Hc in He0. rewrite He0. cbn.
        assert (e0 = e) as -> by congruence.
        exists (set_relationships (fun rs => (rs ++ [r])%list) e), r0.
        split; [done |]. split; [| done].
        cbn. apply elem_of_app. by left.
      * exists e0, r0. by rewrite He0.
Qed.
Lemma synthesized_done D es aid a :
  resolvedUpTo cs as0 D es -> assoc aid as0 = Some a ->
  (aid, Synthesized) ∈ D -> synthesizes a = true.
Proof.
  intros [Hsound _ Hcompl] Ha HD.
  destruct (Hcompl _ _ _ HD Ha) as (e & r & He & Hr & Ho).
  destruct (Hsound _ _ _ He Hr) as (aid' & s' & a' & Ho' & Ha' & _ & _ & Hsh).
  rewrite Ho in Ho'. apply tag_inj in Ho' as [<- <-].
  assert (a' = a) as -> by congruence. exact (proj1 Hsh).
Qed.

Lemma fromStep_Inv D c aid a st st' :
  Inv cs as0 D st ->
  assoc aid as0 = Some a -> assoc_from a = c ->
  (aid, FromSide) ∉ D -> (aid, Synthesized) ∉ D ->
  fromStep c aid st = (Ok tt, st') ->
  Inv cs as0 (fromAdds aid a ++ D) st'.
Proof.
  intros (pd & Hpd & Hcs & Has & Hru) Ha Hfrom HfreshF HfreshS Hstep.
  apply fromStep_ok in Hstep
    as (pd1 & a1 & fc & tc & e & Hpd1 & Ha1 & Hfc & Htc & _ & He & Hst').
  assert (pd1 = pd) as -> by congruence.
  rewrite Has, assoc_normalize, Ha in Ha1. cbn in Ha1.
  rewrite bool_decide_eq_false_2 in Ha1 by exact HfreshS.
  injection Ha1 as <-. rewrite Hcs in Hfc, Htc. cbn zeta in Hst'.
  assert (HshapeF : shape cs aid a FromSide
            (fromRecord a (class_name fc) (class_name tc)
               (length (relationships e) + 1) (tag aid FromSide))).
  { exists fc, tc, (length (relationships e) + 1). auto. }
  unfold fromAdds. destruct (synthesizes a) eqn:Hsyn.
  - destruct Hst' as (et & Het & ->). cbn [app].
    exists (set_associations (update aid (set_assoc_type MANY_TO_ONE)) pd).
    split; [cbn; by rewrite Hpd |]. split; [exact Hcs |]. split.
    + cbn. rewrite Has, normalize_retype by exact HfreshS.
      symmetry. by apply normalize_other.
    + cbn.
      assert (Hru1 : resolvedUpTo cs as0 ((aid, Synthesized) :: D)
                (alter (set_relationships
                          (fun rs => (rs ++
                             [synthesizedRecord a (class_name fc)
                                (length (relationships et) + 1)
                                (tag aid Synthesized)])%list))
                   (assoc_to a) (entities st))).
      { eapply resolvedUpTo_push; try done.
        split; [exact Hsyn |]. exists fc, (length (relationships et) + 1). auto. }
      assert (He1 : is_Some
                (alter (set_relationships
                          (fun rs => (rs ++
                             [synthesizedRecord a (class_name fc)
                                (length (relationships et) + 1)
                                (tag aid Synthesized)])%list))
                   (assoc_to a) (entities st) !! c)).
      { rewrite lookup_alter. case_decide; rewrite ?He; cbn; eauto.
        subst c. rewrite Het. cbn. eauto. }
      destruct He1 as [e1 He1].
      eapply resolvedUpTo_push; try done.
      * intros [[= ?] | ?]%elem_of_cons; done.
      * apply origin_fromRecord.
  - subst st'. cbn [app]. exists pd.
    split; [exact Hpd |]. split; [exact Hcs |]. split.
    + cbn. rewrite Has. symmetry. by apply normalize_other.
    + cbn. eapply resolvedUpTo_push; try done. apply origin_fromRecord.
Qed.

Lemma toStep_Inv D c aid a st st' :
  Inv cs as0 D st ->
  assoc aid as0 = Some a -> assoc_to a = c ->
  present (injectedFieldInTo a) = true ->
  (aid, ToSide) ∉ D ->
  toStep c aid st = (Ok tt, st') ->
  Inv cs as0 ((aid, ToSide) :: D) st'.
Proof.
  intros (pd & Hpd & Hcs & Has & Hru) Ha Hto HiT Hfresh Hstep.
  apply toStep_ok in Hstep as (pd1 & a1 & Hpd1 & Ha1 & Hst').
  assert (pd1 = pd) as -> by congruence.
  rewrite Has, assoc_normalize, Ha in Ha1. cbn in Ha1.
  rewrite bool_decide_eq_false_2 in Ha1.
  2:{ intros HD. pose proof (synthesized_done _ _ _ _ Hru Ha HD) as Hsyn.
      unfold synthesizes in Hsyn. rewrite HiT in Hsyn.
      by rewrite andb_false_r in Hsyn. }
  injection Ha1 as <-.
  destruct (Hst' HiT) as (fc & e & Hfc & He & ->). rewrite Hcs in Hfc.
  exists pd. split; [exact Hpd |]. split; [exact Hcs |]. split.
  - cbn. rewrite Has. symmetry. by apply normalize_other.
  - cbn. eapply resolvedUpTo_push; try done.
    + split; [exact HiT |]. exists fc, (length (relationships e) + 1). auto.
    + apply origin_toRecord.
Qed.

Lemma fromAdds_site aid a x : x ∈ fromAdds aid a -> x.1 = aid /\ x.2 <> ToSide.
Proof.
  unfold fromAdds. intros [-> | Hx]%elem_of_cons; [done |].
  destruct (synthesizes a); [| by apply elem_of_nil in Hx].
  apply list_elem_of_singleton in Hx as ->. done.
Qed.

Lemma fromLoop_Inv c l : forall D st st',
  NoDup l ->
  (forall aid, aid ∈ l ->
               exists a, assoc aid as0 = Some a /\ assoc_from a = c) ->
  (forall aid s, aid ∈ l -> s <> ToSide -> (aid, s) ∉ D) ->
  Inv cs as0 D st ->
  forEach (fromStep c) l st = (Ok tt, st') ->
  exists D',
    Inv cs as0 D' st' /\
    forall x, x ∈ D' <->
              x ∈ D \/
              exists aid a, aid ∈ l /\ assoc aid as0 = Some a /\
                            x ∈ fromAdds aid a.
Proof.
  induction l as [|aid l IH]; intros D st st' Hnd Hl Hfresh HInv Hrun.
  - apply ret_ok in Hrun as [_ ->]. exists D. split; [done |].
    intros x. split; [auto |]. intros [? | (? & ? & []%elem_of_nil & _)]; done.
  - cbn in Hrun. apply bind_ok in Hrun as ([] & st1 & Hstep & Hrun).
    apply NoDup_cons in Hnd as [Hnotin Hnd].
    destruct (Hl aid) as (a & Ha & Hfrom); [left |].
    pose proof (fromStep_Inv D c aid a st st1 HInv Ha Hfrom) as HInv1.
    specialize (HInv1 (Hfresh aid FromSide ltac:(left) ltac:(done))
                  (Hfresh aid Synthesized ltac:(left) ltac:(done)) Hstep).
    destruct (IH (fromAdds aid a ++ D) st1 st' Hnd) as (D' & HInv' & HD');
      [ intros; apply Hl; by right | | done | done |].
    { intros aid' s' Hin' Hs' [Hadd | HD]%elem_of_app.
      - apply fromAdds_site in Hadd as [Heq _]. cbn in Heq. congruence.
      - eapply Hfresh; [by right | done | done]. }
    exists D'. split; [done |]. intros x. rewrite HD', elem_of_app. split.
    + intros [[Hadd | HD] | (aid' & a' & Hin' & Ha' & Hadd)]; [| by left |].
      * right. exists aid, a. split; [left | done].
      * right. exists aid', a'. split; [by right | done].
    + intros [HD | (aid' & a' & [-> | Hin']%elem_of_cons & Ha' & Hadd)].
      * left. by right.
      * assert (a' = a) as -> by congruence. left. by left.
      * right. by exists aid', a'.
Qed.

Lemma toLoop_Inv c l : forall D st st',
  NoDup l ->
  (forall aid, aid ∈ l ->
               exists a, assoc aid as0 = Some a /\ assoc_to a = c /\
                         present (injectedFieldInTo a) = true) ->
  (forall aid, aid ∈ l -> (aid, ToSide) ∉ D) ->
  Inv cs as0 D st ->
  forEach (toStep c) l st = (Ok tt, st') ->
  exists D',
    Inv cs as0 D' st' /\
    forall x, x ∈ D' <-> x ∈ D \/ exists aid, aid ∈ l /\ x = (aid, ToSide).
Proof.
  induction l as [|aid l IH]; intros D st st' Hnd Hl Hfresh HInv Hrun.
  - apply ret_ok in Hrun as [_ ->]. exists D. split; [done |].
    intros x. split; [auto |]. intros [? | (? & []%elem_of_nil & _)]; done.
  - cbn in Hrun. apply bind_ok in Hrun as ([] & st1 & Hstep & Hrun).
    apply NoDup_cons in Hnd as [Hnotin Hnd].
    destruct (Hl aid) as (a & Ha & Hto & HiT); [left |].
    pose proof (toStep_Inv D c aid a st st1 HInv Ha Hto HiT
                  (Hfresh aid ltac:(left)) Hstep) as HInv1.
    destruct (IH ((aid, ToSide) :: D) st1 st' Hnd) as (D' & HInv' & HD');
      [ intros; apply Hl; by right | | done | done |].
    { intros aid' Hin' [[= ->] | HD]%elem_of_cons; [done |].
      eapply Hfresh; [by right | done]. }
    exists D'. split; [done |]. intros x. rewrite HD', elem_of_cons. split.
    + intros [[-> | HD] | (aid' & Hin' & ->)]; [| by left |].
      * right. exists aid. split; [left | done].
      * right. exists aid'. split; [by right | done].
    + intros [HD | (aid' & [-> | Hin']%elem_of_cons & ->)].
      * left. by right.
      * left. by left.
      * right. by exists aid'.
Qed.
Lemma getRelatedAssociations_spec c l ids : forall F T,
  getRelatedAssociations c ids l = Some (F, T) ->
  (forall k, k ∈ F <->
             k ∈ ids /\ exists a, assoc k l = Some a /\ assoc_from a = c) /\
  (forall k, k ∈ T <->
             k ∈ ids /\
             exists a, assoc k l = Some a /\ assoc_to a = c /\
                       present (injectedFieldInTo a) = true) /\
  (NoDup ids -> NoDup F /\ NoDup T).
Proof.
  induction ids as [|k0 ids IH]; intros F T; cbn.
  - intros [= <- <-]. split; [| split]; [| | intros _; split; constructor].
    + intros k. split; [by intros ?%elem_of_nil | by intros [?%elem_of_nil _]].
    + intros k. split; [by intros ?%elem_of_nil | by intros [?%elem_of_nil _]].
  - destruct (assoc k0 l) as [a0|] eqn:Ha0; cycle 1.
    { destruct (inheritedProperty k0); [| discriminate]. intros Hrec.
      destruct (IH F T Hrec) as (HF & HT & Hnd). split; [| split].
      - intros k. rewrite HF, elem_of_cons. split.
        + intros [? ?]; auto.
        + intros [[-> | ?] (a & Ha & ?)]; [congruence | eauto].
      - intros k. rewrite HT, elem_of_cons. split.
        + intros [? ?]; auto.
        + intros [[-> | ?] (a & Ha & ?)]; [congruence | eauto].
      - intros [_ Hids]%NoDup_cons. auto. }
    destruct (getRelatedAssociations c ids l) as [[F' T']|]; [| discriminate].
    intros [= <- <-]. destruct (IH F' T' eq_refl) as (HF & HT & Hnd).
    split; [| split].
    + intros k. destruct (String.eqb (assoc_from a0) c) eqn:Hc.
      * apply String.eqb_eq in Hc.
        rewrite !elem_of_cons, HF. split.
        -- intros [-> | [? ?]]; [eauto | auto].
        -- intros [[-> | ?] ?]; auto.
      * apply String.eqb_neq in Hc. rewrite HF, elem_of_cons. split.
        -- intros [? ?]; auto.
        -- intros [[-> | ?] (a & Ha & Hfrom)]; [congruence | eauto].
    + intros k.
      destruct (String.eqb (assoc_to a0) c
                && present (injectedFieldInTo a0)) eqn:Hc.
      * apply andb_prop in Hc as [Hc Hp]. apply String.eqb_eq in Hc.
        rewrite !elem_of_cons, HT. split.
        -- intros [-> | [? ?]]; [eauto 6 | auto].
        -- intros [[-> | ?] ?]; auto.
      * rewrite HT, elem_of_cons. split.
        -- intros [? ?]; auto.
        -- intros [[-> | ?] (a & Ha & Hto & Hp)]; [| eauto 6].
           assert (a = a0) as -> by congruence.
           rewrite Hp, andb_true_r in Hc. apply String.eqb_neq in Hc. done.
    + intros [Hk0 Hids]%NoDup_cons. destruct (Hnd Hids) as [HndF HndT].
      split.
      * destruct (String.eqb (assoc_from a0) c); [| done].
        apply NoDup_cons. split; [| done]. rewrite HF. by intros [? _].
      * destruct (String.eqb (assoc_to a0) c
                  && present (injectedFieldInTo a0)); [| done].
        apply NoDup_cons. split; [| done]. rewrite HT. by intros [? _].
Qed.

Lemma normalize_keys D : (normalize D <$> as0).*1 = as0.*1.
Proof.
  rewrite <- list_fmap_compose. apply list_fmap_ext. by intros i [k a] _.
Qed.

Lemma assoc_normalize_inv D aid a' :
  assoc aid (normalize D <$> as0) = Some a' ->
  exists a,
    assoc aid as0 = Some a /\ assoc_from a' = assoc_from a /\
    assoc_to a' = assoc_to a /\
    injectedFieldInTo a' = injectedFieldInTo a.
Proof.
  rewrite assoc_normalize. destruct (assoc aid as0) as [a|]; [| discriminate].
  cbn. intros [= <-]. exists a. split; [done |].
  by destruct (bool_decide _).
Qed.

Lemma assoc_is_key {A} k (l : list (string * A)) v :
  assoc k l = Some v -> k ∈ l.*1.
Proof.
  intros H%assoc_elem. apply list_elem_of_fmap. by exists (k, v).
Qed.

Lemma Inv_fieldsFrame D st st' :
  Inv cs as0 D st -> fieldsFrame st st' -> Inv cs as0 D st'.
Proof.
  intros (pd & Hpd & Hcs & Has & [Hsound Huniq Hcompl]) (Hpd' & _ & Hes).
  exists pd. split; [congruence |]. do 2 (split; [done |]).
  assert (Hback : forall c e', entities st' !! c = Some e' ->
            exists e, entities st !! c = Some e /\
                      relationships e = relationships e').
  { intros c e' He'. specialize (Hes c). rewrite He' in Hes. cbn in Hes.
    destruct (entities st !! c) as [e|]; [| discriminate].
    injection Hes as Hr _. eauto. }
  assert (Hforth : forall c e, entities st !! c = Some e ->
            exists e', entities st' !! c = Some e' /\
                       relationships e' = relationships e).
  { intros c e He. specialize (Hes c). rewrite He in Hes. cbn in Hes.
    destruct (entities st' !! c) as [e'|]; [| discriminate].
    injection Hes as Hr _. eauto. }
  split.
  - intros c e' r He' Hr. destruct (Hback _ _ He') as (e & He & Hrel).
    rewrite <- Hrel in Hr. eauto.
  - intros c e' He'. destruct (Hback _ _ He') as (e & He & Hrel).
    rewrite <- Hrel. eauto.
  - intros aid s a HD Ha. destruct (Hcompl _ _ _ HD Ha) as (e & r & He & Hr & Ho).
    destruct (Hforth _ _ He) as (e' & He' & Hrel).
    exists e', r. rewrite Hrel. auto.
Qed.

Lemma Inv_suppress_mark D st f :
  Inv cs as0 D st -> Inv cs as0 D (set_entitiesToSuppress f st).
Proof. intros (pd & ? & ? & ? & ?). by exists pd. Qed.

Lemma setRelationshipOfEntity_Inv D c st st' :
  Inv cs as0 D st ->
  (forall x, doneBy as0 [c] x -> x ∉ D) ->
  setRelationshipOfEntity c st = (Ok tt, st') ->
  exists D',
    Inv cs as0 D' st' /\ forall x, x ∈ D' <-> x ∈ D \/ doneBy as0 [c] x.
Proof.
  intros HInv Hfresh Hrun.
  pose proof HInv as (pd & Hpd & Hcs & Has & Hru).
  unfold setRelationshipOfEntity in Hrun.
  apply bind_ok in Hrun as (pd1 & st1 & H1 & Hrun).
  apply theParsedData_ok in H1 as [-> Hpd1].
  assert (pd1 = pd) as -> by congruence.
  apply bind_ok in Hrun as ([F T] & st1 & H1 & Hrun).
  apply defined_ok in H1 as [Hrel ->].
  rewrite Has, normalize_keys in Hrel.
  apply getRelatedAssociations_spec in Hrel as (HF & HT & Hnd).
  destruct (Hnd as0_NoDup) as [HndF HndT]. clear Hnd.
  assert (HF' : forall k, k ∈ F <->
                  exists a, assoc k as0 = Some a /\ assoc_from a = c).
  { intros k. rewrite HF. split.
    - intros (_ & a' & (a & Ha & Hfr & _)%assoc_normalize_inv & Hc).
      exists a. split; [done | congruence].
    - intros (a & Ha & Hc). split; [by eapply assoc_is_key |].
      rewrite assoc_normalize, Ha. cbn. eexists. split; [done |].
      by destruct (bool_decide _). }
  assert (HT' : forall k, k ∈ T <->
                  exists a, assoc k as0 = Some a /\ assoc_to a = c /\
                            present (injectedFieldInTo a) = true).
  { intros k. rewrite HT. split.
    - intros (_ & a' & (a & Ha & _ & Hto & HiT)%assoc_normalize_inv & Hc & Hp).
      exists a. split; [done |]. split; congruence.
    - intros (a & Ha & Hc & Hp). split; [by eapply assoc_is_key |].
      rewrite assoc_normalize, Ha. cbn. eexists. split; [done |].
      by destruct (bool_decide _). }
  clear HF HT. cbn [fst snd] in Hrun.
  apply bind_ok in Hrun as ([] & st1 & Hfrom & Hto).
  destruct (fromLoop_Inv c F D st st1 HndF) as (D1 & HInv1 & HD1);
    [ intros k Hk; by apply HF' | | done | done |].
  { intros aid s Hin Hs HD. apply HF' in Hin as (a & Ha & Hc).
    apply (Hfresh (aid, s)); [| done]. exists a. split; [done |].
    destruct s; cbn; [rewrite Hc; left | | done].
    split; [rewrite Hc; left |]. eapply synthesized_done; eauto. }
  destruct (toLoop_Inv c T D1 st1 st' HndT) as (D2 & HInv2 & HD2);
    [ intros k Hk; by apply HT' | | done | done |].
  { intros aid Hin [HD | (aid' & a' & _ & _ & Hadd)]%HD1.
    - apply HT' in Hin as (a & Ha & Hc & Hp).
      apply (Hfresh (aid, ToSide)); [| done]. exists a. split; [done |].
      cbn. split; [rewrite Hc; left | done].
    - by apply fromAdds_site in Hadd as [_ ?]. }
  exists D2. split; [done |]. intros [aid s]. rewrite HD2, HD1. split.
  - intros [[HD | (aid' & a' & Hin & Ha' & Hadd)] | (aid' & Hin & [= -> ->])].
    + by left.
    + right. apply HF' in Hin as (a & Ha & Hc).
      assert (a' = a) as -> by congruence.
      exists a. unfold fromAdds in Hadd.
      apply elem_of_cons in Hadd as [[= -> ->] | Hadd].
      * split; [done |]. cbn. rewrite Hc. left.
      * destruct (synthesizes a) eqn:Hsyn; [| by apply elem_of_nil in Hadd].
        apply list_elem_of_singleton in Hadd as [= -> ->].
        split; [done |]. cbn. split; [rewrite Hc; left | done].
    + right. apply HT' in Hin as (a & Ha & Hc & Hp).
      exists a. split; [done |]. cbn. split; [rewrite Hc; left | done].
  - intros [HD | (a & Ha & Hs)]; [by left; left |]. cbn in Ha, Hs.
    destruct s.
    + left. right. apply list_elem_of_singleton in Hs.
      exists aid, a. split; [apply HF'; eauto |]. split; [done | left].
    + left. right. destruct Hs as [Hs%list_elem_of_singleton Hsyn].
      exists aid, a. split; [apply HF'; eauto |]. split; [done |].
      unfold fromAdds. rewrite Hsyn. right. left.
    + right. destruct Hs as [Hs%list_elem_of_singleton Hp].
      exists aid. split; [apply HT'; eauto | done].
Qed.
Lemma fillEntity_Inv D c st st' :
  Inv cs as0 D st ->
  (forall x, doneBy as0 [c] x -> x ∉ D) ->
  fillEntity c st = (Ok tt, st') ->
  exists D',
    Inv cs as0 D' st' /\ forall x, x ∈ D' <-> x ∈ D \/ doneBy as0 [c] x.
Proof.
  intros HInv Hfresh Hrun. unfold fillEntity in Hrun.
  apply bind_ok in Hrun as (cd & st0 & H0 & Hrun).
  apply getClass_ok in H0 as [-> _].
  apply bind_ok in Hrun as (u1 & st1 & H1 & Hrun).
  assert (HInv1 : Inv cs as0 D st1).
  { destruct (String.eqb _ _).
    - apply modify_ok in H1 as ->. by apply Inv_suppress_mark.
    - by apply ret_ok in H1 as [_ ->]. }
  apply bind_ok in Hrun as (u2 & st2 & H2 & Hrun).
  apply setFieldsOfEntity_frame in H2.
  destruct u2. eapply setRelationshipOfEntity_Inv; [| done | done].
  eapply Inv_fieldsFrame; done.
Qed.

Lemma doneBy_cons c ids x :
  doneBy as0 (c :: ids) x <-> doneBy as0 [c] x \/ doneBy as0 ids x.
Proof.
  unfold doneBy. split.
  - intros (a & Ha & Hs). destruct x.2.
    + apply elem_of_cons in Hs as [Hs | Hs];
        [left | right]; exists a; split; try done. rewrite Hs. left.
    + destruct Hs as [[Hs | Hs]%elem_of_cons Hsyn];
        [left | right]; exists a; split; try done. rewrite Hs. split; [left | done].
    + destruct Hs as [[Hs | Hs]%elem_of_cons Hsyn];
        [left | right]; exists a; split; try done. rewrite Hs. split; [left | done].
  - intros [(a & Ha & Hs) | (a & Ha & Hs)]; exists a; split; try done;
      destruct x.2.
    + apply list_elem_of_singleton in Hs as ->. left.
    + destruct Hs as [->%list_elem_of_singleton ?]. split; [left | done].
    + destruct Hs as [->%list_elem_of_singleton ?]. split; [left | done].
    + by right.
    + destruct Hs. split; [by right | done].
    + destruct Hs. split; [by right | done].
Qed.

Lemma doneBy_disjoint c ids x :
  c ∉ ids -> doneBy as0 [c] x -> doneBy as0 ids x -> False.
Proof.
  intros Hc (a & Ha & Hs) (a' & Ha' & Hs').
  assert (a' = a) as -> by congruence.
  destruct x.2.
  - apply list_elem_of_singleton in Hs as <-. done.
  - destruct Hs as [<-%list_elem_of_singleton _]. by destruct Hs'.
  - destruct Hs as [<-%list_elem_of_singleton _]. by destruct Hs'.
Qed.

Lemma resolveLoop_Inv ids : forall D st st',
  NoDup ids ->
  (forall x, doneBy as0 ids x -> x ∉ D) ->
  Inv cs as0 D st ->
  forEach fillEntity ids st = (Ok tt, st') ->
  exists D',
    Inv cs as0 D' st' /\ forall x, x ∈ D' <-> x ∈ D \/ doneBy as0 ids x.
Proof.
  induction ids as [|c ids IH]; intros D st st' Hnd Hfresh HInv Hrun.
  - apply ret_ok in Hrun as [_ ->]. exists D. split; [done |].
    intros x. split; [auto |]. intros [? | (a & _ & Hs)]; [done |].
    destruct x.2; [| destruct Hs as [Hs _] ..]; by apply elem_of_nil in Hs.
  - cbn in Hrun. apply bind_ok in Hrun as ([] & st1 & Hstep & Hrun).
    apply NoDup_cons in Hnd as [Hc Hnd].
    destruct (fillEntity_Inv D c st st1 HInv) as (D1 & HInv1 & HD1); [| done |].
    { intros x Hx. apply Hfresh, doneBy_cons. by left. }
    destruct (IH D1 st1 st' Hnd) as (D' & HInv' & HD'); [| done | done |].
    { intros x Hx [HD | Hx']%HD1.
      - eapply Hfresh; [| done]. apply doneBy_cons. by right.
      - eapply doneBy_disjoint; done. }
    exists D'. split; [done |]. intros x.
    rewrite HD', HD1, (doneBy_cons c ids). tauto.
Qed.

Lemma normalize_nil : normalize [] <$> as0 = as0.
Proof.
  rewrite <- (list_fmap_id as0) at 2. apply list_fmap_ext.
  intros i [k a] _. unfold normalize. cbn.
  rewrite bool_decide_eq_false_2; [done | apply not_elem_of_nil].
Qed.

Lemma Inv_initial st pd :
  parsedData st = Some pd -> classes pd = cs -> associations pd = as0 ->
  (forall c e, entities st !! c = Some e -> relationships e = []) ->
  Inv cs as0 [] st.
Proof.
  intros Hpd Hcs Has Hempty. exists pd. split; [done |]. split; [done |].
  split; [by rewrite normalize_nil |]. split.
  - intros c e r He Hr. rewrite (Hempty _ _ He) in Hr.
    by apply elem_of_nil in Hr.
  - intros c e He. rewrite (Hempty _ _ He). constructor.
  - intros aid s a HD. by apply elem_of_nil in HD.
Qed.
End Resolution.
(** ** Loops that keep an invariant *)

Lemma forEach_cons_ok {A} (f : A -> M unit) x l st st' :
  forEach f (x :: l) st = (Ok tt, st') ->
  exists st1, f x st = (Ok tt, st1) /\ forEach f l st1 = (Ok tt, st').
Proof. intros H. apply bind_ok in H as ([] & st1 & ? & ?). eauto. Qed.

Lemma forEach_invariant {A} (I : State DB G -> Prop) (f : A -> M unit) l :
  (forall x st st', x ∈ l -> I st -> f x st = (Ok tt, st') -> I st') ->
  forall st st', I st -> forEach f l st = (Ok tt, st') -> I st'.
Proof.
  induction l as [|x l IH]; intros Hf st st' HI Hrun.
  - by apply ret_ok in Hrun as [_ ->].
  - cbn in Hrun. apply bind_ok in Hrun as ([] & st1 & Hstep & Hrun).
    eapply IH; [| | exact Hrun].
    + intros y st2 st3 Hy. apply Hf. by right.
    + eapply Hf; [left | done | done].
Qed.

Lemma forEach_reaches {A} (I Q : State DB G -> Prop) (f : A -> M unit) l x :
  x ∈ l ->
  (forall y st st', I st -> f y st = (Ok tt, st') -> I st') ->
  (forall st st', I st -> f x st = (Ok tt, st') -> Q st') ->
  (forall y st st', I st -> Q st -> f y st = (Ok tt, st') -> Q st') ->
  forall st st', I st -> forEach f l st = (Ok tt, st') -> Q st'.
Proof.
  intros Hx HI Hset Hkeep.
  assert (Hboth : forall l' st st',
             I st /\ Q st -> forEach f l' st = (Ok tt, st') -> I st' /\ Q st').
  { intros l'. apply forEach_invariant. intros y st st' _ [? ?] Hstep.
    split; [eapply HI | eapply Hkeep]; done. }
  induction l as [|y l IH]; intros st st' Hst Hrun;
    [by apply elem_of_nil in Hx |].
  cbn in Hrun. apply bind_ok in Hrun as ([] & st1 & Hstep & Hrun).
  assert (HI1 : I st1) by exact (HI _ _ _ Hst Hstep).
  apply elem_of_cons in Hx as [-> | Hin].
  - refine (proj2 (Hboth l st1 st' _ Hrun)). split; [done |].
    exact (Hset _ _ Hst Hstep).
  - eapply IH; done.
Qed.

(** ** Reading the snapshots *)

Lemma readJSONFile_ok c st st' :
  readJSONFile c st = (Ok tt, st') ->
  exists pd cd,
    parsedData st = Some pd /\ assoc c (classes pd) = Some cd /\
    match disk st !! snapshotFile cd with
    | Some (Some v) => st' = set_onDiskEntities (<[c := v]>) st
    | Some None => False
    | None => st' = st
    end.
Proof.
  unfold readJSONFile. intros H.
  apply bind_ok in H as (cd & st1 & H1 & H).
  apply getClass_ok in H1 as [-> (pd & Hpd & Hcd)].
  apply bind_ok in H as (d & st1 & H1 & H).
  apply gets_ok in H1 as [-> ->].
  exists pd, cd. do 2 (split; [done |]). unfold snapshotFile.
  destruct (disk st !! _) as [[v|]|].
  - by apply modify_ok in H.
  - by apply throw_ok in H.
  - by apply ret_ok in H as [_ ->].
Qed.

Lemma readJSONFile_frame pd d c st st' :
  setupFrame pd d st -> readJSONFile c st = (Ok tt, st') ->
  setupFrame pd d st' /\ entities st' = entities st.
Proof.
  intros (Hpd & Hd & Hs) (pd' & cd & _ & _ & Hst')%readJSONFile_ok.
  destruct (disk st !! snapshotFile cd) as [[v|]|]; [| done |]; by subst st'.
Qed.

Lemma readJSONFiles_ok pd d st st' :
  setupFrame pd d st ->
  readJSONFiles st = (Ok tt, st') ->
  setupFrame pd d st' /\ entities st' = entities st /\
  forall c cd v,
    c ∈ (classes pd).*1 -> assoc c (classes pd) = Some cd ->
    d !! snapshotFile cd = Some (Some v) ->
    onDiskEntities st' !! c = Some v.
Proof.
  intros Hframe Hrun. unfold readJSONFiles in Hrun.
  apply bind_ok in Hrun as (pd' & st1 & H1 & Hrun).
  apply theParsedData_ok in H1 as [-> Hpd'].
  assert (pd' = pd) as -> by (destruct Hframe; congruence).
  split; [| split].
  - eapply (forEach_invariant (setupFrame pd d)); [| exact Hframe | exact Hrun].
    intros c st1 st2 _ HI Hstep. by eapply readJSONFile_frame.
  - eapply (forEach_invariant (fun st1 => setupFrame pd d st1 /\
                                         entities st1 = entities st));
      [| split; [exact Hframe | reflexivity] | exact Hrun].
    intros c st1 st2 _ [HI He] Hstep.
    destruct (readJSONFile_frame _ _ _ _ _ HI Hstep). split; congruence.
  - intros c cd v Hc Hcd Hfile.
    eapply (forEach_reaches (setupFrame pd d)
              (fun st1 => onDiskEntities st1 !! c = Some v));
      [exact Hc | | | | exact Hframe | exact Hrun].
    + intros y st1 st2 HI Hstep. by eapply readJSONFile_frame.
    + intros st1 st2 (Hpd & Hd & _) (pd' & cd' & Hpd1 & Hcd' & Hst')%readJSONFile_ok.
      assert (pd' = pd) as -> by congruence.
      assert (cd' = cd) as -> by congruence.
      rewrite Hd, Hfile in Hst'. subst st2. cbn. apply lookup_insert_eq.
    + intros y st1 st2 (Hpd & Hd & _) HQ
        (pd' & cd' & Hpd1 & Hcd' & Hst')%readJSONFile_ok.
      assert (pd' = pd) as -> by congruence.
      destruct (disk st1 !! snapshotFile cd') as [[v'|]|] eqn:Hfile';
        [| done | by subst st2].
      subst st2. cbn. destruct (decide (y = c)) as [-> | Hne].
      * assert (cd' = cd) as -> by congruence.
        rewrite Hd, Hfile in Hfile'. injection Hfile' as <-.
        apply lookup_insert_eq.
      * by rewrite lookup_insert_ne.
Qed.

(** ** Initializing the entities *)

Lemma setOptions_ok (e : Entity G) name st e' st' :
  setOptions e name st = (Ok e', st') ->
  st' = st /\ relationships e' = relationships e /\ fields e' = fields e /\
  changelogDate e' = changelogDate e.
Proof.
  unfold setOptions. intros H.
  apply bind_ok in H as (st0 & st1 & H1 & H).
  apply gets_ok in H1 as [-> ->]. apply ret_ok in H as [-> ->].
  split; [done |].
  repeat (case_match; cbn); auto.
Qed.

Lemma initializeEntity_ok c i st st' :
  initializeEntity c i st = (Ok tt, st') ->
  exists e n,
    st' = set_entities (<[c := e]>) (set_clockReads (fun _ => n) st) /\
    relationships e = [] /\ fields e = [] /\
    changelogDate e =
      (if truthy (default JUndefined (onDiskEntities st !! c))
       then getProp (default JUndefined (onDiskEntities st !! c)) "changelogDate"
       else JStr (dateFormatForLiquibase (clock st (clockReads st)) i)).
Proof.
  unfold initializeEntity, getChangelogDate. intros H.
  apply bind_ok in H as (date & st1 & H1 & H).
  apply bind_ok in H1 as (od & st0 & H0 & H1).
  apply gets_ok in H0 as [-> ->].
  assert (Hdate : exists n,
             st1 = set_clockReads (fun _ => n) st /\
             date = (if truthy (default JUndefined (onDiskEntities st !! c))
                     then getProp (default JUndefined (onDiskEntities st !! c))
                            "changelogDate"
                     else JStr (dateFormatForLiquibase
                                  (clock st (clockReads st)) i))).
  { destruct (truthy _).
    - apply ret_ok in H1 as [-> ->]. exists (clockReads st).
      split; [by destruct st | done].
    - apply bind_ok in H1 as (now & st2 & H2 & H1).
      apply ret_ok in H1 as [-> ->]. unfold newDate in H2.
      apply bind_ok in H2 as (t & st3 & H3 & H2).
      apply gets_ok in H3 as [-> ->].
      apply bind_ok in H2 as (u & st3 & H3 & H2).
      apply modify_ok in H3 as ->. apply ret_ok in H2 as [-> ->].
      exists (S (clockReads st)). done. }
  destruct Hdate as (n & -> & ->). clear H1.
  apply bind_ok in H as (cd & st1 & H1 & H).
  apply getClass_ok in H1 as [-> _].
  apply bind_ok in H as (e & st1 & H1 & H).
  apply setOptions_ok in H1 as (-> & Hr & Hf & Hc).
  apply modify_ok in H as ->. exists e, n. cbn in *. done.
Qed.

Lemma initializeEntitiesFrom_ok pd d l : forall i st st',
  setupFrame pd d st ->
  initializeEntitiesFrom i l st = (Ok tt, st') ->
  setupFrame pd d st' /\ onDiskEntities st' = onDiskEntities st /\
  forall c e,
    entities st' !! c = Some e ->
    entities st !! c = Some e \/
    (c ∈ l /\ initialized (onDiskEntities st) c e).
Proof.
  induction l as [|c0 l IH]; intros i st st' Hframe Hrun; cbn in Hrun.
  - apply ret_ok in Hrun as [_ ->]. auto.
  - apply bind_ok in Hrun as ([] & st1 & Hstep & Hrun).
    apply initializeEntity_ok in Hstep as (e0 & n & -> & Hr & Hf & Hc).
    assert (Hframe1 : setupFrame pd d
              (set_entities <[c0:=e0]> (set_clockReads (fun _ => n) st)))
      by (destruct Hframe as (? & ? & ?); by repeat split).
    destruct (IH (S i) _ st' Hframe1 Hrun) as (Hframe' & Hod & Hes).
    split; [done |]. split; [done |].
    intros c e He. destruct (Hes c e He) as [Hold | [Hin Hnew]].
    2:{ right. split; [by right | done]. }
    cbn in Hold. rewrite lookup_insert in Hold.
    case_decide; [| by left]. subst c0. injection Hold as <-. right.
    split; [left |].
    split; [done |]. split; [done |]. intros Ht. by rewrite Ht in Hc.
Qed.
(** ** The pipeline, stage by stage *)

Lemma fmap_pair_snd {A B C} (f : A -> B) (g : A -> C) (x y : option A) :
  (fun e => (f e, g e)) <$> x = (fun e => (f e, g e)) <$> y ->
  g <$> x = g <$> y.
Proof. destruct x, y; cbn; congruence. Qed.

Global Instance isUserClass_dec pd c : Decision (isUserClass pd c).
Proof.
  unfold isUserClass. destruct (assoc c (classes pd)) as [cd|].
  - destruct (decide (toLowerCase (class_name cd) = USER)) as [Hu | Hu].
    + left. eauto.
    + right. intros (cd' & [= <-] & ?). done.
  - right. intros (cd' & [=] & _).
Defined.

Lemma fillEntity_ok c st st' :
  fillEntity c st = (Ok tt, st') ->
  exists pd cd st2,
    parsedData st = Some pd /\ assoc c (classes pd) = Some cd /\
    setFieldsOfEntity c
      (if String.eqb (toLowerCase (class_name cd)) USER
       then set_entitiesToSuppress (fun l => l ++ [c]) st else st)
    = (Ok tt, st2) /\
    setRelationshipOfEntity c st2 = (Ok tt, st').
Proof.
  unfold fillEntity. intros H.
  apply bind_ok in H as (cd & st0 & H0 & H).
  apply getClass_ok in H0 as [-> (pd & Hpd & Hcd)].
  apply bind_ok in H as (u1 & st1 & H1 & H).
  apply bind_ok in H as ([] & st2 & H2 & H).
  exists pd, cd, st2. do 2 (split; [done |]). split; [| done].
  destruct (String.eqb _ _).
  - by apply modify_ok in H1 as ->.
  - by apply ret_ok in H1 as [_ ->].
Qed.

(** The first loop leaves the changelog dates alone and marks the
    classes named User. *)
Lemma resolveLoop_frame cs l : forall st st',
  classes <$> parsedData st = Some cs ->
  forEach fillEntity l st = (Ok tt, st') ->
  classes <$> parsedData st' = Some cs /\
  (forall c, changelogDate <$> entities st' !! c
             = changelogDate <$> entities st !! c) /\
  (forall c, c ∈ entitiesToSuppress st' <->
             c ∈ entitiesToSuppress st \/
             (c ∈ l /\ exists cd, assoc c cs = Some cd /\
                                  toLowerCase (class_name cd) = USER)).
Proof.
  induction l as [|c0 l IH]; intros st st' Hcs Hrun.
  - apply ret_ok in Hrun as [_ ->]. split; [done |]. split; [done |].
    intros c. split; [auto |]. intros [? | [?%elem_of_nil _]]; done.
  - cbn in Hrun. apply bind_ok in Hrun as ([] & st1 & Hstep & Hrun).
    apply fillEntity_ok in Hstep as (pd & cd & st2 & Hpd & Hcd & Hf & Hr).
    rewrite Hpd in Hcs. cbn in Hcs. injection Hcs as <-.
    apply setFieldsOfEntity_frame in Hf as (Hf1 & Hf2 & Hf3).
    apply setRelationshipOfEntity_frame in Hr as (Hr1 & Hr2 & Hr3).
    assert (Hcs1 : classes <$> parsedData st1 = Some (classes pd)).
    { rewrite Hr1, Hf1. by destruct (String.eqb _ _); cbn; rewrite Hpd. }
    destruct (IH st1 st' Hcs1 Hrun) as (Hcs' & Hdates & Hsup).
    split; [done |]. split.
    + intros c. rewrite Hdates.
      etrans; [exact (fmap_pair_snd _ _ _ _ (Hr3 c)) |].
      etrans; [exact (fmap_pair_snd _ _ _ _ (Hf3 c)) |].
      by destruct (String.eqb _ _).
    + intros c. rewrite Hsup, Hr2, Hf2, elem_of_cons.
      destruct (String.eqb (toLowerCase (class_name cd)) USER) eqn:Huser; cbn.
      * apply String.eqb_eq in Huser. rewrite elem_of_app, list_elem_of_singleton.
        split.
        -- intros [[? | ->] | [? ?]]; eauto 6.
        -- intros [? | [[-> | ?] ?]]; auto.
      * apply String.eqb_neq in Huser. split.
        -- intros [? | [? ?]]; auto.
        -- intros [? | [[-> | ?] (cd' & Hcd' & ?)]]; [auto | | eauto 6].
           congruence.
Qed.

Lemma suppressLoop_ok l : forall st st',
  forEach suppressEntity l st = (Ok tt, st') ->
  parsedData st' = parsedData st /\
  forall c, entities st' !! c
            = if bool_decide (c ∈ l) then None else entities st !! c.
Proof.
  induction l as [|c0 l IH]; intros st st' Hrun.
  - apply ret_ok in Hrun as [_ ->]. split; [done |]. intros c.
    rewrite bool_decide_eq_false_2; [done | apply not_elem_of_nil].
  - apply forEach_cons_ok in Hrun as (st1 & Hstep & Hrun).
    apply modify_ok in Hstep as ->.
    destruct (IH _ _ Hrun) as (Hpd & Hes). split; [done |].
    intros c. rewrite Hes. cbn. rewrite !bool_decide_decide.
    destruct (decide (c ∈ l)) as [Hin | Hnotin].
    + rewrite decide_True; [done | by right].
    + destruct (decide (c = c0)) as [-> | Hne].
      * rewrite decide_True by left. apply lookup_delete_eq.
      * rewrite decide_False by (intros [? | ?]%elem_of_cons; done).
        by apply lookup_delete_ne.
Qed.

Lemma createEntities_ok (args : Args DB) st es st' :
  createEntities args st = (Ok es, st') ->
  exists pd db st1 st2 st_r,
    arg_parsedData args = Some pd /\ arg_databaseTypes args = Some db /\
    readJSONFiles (snd (init (merge args) st)) = (Ok tt, st1) /\
    initializeEntities st1 = (Ok tt, st2) /\
    resolveEntities st2 = (Ok tt, st_r) /\
    suppressEntities st_r = (Ok tt, st') /\
    es = entities st' /\
    resolveAll args st = (Ok tt, st_r).
Proof.
  intros Hrun.
  destruct (arg_parsedData args) as [pd|] eqn:Hpd;
    [destruct (arg_databaseTypes args) as [db|] eqn:Hdb |];
    try (rewrite createEntities_missing in Hrun by auto; discriminate).
  rewrite (createEntities_run args st pd db Hpd Hdb) in Hrun.
  destruct (isNoSQL db && _) eqn:Hguard; [discriminate |].
  apply bind_ok in Hrun as ([] & st1 & Hread & Hrun).
  apply bind_ok in Hrun as ([] & st2 & Hinit & Hrun).
  apply bind_ok in Hrun as ([] & st3 & Hfill & Hrun).
  apply gets_ok in Hrun as [-> ->].
  unfold fillEntities in Hfill.
  apply bind_ok in Hfill as ([] & st_r & Hres & Hsup).
  exists pd, db, st1, st2, st_r. repeat (split; [done |]).
  unfold resolveAll.
  assert (Hinit0 : init (merge args) st = (Ok tt, snd (init (merge args) st)))
    by reflexivity.
  rewrite (bind_run _ _ _ _ _ Hinit0).
  assert (Hcheck : checkNoSQLModeling (snd (init (merge args) st))
                   = (Ok tt, snd (init (merge args) st))).
  { rewrite (checkNoSQLModeling_run _ db pd) by (cbn; assumption).
    by rewrite Hguard. }
  rewrite (bind_run _ _ _ _ _ Hcheck), (bind_run _ _ _ _ _ Hread),
    (bind_run _ _ _ _ _ Hinit).
  exact Hres.
Qed.

(** Where a successful run stands after its first loop. *)
Lemma createEntities_resolved (args : Args DB) pd st es st' :
  arg_parsedData args = Some pd ->
  createEntities args st = (Ok es, st') ->
  exists st2 st_r,
    resolveAll args st = (Ok tt, st_r) /\
    parsedData st2 = Some pd /\
    (forall c e, entities st2 !! c = Some e ->
                 c ∈ (classes pd).*1 /\
                 initialized (onDiskEntities st2) c e) /\
    (forall c cd v,
        assoc c (classes pd) = Some cd ->
        disk st !! snapshotFile cd = Some (Some v) ->
        onDiskEntities st2 !! c = Some v) /\
    forEach fillEntity (classes pd).*1 st2 = (Ok tt, st_r) /\
    parsedData st' = parsedData st_r /\
    forall c, es !! c = if bool_decide (isUserClass pd c) then None
                        else entities st_r !! c.
Proof.
  intros Hpd Hrun.
  apply createEntities_ok in Hrun
    as (pd' & db & st1 & st2 & st_r & Hpd' & Hdb & Hread & Hinit & Hres
        & Hsup & -> & Hall).
  assert (pd' = pd) as -> by congruence. clear Hpd'.
  set (st0 := snd (init (merge args) st)) in *.
  assert (Hframe0 : setupFrame pd (disk st) st0) by (by repeat split).
  destruct (readJSONFiles_ok _ _ _ _ Hframe0 Hread) as (Hframe1 & Hes1 & Hod1).
  unfold initializeEntities in Hinit.
  apply bind_ok in Hinit as (pd1 & st1' & H1 & Hinit).
  apply theParsedData_ok in H1 as [-> Hpd1].
  assert (pd1 = pd) as -> by (destruct Hframe1; congruence).
  destruct (initializeEntitiesFrom_ok _ _ _ _ _ _ Hframe1 Hinit)
    as ((Hpd2 & Hd2 & Hsup2) & Hod2 & Hes2).
  unfold resolveEntities in Hres.
  apply bind_ok in Hres as (pd2 & st2' & H2 & Hres).
  apply theParsedData_ok in H2 as [-> Hpd2'].
  assert (pd2 = pd) as -> by congruence.
  assert (Hcs2 : classes <$> parsedData st2 = Some (classes pd))
    by (by rewrite Hpd2).
  destruct (resolveLoop_frame _ _ _ _ Hcs2 Hres) as (Hcs_r & _ & Hsup_r).
  unfold suppressEntities in Hsup.
  apply bind_ok in Hsup as (sup & st_r' & H3 & Hsup).
  apply gets_ok in H3 as [-> ->].
  destruct (suppressLoop_ok _ _ _ Hsup) as (Hpd' & Hes').
  exists st2, st_r. split; [done |]. split; [done |]. split; [| split].
  - intros c e He. destruct (Hes2 c e He) as [Hold | [Hin Hnew]].
    + rewrite Hes1 in Hold. cbn in Hold. by rewrite lookup_empty in Hold.
    + by rewrite Hod2.
  - intros c cd v Hcd Hfile. rewrite Hod2. eapply Hod1; [| done | done].
    by eapply assoc_is_key.
  - split; [done |]. split; [done |]. intros c. rewrite Hes'.
    apply (f_equal (fun (b : bool) => if b then None else entities st_r !! c)).
    apply bool_decide_ext. rewrite Hsup_r, Hsup2. unfold isUserClass. split.
    + intros [?%elem_of_nil | [_ ?]]; done.
    + intros (cd & Hcd & Hu). right. split; [by eapply assoc_is_key | eauto].
Qed.
(** ** Changelog dates kept from the snapshots *)

(** C7.  When the snapshot file of a class holds a (truthy) value, the
    entity of the class in the result carries the [changelogDate] of that
    value, whatever the clock says and whatever the position of the
    class. *)
Theorem changelogDate_of_snapshot (args : Args DB) pd st es st' c cd v e :
  arg_parsedData args = Some pd ->
  assoc c (classes pd) = Some cd ->
  disk st !! snapshotFile cd = Some (Some v) ->
  truthy v = true ->
  createEntities args st = (Ok es, st') ->
  es !! c = Some e ->
  changelogDate e = getProp v "changelogDate".
Proof.
  intros Hpd Hcd Hfile Hv Hrun He.
  destruct (createEntities_resolved args pd st es st' Hpd Hrun)
    as (st2 & st_r & _ & Hpd2 & Hinit & Hod & Hloop & _ & Hes).
  rewrite Hes in He. destruct (bool_decide _); [discriminate |].
  assert (Hcs2 : classes <$> parsedData st2 = Some (classes pd))
    by (by rewrite Hpd2).
  destruct (resolveLoop_frame _ _ _ _ Hcs2 Hloop) as (_ & Hdates & _).
  specialize (Hdates c). rewrite He in Hdates. cbn in Hdates.
  destruct (entities st2 !! c) as [e2|] eqn:He2; [| discriminate].
  injection Hdates as ->.
  destruct (Hinit c e2 He2) as (_ & _ & _ & Hdate).
  rewrite (Hod c cd v Hcd Hfile) in Hdate. cbn in Hdate. auto.
Qed.

(** The same over two runs: the changelog date that a first run gave to
    an entity, once stored in the snapshot of its class, is the one a
    later run gives it. *)
Corollary changelogDate_idempotent (args : Args DB) pd st es st' c cd e
  (args2 : Args DB) pd2 st2 es2 st2' props e2 :
  arg_parsedData args = Some pd ->
  createEntities args st = (Ok es, st') ->
  es !! c = Some e ->
  arg_parsedData args2 = Some pd2 ->
  assoc c (classes pd2) = Some cd ->
  disk st2 !! snapshotFile cd = Some (Some (JObj props)) ->
  assoc "changelogDate" props = Some (changelogDate e) ->
  createEntities args2 st2 = (Ok es2, st2') ->
  es2 !! c = Some e2 ->
  changelogDate e2 = changelogDate e.
Proof.
  intros _ _ _ Hpd2 Hcd Hfile Hprop Hrun2 He2.
  rewrite (changelogDate_of_snapshot args2 pd2 st2 es2 st2' c cd
             (JObj props) e2) by done.
  cbn. by rewrite Hprop.
Qed.

(** ** Changelog dates computed from the clock *)

Lemma readJSONFiles_absent pd d st st' c cd :
  setupFrame pd d st ->
  readJSONFiles st = (Ok tt, st') ->
  assoc c (classes pd) = Some cd ->
  d !! snapshotFile cd = None ->
  onDiskEntities st !! c = None ->
  onDiskEntities st' !! c = None.
Proof.
  intros Hframe Hrun Hcd Hfile Hnone. unfold readJSONFiles in Hrun.
  apply bind_ok in Hrun as (pd' & st1 & H1 & Hrun).
  apply theParsedData_ok in H1 as [-> Hpd'].
  refine (proj2 (forEach_invariant
                   (fun st1 => setupFrame pd d st1 /\
                               onDiskEntities st1 !! c = None)
                   readJSONFile _ _ st st' (conj Hframe Hnone) Hrun)).
  intros y st1 st2 _ [HI Hn] Hstep.
  split; [by eapply readJSONFile_frame |].
  destruct HI as (Hpd & Hd & _).
  apply readJSONFile_ok in Hstep as (pd1 & cd' & Hpd1 & Hcd' & Hst').
  assert (pd1 = pd) as -> by congruence.
  destruct (disk st1 !! snapshotFile cd') as [[v|]|] eqn:Hfile';
    [| done | by subst st2].
  subst st2. cbn. rewrite lookup_insert_ne; [done |].
  intros ->. assert (cd' = cd) as -> by congruence. congruence.
Qed.

Lemma initializeEntitiesFrom_fresh pd d l : forall i st st',
  setupFrame pd d st ->
  initializeEntitiesFrom i l st = (Ok tt, st') ->
  NoDup l ->
  forall j c e,
    l !! j = Some c ->
    entities st' !! c = Some e ->
    truthy (default JUndefined (onDiskEntities st !! c)) = false ->
    exists k, changelogDate e = JStr (dateFormatForLiquibase (clock st k) (i + j)).
Proof.
  induction l as [|c0 l IH]; intros i st st' Hframe Hrun Hnd j c e Hj He Hod;
    [done |].
  cbn in Hrun. apply bind_ok in Hrun as ([] & st1 & Hstep & Hrun).
  apply initializeEntity_ok in Hstep as (e0 & n & -> & Hr & Hf & Hc).
  apply NoDup_cons in Hnd as [Hc0 Hnd].
  assert (Hframe1 : setupFrame pd d
            (set_entities <[c0:=e0]> (set_clockReads (fun _ => n) st)))
    by (destruct Hframe as (? & ? & ?); by repeat split).
  destruct j as [|j]; cbn in Hj.
  - injection Hj as ->.
    destruct (initializeEntitiesFrom_ok _ _ _ _ _ _ Hframe1 Hrun) as (_ & _ & Hes).
    destruct (Hes c e He) as [Hold | [Hin _]]; [| done].
    cbn in Hold. rewrite lookup_insert_eq in Hold. injection Hold as <-.
    rewrite Hod in Hc. exists (clockReads st). by rewrite Nat.add_0_r.
  - destruct (IH (S i) _ st' Hframe1 Hrun Hnd j c e Hj He Hod) as (k & Hk).
    exists k. rewrite Hk. cbn. by rewrite Nat.add_succ_r.
Qed.

(** The changelog date of the class at position [j], when it has no
    snapshot file: the text that [dateFormatForLiquibase] makes of some
    reading of the clock and of the increment [j]. *)
Theorem changelogDate_fresh (args : Args DB) pd st es st' j c cd e :
  arg_parsedData args = Some pd ->
  NoDup (classes pd).*1 ->
  (classes pd).*1 !! j = Some c ->
  assoc c (classes pd) = Some cd ->
  disk st !! snapshotFile cd = None ->
  createEntities args st = (Ok es, st') ->
  es !! c = Some e ->
  exists k, changelogDate e = JStr (dateFormatForLiquibase (clock st k) j).
Proof.
  intros Hpd Hnd Hj Hcd Hfile Hrun He.
  pose proof Hrun as Hrun0.
  apply createEntities_ok in Hrun
    as (pd' & db & st1 & st2 & st_r & Hpd' & Hdb & Hread & Hinit & Hres
        & Hsup & -> & Hall).
  assert (pd' = pd) as -> by congruence. clear Hpd'.
  set (st0 := snd (init (merge args) st)) in *.
  assert (Hframe0 : setupFrame pd (disk st) st0) by (by repeat split).
  destruct (readJSONFiles_ok _ _ _ _ Hframe0 Hread) as (Hframe1 & _ & _).
  assert (Hod1 : onDiskEntities st1 !! c = None).
  { eapply readJSONFiles_absent; [exact Hframe0 | exact Hread | done | done |].
    apply lookup_empty. }
  unfold initializeEntities in Hinit.
  apply bind_ok in Hinit as (pd1 & st1' & H1 & Hinit).
  apply theParsedData_ok in H1 as [-> Hpd1].
  assert (pd1 = pd) as -> by (destruct Hframe1; congruence).
  destruct (createEntities_resolved args pd st _ st' Hpd Hrun0)
    as (st2' & st_r' & Hall' & _ & _ & _ & _ & _ & Hes).
  assert (st_r' = st_r) as -> by congruence.
  rewrite Hes in He. destruct (bool_decide _); [discriminate |].
  destruct (initializeEntitiesFrom_ok _ _ _ _ _ _ Hframe1 Hinit)
    as ((Hpd2 & _ & _) & _ & _).
  unfold resolveEntities in Hres.
  apply bind_ok in Hres as (pd2 & st2'' & H2 & Hres).
  apply theParsedData_ok in H2 as [-> Hpd2'].
  assert (pd2 = pd) as -> by congruence.
  assert (Hcs2 : classes <$> parsedData st2 = Some (classes pd))
    by (by rewrite Hpd2).
  destruct (resolveLoop_frame _ _ _ _ Hcs2 Hres) as (_ & Hdates & _).
  specialize (Hdates c). rewrite He in Hdates. cbn in Hdates.
  destruct (entities st2 !! c) as [e2|] eqn:He2; [| discriminate].
  injection Hdates as ->.
  destruct (initializeEntitiesFrom_fresh _ _ _ _ _ _ Hframe1 Hinit Hnd
              j c e2 Hj He2) as (k & Hk).
  { by rewrite Hod1. }
  exists k. rewrite Hk. f_equal. f_equal.
  destruct (readJSONFiles_ok _ _ _ _ Hframe0 Hread) as (_ & _ & _).
  (* the clock is the one of the initial state *)
  clear -Hread Hframe0.
  unfold readJSONFiles in Hread.
  apply bind_ok in Hread as (pd' & st1' & H1 & Hread).
  apply theParsedData_ok in H1 as [-> _].
  assert (Hclock : clock st1 = clock st0).
  { refine (forEach_invariant (fun s => clock s = clock st0)
              readJSONFile _ _ st0 st1 eq_refl Hread).
    intros y s1 s2 _ Hs (pd1 & cd' & _ & _ & Hst')%readJSONFile_ok.
    destruct (disk s1 !! snapshotFile cd') as [[v|]|]; [| done |]; by subst s2. }
  by rewrite Hclock.
Qed.

(** ** Resolution of the associations *)

Section Claims.
Hypothesis tag_inj :
  forall a s a' s', tag (G:=G) a s = tag a' s' -> a = a' /\ s = s'.

Lemma createEntities_Inv (args : Args DB) pd st es st' :
  arg_parsedData args = Some pd ->
  wellFormed pd ->
  createEntities args st = (Ok es, st') ->
  exists D es_r pd',
    resolvedUpTo (classes pd) (associations pd) D es_r /\
    (forall x, x ∈ D <-> doneBy (associations pd) (classes pd).*1 x) /\
    (forall c e, es !! c = Some e ->
                 es_r !! c = Some e /\ c ∈ (classes pd).*1) /\
    parsedData st' = Some pd' /\ classes pd' = classes pd /\
    associations pd' = normalize D <$> associations pd.
Proof.
  intros Hpd [Hcs Has] Hrun.
  destruct (createEntities_resolved args pd st es st' Hpd Hrun)
    as (st2 & st_r & Hall & Hpd2 & Hinit & _ & Hloop & Hpd' & Hes).
  assert (HInv2 : Inv (classes pd) (associations pd) [] st2).
  { eapply Inv_initial; [done | done | done |].
    intros c e He. by destruct (Hinit c e He) as (_ & ? & _). }
  destruct (resolveLoop_Inv (classes pd) (associations pd) Has tag_inj
              (classes pd).*1 [] st2 st_r Hcs)
    as (D & (pd_r & Hpd_r & Hcs_r & Has_r & Hru) & HD);
    [ intros x _; apply not_elem_of_nil | done | done |].
  assert (Hcs2 : classes <$> parsedData st2 = Some (classes pd))
    by (by rewrite Hpd2).
  destruct (resolveLoop_frame _ _ _ _ Hcs2 Hloop) as (_ & Hdates & _).
  exists D, (entities st_r), pd_r. split; [done |]. split; [| split].
  - intros x. rewrite HD. split; [| auto].
    intros [?%elem_of_nil | ?]; done.
  - intros c e He. rewrite Hes in He.
    destruct (bool_decide _); [discriminate |]. split; [done |].
    specialize (Hdates c). rewrite He in Hdates. cbn in Hdates.
    destruct (entities st2 !! c) as [e2|] eqn:He2; [| discriminate].
    by destruct (Hinit c e2 He2).
  - split; [congruence | done].
Qed.

Lemma filter_none {A} (P : A -> Prop) `{!forall x, Decision (P x)} (l : list A) :
  (forall x, x ∈ l -> ~ P x) -> filter P l = [].
Proof.
  induction l as [|x l IH]; intros Hl; [done |].
  rewrite filter_cons_False by (apply Hl; left).
  apply IH. intros y Hy. apply Hl. by right.
Qed.

Lemma filter_origin_singleton (l : list (Relationship G)) r :
  NoDup (origin <$> l) -> r ∈ l ->
  filter (fun x => origin x = origin r) l = [r].
Proof.
  induction l as [|x l IH]; intros Hnd Hr; [by apply elem_of_nil in Hr |].
  cbn in Hnd. apply NoDup_cons in Hnd as [Hx Hnd].
  apply elem_of_cons in Hr as [-> | Hr].
  - rewrite filter_cons_True by done. f_equal.
    apply filter_none. intros y Hy Heq. apply Hx. rewrite <- Heq.
    apply list_elem_of_fmap. eauto.
  - rewrite filter_cons_False; [by apply IH |].
    intros Heq. apply Hx. rewrite Heq. apply list_elem_of_fmap. eauto.
Qed.

(** The records of an entity that a site has pushed for an
    association: one record, of the expected shape, when the emission
    is made on this entity, none otherwise. *)
Lemma recordsOf_emitted cs as0 D (es : gmap string (Entity G)) c e aid a s :
  resolvedUpTo cs as0 D es ->
  es !! c = Some e -> assoc aid as0 = Some a ->
  (aid, s) ∈ D -> place a s = c ->
  exists r, recordsOf e aid s = [r] /\ shape cs aid a s r.
Proof.
  intros [Hsound Huniq Hcompl] He Ha HD Hplace.
  destruct (Hcompl _ _ _ HD Ha) as (e0 & r & He0 & Hr & Ho).
  rewrite Hplace, He in He0. injection He0 as <-.
  exists r. split.
  - unfold recordsOf. rewrite <- Ho.
    apply filter_origin_singleton; [eauto | done].
  - destruct (Hsound _ _ _ He Hr) as (aid' & s' & a' & Ho' & Ha' & _ & _ & Hsh).
    rewrite Ho in Ho'. apply tag_inj in Ho' as [<- <-].
    by assert (a' = a) as -> by congruence.
Qed.

Lemma recordsOf_none cs as0 D (es : gmap string (Entity G)) c e aid a s :
  resolvedUpTo cs as0 D es ->
  es !! c = Some e -> assoc aid as0 = Some a ->
  ~ ((aid, s) ∈ D /\ place a s = c) ->
  recordsOf e aid s = [].
Proof.
  intros [Hsound _ _] He Ha Hnot. apply filter_none. intros r Hr Ho.
  destruct (Hsound _ _ _ He Hr) as (aid' & s' & a' & Ho' & Ha' & HD & Hpl & _).
  rewrite Ho in Ho'. apply tag_inj in Ho' as [<- <-].
  assert (a' = a) as -> by congruence. auto.
Qed.

Lemma relationshipType_fromRecord a fromName toName id (g : G) :
  relationshipType (fromRecord a fromName toName id g) = assoc_type a.
Proof.
  unfold fromRecord.
  destruct (assoc_type a), (present (injectedFieldInFrom a)); reflexivity.
Qed.

(** What a successful run on a well-formed model has pushed for one
    of its associations, entity by entity of the returned map. *)
Section OneRun.
Variables (args : Args DB) (pd : ParsedData) (st st' : State DB G).
Variables (es : gmap string (Entity G)) (aid : string) (a : Association).
Hypothesis Hpd : arg_parsedData args = Some pd.
Hypothesis Hwf : wellFormed pd.
Hypothesis Ha : assoc aid (associations pd) = Some a.
Hypothesis Hrun : createEntities args st = (Ok es, st').

Lemma fromSide_record e :
  es !! assoc_from a = Some e ->
  exists fc tc id,
    assoc (assoc_from a) (classes pd) = Some fc /\
    assoc (assoc_to a) (classes pd) = Some tc /\
    recordsOf e aid FromSide
    = [fromRecord a (class_name fc) (class_name tc) id (tag aid FromSide)].
Proof.
  intros He.
  destruct (createEntities_Inv args pd st es st' Hpd Hwf Hrun)
    as (D & es_r & pd' & Hru & HD & Hes & _).
  destruct (Hes _ _ He) as [He_r Hclass].
  destruct (recordsOf_emitted _ _ _ _ _ _ aid a FromSide Hru He_r Ha)
    as (r & Hr & (fc & tc & id & Hfc & Htc & ->)); [| done |].
  { apply HD. exists a. by split. }
  exists fc, tc, id. done.
Qed.

Lemma fromSide_elsewhere c e :
  es !! c = Some e -> c <> assoc_from a -> recordsOf e aid FromSide = [].
Proof.
  intros He Hc.
  destruct (createEntities_Inv args pd st es st' Hpd Hwf Hrun)
    as (D & es_r & pd' & Hru & HD & Hes & _).
  destruct (Hes _ _ He) as [He_r Hclass].
  eapply recordsOf_none; [done | done | done |]. by intros [_ ?].
Qed.

Lemma synthesized_record e :
  es !! assoc_to a = Some e ->
  synthesizes a = true -> assoc_from a ∈ (classes pd).*1 ->
  exists fc id,
    assoc (assoc_from a) (classes pd) = Some fc /\
    recordsOf e aid Synthesized
    = [synthesizedRecord a (class_name fc) id (tag aid Synthesized)].
Proof.
  intros He Hsyn Hfrom.
  destruct (createEntities_Inv args pd st es st' Hpd Hwf Hrun)
    as (D & es_r & pd' & Hru & HD & Hes & _).
  destruct (Hes _ _ He) as [He_r Hclass].
  destruct (recordsOf_emitted _ _ _ _ _ _ aid a Synthesized Hru He_r Ha)
    as (r & Hr & _ & (fc & id & Hfc & ->)); [| done |].
  { apply HD. exists a. by split. }
  exists fc, id. done.
Qed.

Lemma synthesized_none c e :
  es !! c = Some e ->
  ~ (c = assoc_to a /\ synthesizes a = true /\
     assoc_from a ∈ (classes pd).*1) ->
  recordsOf e aid Synthesized = [].
Proof.
  intros He Hnot.
  destruct (createEntities_Inv args pd st es st' Hpd Hwf Hrun)
    as (D & es_r & pd' & Hru & HD & Hes & _).
  destruct (Hes _ _ He) as [He_r Hclass].
  eapply recordsOf_none; [done | done | done |].
  intros [(a' & Ha' & Hfrom & Hsyn)%HD Hplace]. cbn in Ha', Hplace.
  assert (a' = a) as -> by congruence. auto.
Qed.

Lemma toSide_record e :
  es !! assoc_to a = Some e ->
  present (injectedFieldInTo a) = true ->
  exists fc id,
    assoc (assoc_from a) (classes pd) = Some fc /\
    recordsOf e aid ToSide
    = [toRecord a (class_name fc) id (tag aid ToSide)].
Proof.
  intros He HiT.
  destruct (createEntities_Inv args pd st es st' Hpd Hwf Hrun)
    as (D & es_r & pd' & Hru & HD & Hes & _).
  destruct (Hes _ _ He) as [He_r Hclass].
  destruct (recordsOf_emitted _ _ _ _ _ _ aid a ToSide Hru He_r Ha)
    as (r & Hr & _ & (fc & id & Hfc & ->)); [| done |].
  { apply HD. exists a. by split. }
  exists fc, id. done.
Qed.

Lemma toSide_none c e :
  es !! c = Some e ->
  ~ (c = assoc_to a /\ present (injectedFieldInTo a) = true) ->
  recordsOf e aid ToSide = [].
Proof.
  intros He Hnot.
  destruct (createEntities_Inv args pd st es st' Hpd Hwf Hrun)
    as (D & es_r & pd' & Hru & HD & Hes & _).
  destruct (Hes _ _ He) as [He_r Hclass].
  eapply recordsOf_none; [done | done | done |].
  intros [(a' & Ha' & Hto & HiT)%HD Hplace]. cbn in Ha', Hplace.
  assert (a' = a) as -> by congruence. auto.
Qed.

(** The association as the run leaves it in the caller's model. *)
Lemma association_after :
  exists pd',
    parsedData st' = Some pd' /\ classes pd' = classes pd /\
    (associations pd').*1 = (associations pd).*1 /\
    assoc aid (associations pd')
    = Some (if synthesizes a && bool_decide (assoc_from a ∈ (classes pd).*1)
            then set_assoc_type MANY_TO_ONE a else a).
Proof.
  destruct (createEntities_Inv args pd st es st' Hpd Hwf Hrun)
    as (D & es_r & pd' & Hru & HD & Hes & Hpd' & Hcs & Has).
  exists pd'. split; [done |]. split; [done |]. split.
  - rewrite Has. apply normalize_keys.
  - rewrite Has, assoc_normalize, Ha. cbn. f_equal.
    rewrite !bool_decide_decide.
    destruct (decide ((aid, Synthesized) ∈ D)) as [Hin | Hnotin].
    + apply HD in Hin as (a' & Ha' & Hfrom & Hsyn). cbn in Ha'.
      assert (a' = a) as -> by congruence.
      by rewrite Hsyn, decide_True.
    + destruct (synthesizes a) eqn:Hsyn; [| done].
      destruct (decide (assoc_from a ∈ (classes pd).*1)); [| done].
      exfalso. apply Hnotin, HD. exists a. cbn. auto.
Qed.
End OneRun.
Lemma wellFormed_after pd pd' :
  wellFormed pd -> classes pd' = classes pd ->
  (associations pd').*1 = (associations pd).*1 -> wellFormed pd'.
Proof.
  intros [Hc0 Ha0] Hc Ha. split.
  - by rewrite Hc.
  - change (NoDup (associations pd').*1). by rewrite Ha.
Qed.

(** C4, as amended.  For a ONE_TO_ONE association of a well-formed
    model, the from-side record of the source entity has as
    [otherEntityRelationshipName] the [lowerFirst] of the source class
    name when [injectedFieldInTo] is absent, and the [lowerFirst] of the
    relationship name decoded from [injectedFieldInTo] when that
    descriptor is present and is a bare relationship name. *)
Theorem one_to_one_otherEntityRelationshipName
  (args : Args DB) pd st es st' aid a fc e :
  arg_parsedData args = Some pd ->
  wellFormed pd ->
  assoc aid (associations pd) = Some a ->
  assoc_type a = ONE_TO_ONE ->
  assoc (assoc_from a) (classes pd) = Some fc ->
  createEntities args st = (Ok es, st') ->
  es !! assoc_from a = Some e ->
  exists r,
    recordsOf e aid FromSide = [r] /\
    (present (injectedFieldInTo a) = false ->
     otherEntityRelationshipName r = Some (lowerFirst (class_name fc))) /\
    (present (injectedFieldInTo a) = true ->
     Some (sf_relationshipName (extractField (injectedFieldInTo a)))
     = injectedFieldInTo a ->
     otherEntityRelationshipName r
     = Some (lowerFirst (sf_relationshipName
                           (extractField (injectedFieldInTo a))))).
Proof.
  intros Hpd Hwf Ha Hty Hfc Hrun He.
  destruct (fromSide_record args pd st st' es aid a Hpd Hwf Ha Hrun e He)
    as (fc' & tc & id & Hfc' & _ & Hrec).
  assert (fc' = fc) as -> by congruence.
  eexists. split; [exact Hrec |]. unfold fromRecord. rewrite Hty.
  cbn [otherEntityRelationshipName]. split.
  - intros HiT. f_equal. f_equal.
    destruct (injectedFieldInTo a) as [d|]; cbn in *; [| done].
    unfold orElse. by destruct (String.eqb d "").
  - intros HiT Hbare. f_equal. f_equal.
    destruct (injectedFieldInTo a) as [d|]; cbn in HiT; [| discriminate].
    assert (Hb : sf_relationshipName (extractField (Some d)) = d)
      by congruence.
    rewrite Hb. cbn [optOrElse].
    unfold orElse. by destruct (String.eqb d "").
Qed.

(** The record that the source entity gets for a MANY_TO_ONE association
    without [injectedFieldInFrom]: an identifier and a type, nothing
    else. *)
Lemma many_to_one_without_from_record (args : Args DB) pd st es st' aid a e :
  arg_parsedData args = Some pd ->
  wellFormed pd ->
  assoc aid (associations pd) = Some a ->
  assoc_type a = MANY_TO_ONE ->
  present (injectedFieldInFrom a) = false ->
  createEntities args st = (Ok es, st') ->
  es !! assoc_from a = Some e ->
  exists id,
    recordsOf e aid FromSide
    = [mkRelationship id MANY_TO_ONE None None None None None
         (tag aid FromSide)].
Proof.
  intros Hpd Hwf Ha Hty HiF Hrun He.
  destruct (fromSide_record args pd st st' es aid a Hpd Hwf Ha Hrun e He)
    as (fc & tc & id & _ & _ & Hrec).
  exists id. rewrite Hrec. unfold fromRecord. by rewrite Hty, HiF.
Qed.

Lemma attributable_eq aid (es : gmap string (Entity G)) c e :
  es !! c = Some e ->
  attributable aid es c
  = length (recordsOf e aid FromSide) + length (recordsOf e aid Synthesized)
    + length (recordsOf e aid ToSide).
Proof. unfold attributable. by intros ->. Qed.

(** C1, as amended.  For an association of a well-formed model whose
    two endpoint entities are in the result (neither is suppressed),
    and that is not a MANY_TO_ONE without [injectedFieldInFrom]: the
    records of the two endpoint entities that come from the association
    are 2 when [injectedFieldInTo] is present or the association is
    ONE_TO_MANY (the inverse side being synthesized then), and 1
    otherwise. *)
Theorem records_per_association (args : Args DB) pd st es st' aid a :
  arg_parsedData args = Some pd ->
  wellFormed pd ->
  assoc aid (associations pd) = Some a ->
  is_Some (es !! assoc_from a) ->
  is_Some (es !! assoc_to a) ->
  ~ (assoc_type a = MANY_TO_ONE /\ present (injectedFieldInFrom a) = false) ->
  createEntities args st = (Ok es, st') ->
  totalRecords aid a es
  = if present (injectedFieldInTo a) || bool_decide (assoc_type a = ONE_TO_MANY)
    then 2 else 1.
Proof.
  intros Hpd Hwf Ha [ef Hef] [et Het] _ Hrun.
  assert (Hfrom : assoc_from a ∈ (classes pd).*1).
  { destruct (createEntities_Inv args pd st es st' Hpd Hwf Hrun)
      as (D & es_r & pd' & _ & _ & Hes & _).
    by destruct (Hes _ _ Hef). }
  destruct (fromSide_record args pd st st' es aid a Hpd Hwf Ha Hrun ef Hef)
    as (fc & tc & id & _ & _ & HrecF).
  assert (HS : length (recordsOf et aid Synthesized)
               = if synthesizes a then 1 else 0).
  { destruct (synthesizes a) eqn:Hsyn.
    - destruct (synthesized_record args pd st st' es aid a Hpd Hwf Ha Hrun
                  et Het Hsyn Hfrom) as (fc' & id' & _ & ->). done.
    - rewrite (synthesized_none args pd st st' es aid a Hpd Hwf Ha Hrun
                 (assoc_to a) et Het); [done |].
      intros (_ & ? & _). congruence. }
  assert (HT : length (recordsOf et aid ToSide)
               = if present (injectedFieldInTo a) then 1 else 0).
  { destruct (present (injectedFieldInTo a)) eqn:HiT.
    - destruct (toSide_record args pd st st' es aid a Hpd Hwf Ha Hrun
                  et Het HiT) as (fc' & id' & _ & ->). done.
    - rewrite (toSide_none args pd st st' es aid a Hpd Hwf Ha Hrun
                 (assoc_to a) et Het); [done |].
      intros (_ & ?). congruence. }
  assert (Hsum : (if synthesizes a then 1 else 0)
                 + (if present (injectedFieldInTo a) then 1 else 0) + 1
                 = if present (injectedFieldInTo a)
                      || bool_decide (assoc_type a = ONE_TO_MANY)
                   then 2 else 1).
  { unfold synthesizes.
    destruct (present (injectedFieldInTo a)), (bool_decide _); done. }
  unfold totalRecords. destruct (decide (assoc_from a = assoc_to a)) as [Heq | Hne].
  - rewrite Heq in Hef. assert (ef = et) as -> by congruence.
    rewrite Heq, (attributable_eq _ _ _ _ Het), HrecF, HS, HT. cbn [length].
    rewrite <- Hsum. lia.
  - rewrite (attributable_eq _ _ _ _ Hef), (attributable_eq _ _ _ _ Het).
    rewrite HrecF, HS, HT.
    rewrite (synthesized_none args pd st st' es aid a Hpd Hwf Ha Hrun
               (assoc_from a) ef Hef) by (by intros [? _]).
    rewrite (toSide_none args pd st st' es aid a Hpd Hwf Ha Hrun
               (assoc_from a) ef Hef) by (by intros [? _]).
    rewrite (fromSide_elsewhere args pd st st' es aid a Hpd Hwf Ha Hrun
               (assoc_to a) et Het) by done.
    cbn [length]. rewrite <- Hsum. lia.
Qed.
End Claims.
End Theory.

(** * The properties on concrete models *)

Lemma origin_tag_inj (a : string) (s : Site) (a' : string) (s' : Site) :
  tag a s = tag a' s' -> a = a' /\ s = s'.
Proof. intros [= -> ->]. split; reflexivity. Defined.

Lemma wellFormed_authorBook t iF iT : wellFormed (authorBook t iF iT).
Proof. split; apply (bool_decide_unpack _); vm_compute; exact I. Defined.

(** ** Strings and dates *)

Example dateFormat_sample :
  dateFormatForLiquibase (mkUTC 2016 2 5 10 15 10) 2 = "20160305101512".
Proof. vm_compute. reflexivity. Qed.

Example dateFormat_minute_sample :
  dateFormatForLiquibase (mkUTC 2016 2 5 10 7 10) 0 = "20160305100{minute}10".
Proof. vm_compute. reflexivity. Qed.

Example split_sample :
  split "/" (replaceFirst ")" "" (replaceFirst "(" "/" "owner(name)")) = ["owner"; "name"].
Proof. reflexivity. Qed.

(** ** The example of the specification *)

Example authorHasBooks_author :
  relationships (entityOf (runAt noon ∅ authorHasBooks) "c1")
  = [mkRelationship 1 ONE_TO_MANY (Some "books") (Some "book") None None
       (Some "author") ("a1", FromSide)].
Proof. vm_compute. reflexivity. Qed.

Example authorHasBooks_book :
  relationships (entityOf (runAt noon ∅ authorHasBooks) "c2")
  = [mkRelationship 1 MANY_TO_ONE (Some "author") (Some "author") (Some "id")
       None None ("a1", Synthesized)].
Proof. vm_compute. reflexivity. Qed.

(** ** The second run on the example *)

(** The second run, computed: the model that the first run leaves gives
    the Author a MANY_TO_ONE record and the Book nothing. *)
Example second_run_computed :
  let pd1 := default authorHasBooks (parsedData (snd (runAt noon ∅ authorHasBooks))) in
  relationships (entityOf (runAt noon ∅ pd1) "c1")
  = [mkRelationship 1 MANY_TO_ONE (Some "books") (Some "book") (Some "id")
       None None ("a1", FromSide)] /\
  relationships (entityOf (runAt noon ∅ pd1) "c2") = [].
Proof. vm_compute. split; reflexivity. Qed.

(** ** C4: the counterexample and the amended claim on an example *)

(** C4, counterexample.  Without [injectedFieldInTo] the name is the
    source class name ("author"), not the target class name ("Book"). *)
Lemma one_to_one_default_is_source_name :
  exists r,
    recordsOf (entityOf (runAt noon ∅ authorHasOneBook) "c1") "a1" FromSide = [r] /\
    relationshipType r = ONE_TO_ONE /\
    otherEntityRelationshipName r = Some "author" /\
    otherEntityRelationshipName r <> Some "Book" /\
    otherEntityRelationshipName r <> Some "book".
Proof.
  eexists. split; [vm_compute; reflexivity |].
  cbn. repeat split; discriminate.
Qed.

(** With a descriptor that names a field of the other entity, the name is
    the whole descriptor, not the relationship name decoded from it. *)
Example one_to_one_descriptor_not_decoded :
  exists r,
    recordsOf (entityOf (runAt noon ∅
                           (authorBook ONE_TO_ONE (Some "book")
                              (Some "owner(name)"))) "c1")
      "a1" FromSide = [r] /\
    otherEntityRelationshipName r = Some "owner(name)" /\
    sf_relationshipName (extractField (Some "owner(name)")) = "owner".
Proof.
  eexists. split; [vm_compute; reflexivity |]. split; reflexivity.
Qed.

Lemma one_to_one_otherEntityRelationshipName_witness :
  exists r,
    recordsOf (entityOf (runAt noon ∅ authorHasOneBook) "c1") "a1" FromSide = [r] /\
    (present None = false ->
     otherEntityRelationshipName r = Some "author") /\
    (present None = true ->
     Some (sf_relationshipName (extractField None)) = None ->
     otherEntityRelationshipName r
     = Some (asciiLowerFirst (sf_relationshipName (extractField None)))).
Proof.
  refine (one_to_one_otherEntityRelationshipName origin_tag_inj
            (argsOf sql authorHasOneBook) authorHasOneBook (freshAt noon ∅)
            (entitiesOf (runAt noon ∅ authorHasOneBook))
            (snd (runAt noon ∅ authorHasOneBook))
            "a1" (mkAssociation "c1" "c2" ONE_TO_ONE (Some "book") None)
            (plainClass "Author")
            (entityOf (runAt noon ∅ authorHasOneBook) "c1") _ _ _ _ _ _ _).
  - reflexivity.
  - apply wellFormed_authorBook.
  - reflexivity.
  - reflexivity.
  - reflexivity.
  - vm_compute. reflexivity.
  - vm_compute. reflexivity.
Defined.

(** ** C1: the counterexample and the amended claim on an example *)

(** C1, counterexample.  The only record of this association sits on the
    entity of the class named User, which is removed: nothing is left of
    it in the result. *)
Lemma records_total_zero_with_User :
  exists es st',
    runAt noon ∅ userOwnsBook = (Ok es, st') /\
    totalRecords "a1" (mkAssociation "c1" "c2" MANY_TO_ONE (Some "book") None) es
    = 0.
Proof.
  exists (entitiesOf (runAt noon ∅ userOwnsBook)), (snd (runAt noon ∅ userOwnsBook)).
  split; vm_compute; reflexivity.
Qed.

(** A MANY_TO_ONE with only [injectedFieldInTo]: two records, one of them
    the record without name of the source entity. *)
Example records_total_many_to_one_without_from :
  totalRecords "a1" (mkAssociation "c1" "c2" MANY_TO_ONE None (Some "author"))
    (entitiesOf (runAt noon ∅ manyToOneWithoutFrom)) = 2.
Proof. vm_compute. reflexivity. Qed.

(** A ONE_TO_ONE without [injectedFieldInTo]: one record. *)
Example records_total_one_to_one_without_to :
  totalRecords "a1" (mkAssociation "c1" "c2" ONE_TO_ONE (Some "book") None)
    (entitiesOf (runAt noon ∅ authorHasOneBook)) = 1.
Proof. vm_compute. reflexivity. Qed.

Lemma records_per_association_witness :
  totalRecords "a1" (mkAssociation "c1" "c2" ONE_TO_MANY (Some "books") None)
    (entitiesOf (runAt noon ∅ authorHasBooks)) = 2.
Proof.
  refine (records_per_association origin_tag_inj
            (argsOf sql authorHasBooks) authorHasBooks (freshAt noon ∅)
            (entitiesOf (runAt noon ∅ authorHasBooks))
            (snd (runAt noon ∅ authorHasBooks))
            "a1" (mkAssociation "c1" "c2" ONE_TO_MANY (Some "books") None)
            _ _ _ _ _ _ _).
  - reflexivity.
  - apply wellFormed_authorBook.
  - reflexivity.
  - exists (entityOf (runAt noon ∅ authorHasBooks) "c1"). vm_compute. reflexivity.
  - exists (entityOf (runAt noon ∅ authorHasBooks) "c2"). vm_compute. reflexivity.
  - intros [H _]. discriminate H.
  - vm_compute. reflexivity.
Defined.

(** ** C3: a record on the source entity without [injectedFieldInFrom] *)

(** C3.  For the MANY_TO_ONE association from Author to Book that has no
    [injectedFieldInFrom], the Author entity does get a record for the
    association: the record of line 304, with an identifier and a type and
    no name ([many_to_one_without_from_record] has it for every such
    association). *)
Theorem many_to_one_without_from_emits_record :
  injectedFieldInFrom (mkAssociation "c1" "c2" MANY_TO_ONE None (Some "author"))
  = None /\
  relationships (entityOf (runAt noon ∅ manyToOneWithoutFrom) "c1")
  = [mkRelationship 1 MANY_TO_ONE None None None None None ("a1", FromSide)].
Proof. split; [reflexivity | vm_compute; reflexivity]. Qed.

(** ** C7 on an example, and a class named User *)

Lemma changelogDate_of_snapshot_witness :
  changelogDate (entityOf (runAt noon authorSnapshot authorHasBooks) "c1")
  = JStr "20150101000000".
Proof.
  refine (changelogDate_of_snapshot
            (argsOf sql authorHasBooks) authorHasBooks
            (freshAt noon authorSnapshot)
            (entitiesOf (runAt noon authorSnapshot authorHasBooks))
            (snd (runAt noon authorSnapshot authorHasBooks))
            "c1" (plainClass "Author")
            (JObj [("changelogDate", JStr "20150101000000")])
            (entityOf (runAt noon authorSnapshot authorHasBooks) "c1")
            _ _ _ _ _ _).
  - reflexivity.
  - reflexivity.
  - vm_compute. reflexivity.
  - reflexivity.
  - vm_compute. reflexivity.
  - vm_compute. reflexivity.
Defined.

(** The class named "User" is gone and the Book entity is as resolved. *)
Example userOwnsBook_result :
  entitiesOf (runAt noon ∅ userOwnsBook) !! "c1" = None /\
  is_Some (entitiesOf (runAt noon ∅ userOwnsBook) !! "c2").
Proof. split; [vm_compute; reflexivity | eexists; vm_compute; reflexivity]. Qed.

(** ** C8 on an example *)

Example nosql_with_association_fails :
  fst (createEntities (argsOf mongodb authorHasBooks) (freshAt noon ∅))
  = Throw NoSQLModeling /\
  entities (snd (createEntities (argsOf mongodb authorHasBooks) (freshAt noon ∅)))
  = ∅.
Proof. split; vm_compute; reflexivity. Qed.

(** ** C5 and C6: the changelog dates *)

(** C5.  At 10:07:30 the first class, which has no snapshot, gets a date
    that is not the base time in 14 digits: the minute is the text
    [0{minute}] of line 145. *)
Theorem changelogDate_minute_below_ten :
  changelogDate (entityOf (runAt sevenPastTen ∅ authorHasBooks) "c1")
  = JStr "20160305100{minute}30" /\
  specChangelogDate sevenPastTen 0 = "20160305100730" /\
  changelogDate (entityOf (runAt sevenPastTen ∅ authorHasBooks) "c1")
  <> JStr (specChangelogDate sevenPastTen 0) /\
  String.length "20160305100{minute}30" = 21.
Proof.
  assert (Hcode : changelogDate
                    (entityOf (runAt sevenPastTen ∅ authorHasBooks) "c1")
                  = JStr "20160305100{minute}30") by (vm_compute; reflexivity).
  assert (Hspec : specChangelogDate sevenPastTen 0 = "20160305100730")
    by (vm_compute; reflexivity).
  split; [exact Hcode |]. split; [exact Hspec |]. split; [| reflexivity].
  rewrite Hcode, Hspec. discriminate.
Qed.

(** At 12:30:59 the second class gets the seconds [00] of the same
    minute, where the base time plus one second is 12:31:00. *)
Example changelogDate_seconds_wrap :
  changelogDate (entityOf (runAt endOfMinute ∅ authorHasBooks) "c2")
  = JStr "20160305123000" /\
  specChangelogDate endOfMinute 1 = "20160305123100".
Proof. split; vm_compute; reflexivity. Qed.


(** With 61 classes the first and the last get the same date. *)
Example changelogDates_collide :
  changelogDate (entityOf (runAt noon ∅ (manyClasses 61)) "c0")
  = changelogDate (entityOf (runAt noon ∅ (manyClasses 61)) "c60").
Proof. vm_compute. reflexivity. Qed.

(** The increment counts modulo 60, for every reading of the clock. *)
Lemma dateFormatForLiquibase_period t i :
  dateFormatForLiquibase t (i + 60) = dateFormatForLiquibase t i.
Proof.
  unfold dateFormatForLiquibase.
  replace ((utcSeconds t + (i + 60)) mod 60) with ((utcSeconds t + i) mod 60);
    [reflexivity |].
  rewrite Nat.add_assoc. symmetry.
  rewrite <- (Nat.Div0.mod_add (utcSeconds t + i) 1 60) at 1.
  f_equal.
Qed.

(** ** Where the code and the specification agree on the date

    Each component is compared on its whole range by computation. *)

Lemma forallb_seq (f : nat -> bool) (lo len n : nat) :
  forallb f (seq lo len) = true -> lo <= n < lo + len -> f n = true.
Proof.
  intros Hall Hn. rewrite forallb_forall in Hall. apply Hall.
  apply in_seq. exact Hn.
Qed.

Lemma twoDigits_padded n : n < 100 -> twoDigits n = padded 2 n.
Proof.
  intros Hn. apply String.eqb_eq.
  apply (forallb_seq (fun n => String.eqb (twoDigits n) (padded 2 n)) 0 100);
    [vm_compute; reflexivity | lia].
Qed.

Lemma toString_two_digits n :
  10 <= n < 100 -> String.length (toString n) = 2 /\ toString n = padded 2 n.
Proof.
  intros Hn.
  assert (H : (Nat.eqb (String.length (toString n)) 2
               && String.eqb (toString n) (padded 2 n)) = true).
  { apply (forallb_seq (fun n => Nat.eqb (String.length (toString n)) 2
                                 && String.eqb (toString n) (padded 2 n)) 10 90);
      [vm_compute; reflexivity | lia]. }
  apply andb_prop in H as [H1 H2].
  split; [by apply Nat.eqb_eq | by apply String.eqb_eq].
Qed.

Lemma toString_four_digits y :
  1900 <= y < 2200 -> toString y = padded 4 y.
Proof.
  intros Hy. apply String.eqb_eq.
  apply (forallb_seq (fun y => String.eqb (toString y) (padded 4 y)) 1900 300);
    [vm_compute; reflexivity | lia].
Qed.

(** From minute 10 on, and as long as the seconds do not pass the end of
    the minute, [dateFormatForLiquibase] is the date of the specification. *)
Theorem dateFormatForLiquibase_agrees t i :
  1900 <= utcFullYear t < 2200 ->
  utcMonth t < 12 -> utcDate t < 100 -> utcHours t < 24 ->
  10 <= utcMinutes t < 60 ->
  utcSeconds t + i < 60 ->
  dateFormatForLiquibase t i = specChangelogDate t i.
Proof.
  intros Hy Hmo Hd Hh Hmi Hs.
  unfold specChangelogDate, addSeconds. cbv zeta.
  rewrite (Nat.div_small (utcSeconds t + i) 60) by lia.
  rewrite Nat.add_0_r, (Nat.div_small (utcMinutes t) 60) by lia.
  rewrite Nat.add_0_r, (Nat.div_small (utcHours t) 24) by lia.
  rewrite !Nat.mod_small by lia. cbn [Nat.iter nat_rect].
  unfold format14, dateFormatForLiquibase. cbv zeta.
  cbn [utcFullYear utcMonth utcDate utcHours utcMinutes utcSeconds].
  rewrite (Nat.mod_small (utcSeconds t + i) 60) by lia.
  destruct (toString_two_digits (utcMinutes t)) as [Hlen Hmin]; [lia |].
  rewrite Hlen. cbn [Nat.eqb].
  rewrite <- Hmin, <- (toString_four_digits (utcFullYear t)) by lia.
  rewrite <- !twoDigits_padded by lia. reflexivity.
Qed.

(** * Properties of the functions

    Decoding of the descriptors, errors, options, fields, and what a run
    needs and leaves. *)

Lemma append_cons d s1 s2 : String d s1 +:+ s2 = String d (s1 +:+ s2).
Proof. reflexivity. Qed.

Lemma append_empty_l s : "" +:+ s = s.
Proof. reflexivity. Qed.

Lemma append_empty_r s : s +:+ "" = s.
Proof. induction s as [|d s IH]; [reflexivity |]. by rewrite append_cons, IH. Qed.

Lemma replaceFirst_app c r s1 s2 :
  occurs c s1 = false ->
  replaceFirst c r (s1 +:+ s2) = s1 +:+ replaceFirst c r s2.
Proof.
  induction s1 as [|d s1 IH]; [reflexivity |].
  rewrite !append_cons. cbn.
  intros [Hd Hs]%orb_false_elim. rewrite Hd, IH by exact Hs. reflexivity.
Qed.

Lemma replaceFirst_absent c r s : occurs c s = false -> replaceFirst c r s = s.
Proof.
  induction s as [|d s IH]; cbn; [reflexivity |].
  intros [Hd Hs]%orb_false_elim. rewrite Hd, IH by exact Hs. reflexivity.
Qed.

Lemma split_absent c s : occurs c s = false -> split c s = [s].
Proof.
  induction s as [|d s IH]; cbn; [reflexivity |].
  intros [Hd Hs]%orb_false_elim. rewrite Hd, IH by exact Hs. reflexivity.
Qed.

Lemma split_app c s1 s2 :
  occurs c s1 = false ->
  split c (s1 +:+ String c s2) = s1 :: split c s2.
Proof.
  induction s1 as [|d s1 IH].
  - intros _. rewrite append_empty_l. cbn. by rewrite Ascii.eqb_refl.
  - rewrite append_cons. cbn.
    intros [Hd Hs]%orb_false_elim. rewrite Hd, IH by exact Hs. reflexivity.
Qed.

Lemma append_nonempty s1 c s2 : String.eqb (s1 +:+ String c s2) "" = false.
Proof. destruct s1; [rewrite append_empty_l | rewrite append_cons]; reflexivity. Qed.

(** X1.  [extractField] decodes what the descriptor
    [<relationshipName>(<otherEntityField>)] encodes: for a name without
    parenthesis or slash and a field without closing parenthesis or slash,
    it gives back the two. *)
Theorem extractField_round_trip name field :
  occurs "(" name = false -> occurs ")" name = false ->
  occurs "/" name = false ->
  occurs ")" field = false -> occurs "/" field = false ->
  extractField (Some (name +:+ "(" +:+ field +:+ ")"))
  = mkSplitField field name.
Proof.
  intros Hn1 Hn2 Hn3 Hf1 Hf2. unfold extractField.
  rewrite (append_cons "(" ""), append_empty_l, append_nonempty.
  rewrite (replaceFirst_app "(" "/" name) by exact Hn1.
  cbn [replaceFirst]. rewrite Ascii.eqb_refl.
  rewrite (replaceFirst_app ")" "" name) by exact Hn2.
  rewrite (append_cons "/" ""), append_empty_l.
  cbn [replaceFirst].
  replace (Ascii.eqb ")" "/") with false by reflexivity.
  rewrite (replaceFirst_app ")" "" field) by exact Hf1.
  cbn [replaceFirst]. rewrite Ascii.eqb_refl.
  rewrite append_empty_l, append_empty_r.
  rewrite split_app by exact Hn3.
  rewrite split_absent by exact Hf2. reflexivity.
Qed.

(** X2.  A descriptor that is a bare name (no parenthesis, no slash) is
    the relationship name, and the field of the other entity is [id]. *)
Theorem extractField_bare_name name :
  occurs "(" name = false -> occurs ")" name = false ->
  occurs "/" name = false ->
  extractField (Some name) = mkSplitField "id" name.
Proof.
  intros H1 H2 H3. unfold extractField.
  destruct (String.eqb_spec name "") as [->|_]; [reflexivity |].
  rewrite (replaceFirst_absent "(") by exact H1.
  rewrite (replaceFirst_absent ")") by exact H2.
  rewrite split_absent by exact H3. reflexivity.
Qed.

Lemma split_head_cons c d s :
  hd "" (split c (String d s))
  = if Ascii.eqb c d then "" else String d (hd "" (split c s)).
Proof. cbn. destruct (Ascii.eqb c d); [reflexivity |]. by destruct (split c s). Qed.

Lemma split_head_lacks c s : occurs c (hd "" (split c s)) = false.
Proof.
  induction s as [|d s IH]; [reflexivity |].
  rewrite split_head_cons. destruct (Ascii.eqb c d) eqn:Hd; [reflexivity |].
  cbn [occurs]. by rewrite Hd, IH.
Qed.

Lemma head_after_open f :
  occurs "(" (hd "" (split "/" (replaceFirst "(" "/" f))) = false.
Proof.
  induction f as [|d f IH]; [reflexivity |].
  cbn [replaceFirst]. destruct (Ascii.eqb "(" d) eqn:Hd.
  - reflexivity.
  - rewrite split_head_cons. destruct (Ascii.eqb "/" d); [reflexivity |].
    cbn [occurs]. by rewrite Hd, IH.
Qed.

Lemma head_after_close s :
  occurs "(" (hd "" (split "/" s)) = false ->
  occurs "(" (hd "" (split "/" (replaceFirst ")" "" s))) = false.
Proof.
  induction s as [|d s IH]; [reflexivity |].
  cbn [replaceFirst]. rewrite split_head_cons.
  destruct (Ascii.eqb ")" d) eqn:Hd.
  - apply Ascii.eqb_eq in Hd as <-.
    replace (Ascii.eqb "/" ")") with false by reflexivity.
    cbn [occurs]. rewrite append_empty_l.
    by intros [_ H]%orb_false_elim.
  - destruct (Ascii.eqb "/" d) eqn:Hs.
    + intros _. rewrite split_head_cons, Hs. reflexivity.
    + rewrite split_head_cons, Hs. cbn [occurs].
      intros [H1 H2]%orb_false_elim. rewrite H1. by apply IH.
Qed.

(** X3.  Whatever the descriptor, the relationship name that
    [extractField] returns holds no slash and no opening parenthesis. *)
Theorem extractField_name_without_separator field :
  occurs "/" (sf_relationshipName (extractField field)) = false /\
  occurs "(" (sf_relationshipName (extractField field)) = false.
Proof.
  destruct field as [f|]; [| split; reflexivity].
  unfold extractField. destruct (String.eqb f ""); [split; reflexivity |].
  cbn [sf_relationshipName].
  set (s := replaceFirst ")" "" (replaceFirst "(" "/" f)).
  assert (Hhd : match split "/" s with c0 :: _ => c0 | [] => "" end
                = hd "" (split "/" s)) by (by destruct (split "/" s)).
  rewrite Hhd. split; [apply split_head_lacks |].
  apply head_after_close, head_after_open.
Qed.

Lemma getRelatedAssociations_eq classId ids l :
  getRelatedAssociations classId ids l
  = if forallb (readable l) ids
    then Some (List.filter (leavesFrom l classId) ids,
               List.filter (arrivesAt l classId) ids)
    else None.
Proof.
  induction ids as [|k ids IH]; [reflexivity |].
  cbn [getRelatedAssociations forallb List.filter].
  unfold readable at 1, leavesFrom at 1, arrivesAt at 1.
  destruct (assoc k l) as [a|] eqn:Hk.
  - rewrite bool_decide_eq_true_2 by eauto. cbn [orb andb].
    rewrite IH. destruct (forallb _ ids); [| reflexivity].
    by destruct (String.eqb (assoc_from a) classId),
         (String.eqb (assoc_to a) classId && present (injectedFieldInTo a)).
  - rewrite bool_decide_eq_false_2 by (by intros []%is_Some_None).
    cbn [orb andb]. by destruct (inheritedProperty k).
Qed.

Lemma assoc_of_key {A} k (l : list (string * A)) :
  k ∈ l.*1 -> is_Some (assoc k l).
Proof.
  induction l as [|[k' v] l IH]; cbn; [by intros ?%elem_of_nil |].
  intros H. destruct (String.eqb_spec k k') as [->|Hne]; [eauto |].
  apply elem_of_cons in H as [->|H]; [done | by apply IH].
Qed.

Lemma getRelatedAssociations_on_keys classId l :
  getRelatedAssociations classId l.*1 l
  = Some (List.filter (leavesFrom l classId) l.*1,
          List.filter (arrivesAt l classId) l.*1).
Proof.
  rewrite getRelatedAssociations_eq.
  replace (forallb _ l.*1) with true; [reflexivity |].
  symmetry. apply forallb_forall. intros k Hk. unfold readable.
  rewrite bool_decide_eq_true_2; [done |].
  apply assoc_of_key, list_elem_of_In, Hk.
Qed.

(** X4.  [getRelatedAssociations] throws exactly when one of the
    identifiers is neither a key of the association object nor the name
    of an inherited property; otherwise [from] is the identifiers whose
    association leaves the class and [to] the identifiers whose
    association arrives at it with an [injectedFieldInTo], both in the
    order of the identifiers (an inherited name is in neither).  On the
    keys of the association object itself, as [setRelationshipOfEntity]
    calls it, it never throws. *)
Theorem getRelatedAssociations_filter classId ids l :
  getRelatedAssociations classId ids l
  = (if forallb (readable l) ids
     then Some (List.filter (leavesFrom l classId) ids,
                List.filter (arrivesAt l classId) ids)
     else None) /\
  is_Some (getRelatedAssociations classId l.*1 l).
Proof.
  split; [apply getRelatedAssociations_eq |].
  rewrite getRelatedAssociations_on_keys. eauto.
Qed.

Section Stages.
Context {DB G : Type} `{!Externals DB} `{!Tagging G}.

Implicit Types (st : State DB G) (pd : ParsedData).

Local Abbreviation raises := (raises (DB:=DB) (G:=G)).

(** ** Running the accessors forward *)

Lemma bind_fail {A B} (m : M A) (k : A -> M B) st e st1 :
  m st = (Throw e, st1) -> bind m k st = (Throw e, st1).
Proof. unfold bind. intros ->. reflexivity. Qed.

Lemma theParsedData_run st pd :
  parsedData st = Some pd -> theParsedData st = (Ok pd, st).
Proof. intros Hpd. unfold theParsedData, bind, gets. by rewrite Hpd. Qed.

Lemma getClass_run st pd c cd :
  parsedData st = Some pd -> assoc c (classes pd) = Some cd ->
  getClass c st = (Ok cd, st).
Proof.
  intros Hpd Hc. unfold getClass.
  rewrite (bind_run _ _ _ _ _ (theParsedData_run _ _ Hpd)). by rewrite Hc.
Qed.

Lemma getEntity_run st c (e : Entity G) :
  entities st !! c = Some e -> getEntity c st = (Ok e, st).
Proof. intros He. unfold getEntity, bind, gets. by rewrite He. Qed.

Lemma readJSONFile_run st pd c cd :
  parsedData st = Some pd -> assoc c (classes pd) = Some cd ->
  readJSONFile c st =
    match disk st !! snapshotFile cd with
    | Some (Some v) => (Ok tt, set_onDiskEntities (<[c := v]>) st)
    | Some None => (Throw SyntaxError, st)
    | None => (Ok tt, st)
    end.
Proof.
  intros Hpd Hc. unfold readJSONFile.
  rewrite (bind_run _ _ _ _ _ (getClass_run _ _ _ _ Hpd Hc)).
  unfold bind, gets, snapshotFile.
  by destruct (disk st !! _) as [[v|]|].
Qed.

(** The loop of [readJSONFiles] over identifiers of classes: it stops
    with a [SyntaxError] at the first snapshot that does not parse, with
    the entities as they were. *)
Lemma readLoop_run pd d l : forall st,
  setupFrame pd d st ->
  (forall c, c ∈ l -> is_Some (assoc c (classes pd))) ->
  exists st',
    setupFrame pd d st' /\ entities st' = entities st /\
    forEach readJSONFile l st
    = (if existsb (unparsable pd d) l then Throw SyntaxError else Ok tt, st').
Proof.
  induction l as [|c l IH]; intros st Hframe Hl.
  - by exists st.
  - destruct (Hl c) as [cd Hcd]; [left |].
    pose proof Hframe as (Hpd & Hd & Hs).
    cbn [forEach existsb]. unfold unparsable at 1. rewrite Hcd.
    destruct (d !! snapshotFile cd) as [[v|]|] eqn:Hfile.
    + assert (Hstep : readJSONFile c st
                      = (Ok tt, set_onDiskEntities (<[c := v]>) st))
        by (by rewrite (readJSONFile_run _ _ _ _ Hpd Hcd), Hd, Hfile).
      rewrite (bind_run _ _ _ _ _ Hstep).
      destruct (IH (set_onDiskEntities (<[c := v]>) st)) as (st' & ? & ? & Hrun);
        [by repeat split | intros; apply Hl; by right |].
      by exists st'.
    + exists st. split; [done |]. split; [done |].
      assert (Hstep : readJSONFile c st = (Throw SyntaxError, st))
        by (by rewrite (readJSONFile_run _ _ _ _ Hpd Hcd), Hd, Hfile).
      by rewrite (bind_fail _ _ _ _ _ Hstep).
    + assert (Hstep : readJSONFile c st = (Ok tt, st))
        by (by rewrite (readJSONFile_run _ _ _ _ Hpd Hcd), Hd, Hfile).
      rewrite (bind_run _ _ _ _ _ Hstep).
      destruct (IH st) as (st' & ? & ? & Hrun);
        [done | intros; apply Hl; by right |].
      by exists st'.
Qed.

Lemma unparsable_spec pd d :
  existsb (unparsable pd d) (classes pd).*1 = true <->
  exists c cd, assoc c (classes pd) = Some cd /\
               d !! snapshotFile cd = Some None.
Proof.
  rewrite existsb_exists. unfold unparsable. split.
  - intros (c & _ & Hc). destruct (assoc c (classes pd)) as [cd|] eqn:Hcd; [| done].
    exists c, cd. split; [done |].
    by destruct (d !! snapshotFile cd) as [[v|]|].
  - intros (c & cd & Hcd & Hbad). exists c.
    split; [by eapply list_elem_of_In, assoc_is_key |].
    by rewrite Hcd, Hbad.
Qed.

Lemma readJSONFiles_run pd d st :
  setupFrame pd d st ->
  exists st',
    setupFrame pd d st' /\ entities st' = entities st /\
    readJSONFiles st
    = (if existsb (unparsable pd d) (classes pd).*1
       then Throw SyntaxError else Ok tt, st').
Proof.
  intros Hframe. pose proof Hframe as (Hpd & _ & _).
  destruct (readLoop_run pd d (classes pd).*1 st Hframe)
    as (st' & Hframe' & Hes & Hrun); [intros c; apply assoc_of_key |].
  exists st'. split; [done |]. split; [done |].
  unfold readJSONFiles.
  rewrite (bind_run _ _ _ _ _ (theParsedData_run _ _ Hpd)).
  change (map fst (classes pd)) with (classes pd).*1. by rewrite Hrun.
Qed.

Lemma after_snapshots_not_SyntaxError :
  raises (fun e => e <> SyntaxError)
    (initializeEntities ;; fillEntities ;; gets entities).
Proof.
  apply raises_bind; [apply raises_initializeEntities; done | intros _].
  apply raises_bind; [apply raises_fillEntities; done | intros _].
  apply raises_gets.
Qed.

Lemma after_check_not_NullPointer :
  raises (fun e => e <> NullPointer)
    (readJSONFiles ;; initializeEntities ;; fillEntities ;; gets entities).
Proof.
  apply raises_bind; [apply raises_readJSONFiles; done | intros _].
  apply raises_bind; [apply raises_initializeEntities; done | intros _].
  apply raises_bind; [apply raises_fillEntities; done | intros _].
  apply raises_gets.
Qed.

(** X5.  [createEntities] throws the NullPointer exception exactly when the
    parsed model or the storage types are missing, and then no module
    variable has been assigned. *)
Theorem createEntities_NullPointer_iff (args : Args DB) st :
  (fst (createEntities args st) = Throw NullPointer <->
   arg_parsedData args = None \/ arg_databaseTypes args = None) /\
  (fst (createEntities args st) = Throw NullPointer ->
   snd (createEntities args st) = st).
Proof.
  destruct (arg_parsedData args) as [pd|] eqn:Hpd;
    [destruct (arg_databaseTypes args) as [db|] eqn:Hdb |].
  2,3: rewrite createEntities_missing by auto; split; [split |]; auto.
  rewrite (createEntities_run args st pd db Hpd Hdb).
  assert (Hnot : fst (if isNoSQL db && negb (length (associations pd) =? 0)%nat
                      then (Throw NoSQLModeling, snd (init (merge args) st))
                      else (readJSONFiles ;; initializeEntities ;;
                            fillEntities ;; gets entities)
                             (snd (init (merge args) st)))
                 <> Throw NullPointer).
  { destruct (isNoSQL db && _); [discriminate |].
    destruct ((readJSONFiles ;; initializeEntities ;; fillEntities ;;
               gets entities) (snd (init (merge args) st)))
      as [[r|e] st1] eqn:Hrest; [discriminate |].
    cbn. intros [= ->].
    eapply after_check_not_NullPointer; [exact Hrest | reflexivity]. }
  split; [split |]; [done | | done].
  intros [? | ?]; discriminate.
Qed.


(** X7.  The module variables that a previous run has left do not reach the
    next one: on the same arguments, the same snapshot directory and the
    same clock, two runs return the same, and end in the same state when
    they get past the check of the arguments. *)
Theorem createEntities_forgets_previous_run (args : Args DB) st1 st2 :
  disk st1 = disk st2 -> clock st1 = clock st2 ->
  clockReads st1 = clockReads st2 ->
  fst (createEntities args st1) = fst (createEntities args st2) /\
  (is_Some (arg_parsedData args) -> is_Some (arg_databaseTypes args) ->
   createEntities args st1 = createEntities args st2).
Proof.
  intros Hd Hc Hn.
  destruct (arg_parsedData args) as [pd|] eqn:Hpd;
    [destruct (arg_databaseTypes args) as [db|] eqn:Hdb |].
  2: rewrite !createEntities_missing by auto;
    split; [done | by intros _ []%is_Some_None].
  2: rewrite !createEntities_missing by auto;
    split; [done | by intros []%is_Some_None].
  assert (Hsame : createEntities args st1 = createEntities args st2).
  { rewrite !(createEntities_run args _ pd db Hpd Hdb).
    assert (H0 : snd (init (merge args) st1) = snd (init (merge args) st2))
      by (cbn; by rewrite Hd, Hc, Hn).
    by rewrite H0. }
  split; [by rewrite Hsame | done].
Qed.
End Stages.

Section Pipeline.
Context {DB G : Type} `{!Externals DB} `{!Tagging G}.

Implicit Types (st : State DB G) (pd : ParsedData).

Local Abbreviation relates := (relates (DB:=DB) (G:=G)).
Local Abbreviation resolutionFrame := (resolutionFrame (DB:=DB) (G:=G)).

Lemma initializeEntity_run st pd c cd i :
  parsedData st = Some pd -> assoc c (classes pd) = Some cd ->
  exists e,
    initializeEntity c i st
    = (Ok tt,
       set_entities (<[c := e]>)
         (if truthy (default JUndefined (onDiskEntities st !! c))
          then st else set_clockReads S st)) /\
    relationships e = [] /\ fields e = [] /\
    changelogDate e
    = (if truthy (default JUndefined (onDiskEntities st !! c))
       then getProp (default JUndefined (onDiskEntities st !! c)) "changelogDate"
       else JStr (dateFormatForLiquibase (clock st (clockReads st)) i)) /\
    optionsFor (settingsOf st) cd e.
Proof.
  intros Hpd Hcd.
  set (st1 := if truthy (default JUndefined (onDiskEntities st !! c))
              then st else set_clockReads S st).
  set (date := if truthy (default JUndefined (onDiskEntities st !! c))
               then getProp (default JUndefined (onDiskEntities st !! c))
                      "changelogDate"
               else JStr (dateFormatForLiquibase (clock st (clockReads st)) i)).
  assert (Hdate : getChangelogDate c i st = (Ok date, st1)).
  { unfold getChangelogDate, newDate, bind, gets, modify, ret, date, st1.
    by destruct (truthy _). }
  assert (Hpd1 : parsedData st1 = Some pd)
    by (unfold st1; by destruct (truthy _)).
  assert (Hs1 : settingsOf st1 = settingsOf st)
    by (unfold st1; by destruct (truthy _)).
  unfold initializeEntity.
  rewrite (bind_run _ _ _ _ _ Hdate),
    (bind_run _ _ _ _ _ (getClass_run _ _ _ _ Hpd1 Hcd)).
  unfold setOptions, bind, gets, modify, ret.
  eexists. split; [reflexivity |].
  unfold optionsFor. rewrite <- Hs1. unfold settingsOf, id.
  repeat case_match; cbn; repeat split; try (simplify_eq/=; done).
Qed.

(** The loop of [initializeEntities], forward: it cannot fail on
    identifiers of classes, and makes one entity for each of them. *)
Lemma initializeEntitiesFrom_run pd l : forall i st,
  parsedData st = Some pd ->
  (forall c, c ∈ l -> is_Some (assoc c (classes pd))) ->
  exists st',
    initializeEntitiesFrom i l st = (Ok tt, st') /\
    parsedData st' = Some pd /\ settingsOf st' = settingsOf st /\
    entitiesToSuppress st' = entitiesToSuppress st /\
    (forall c, c ∉ l -> entities st' !! c = entities st !! c) /\
    (forall c, c ∈ l ->
               exists cd e,
                 assoc c (classes pd) = Some cd /\
                 entities st' !! c = Some e /\
                 relationships e = [] /\ fields e = [] /\
                 optionsFor (settingsOf st) cd e).
Proof.
  induction l as [|c0 l IH]; intros i st Hpd Hl.
  - exists st. split; [done |]. repeat (split; [done |]).
    by intros c ?%elem_of_nil.
  - destruct (Hl c0) as [cd0 Hcd0]; [left |].
    destruct (initializeEntity_run st pd c0 cd0 i Hpd Hcd0)
      as (e0 & Hstep & Hr0 & Hf0 & _ & Ho0).
    set (st1 := set_entities (<[c0 := e0]>)
                  (if truthy (default JUndefined (onDiskEntities st !! c0))
                   then st else set_clockReads S st)) in *.
    assert (Hpd1 : parsedData st1 = Some pd)
      by (unfold st1; by destruct (truthy _)).
    assert (Hs1 : settingsOf st1 = settingsOf st)
      by (unfold st1; by destruct (truthy _)).
    assert (Hm1 : entitiesToSuppress st1 = entitiesToSuppress st)
      by (unfold st1; by destruct (truthy _)).
    assert (He1 : entities st1 = <[c0 := e0]> (entities st))
      by (unfold st1; by destruct (truthy _)).
    destruct (IH (S i) st1 Hpd1) as (st' & Hrun & Hpd' & Hs' & Hm' & Hout & Hin);
      [intros; apply Hl; by right |].
    exists st'. cbn [initializeEntitiesFrom].
    rewrite (bind_run _ _ _ _ _ Hstep). split; [exact Hrun |].
    split; [done |]. split; [congruence |]. split; [congruence |]. split.
    + intros c Hc. rewrite Hout, He1 by (intros ?; apply Hc; by right).
      apply lookup_insert_ne. intros ->. apply Hc. left.
    + intros c Hc. destruct (decide (c ∈ l)) as [Hcl | Hcl].
      * destruct (Hin c Hcl) as (cd & e & ? & ? & ? & ? & Ho).
        exists cd, e. rewrite Hs1 in Ho. done.
      * apply elem_of_cons in Hc as [-> | ?]; [| done].
        exists cd0, e0. rewrite Hout, He1 by done.
        by rewrite lookup_insert_eq.
Qed.

(** ** What the resolution leaves as it is *)

Global Instance resolutionFrame_PreOrder : PreOrder resolutionFrame.
Proof.
  split.
  - intros st. unfold resolutionFrame. auto.
  - intros st1 st2 st3 (H1 & H2 & H3) (H1' & H2' & H3').
    unfold resolutionFrame. repeat split; try congruence;
      intros c; by rewrite H3', H3.
Qed.

Section Fill.
Context (R : relation (State DB G)) `{!PreOrder R}.
Hypothesis R_field : forall c fd st,
  R st (set_entities (alter (set_fields (fun fs => fs ++ [fd])) c) st).
Hypothesis R_push : forall c r st, R st (pushed c r st).
Hypothesis R_assoc : forall aid f st,
  R st (set_parsedData (fmap (set_associations (update aid f))) st).
Hypothesis R_mark : forall f st, R st (set_entitiesToSuppress f st).

Lemma relates_fillEntity c : relates R (fillEntity c).
Proof.
  unfold fillEntity.
  apply relates_bind; [done | by apply relates_getClass | intros ?].
  apply relates_bind; [done | | intros ?].
  - case_match; [by apply relates_modify | by apply relates_ret].
  - apply relates_bind; [done | | intros ?].
    + by apply relates_setFieldsOfEntity.
    + by apply relates_setRelationshipOfEntity.
Qed.

Lemma relates_resolveLoop l : relates R (forEach fillEntity l).
Proof. apply relates_forEach; [done |]. apply relates_fillEntity. Qed.
End Fill.

Lemma resolveLoop_keeps l : relates resolutionFrame (forEach fillEntity l).
Proof.
  apply relates_resolveLoop; [apply _ | | | |].
  - intros c fd st. unfold resolutionFrame. cbn. repeat split.
    intros c0. rewrite lookup_alter. case_decide; [subst |]; [| done].
    by destruct (entities st !! c0).
  - intros c r st. unfold resolutionFrame. cbn. repeat split.
    intros c0. rewrite lookup_alter. case_decide; [subst |]; [| done].
    by destruct (entities st !! c0).
  - intros aid f st. unfold resolutionFrame. cbn. repeat split.
    destruct (parsedData st) as [pd|]; [| done]. cbn. unfold partsOf. cbn.
    do 2 f_equal. clear. induction (associations pd) as [|[k v] l IH]; [done |].
    cbn. destruct (String.eqb aid k); cbn; [done | by rewrite IH].
  - intros f st. unfold resolutionFrame. by cbn.
Qed.

(** ** The stages of a successful run *)

Lemma createEntities_stages_run (args : Args DB) pd st es st' :
  arg_parsedData args = Some pd ->
  createEntities args st = (Ok es, st') ->
  exists st1 st2 st_r,
    (resolveAll args st = (Ok tt, st_r) /\
     suppressEntities st_r = (Ok tt, st') /\ es = entities st') /\
    readJSONFiles (snd (init (merge args) st)) = (Ok tt, st1) /\
    setupFrame pd (disk st) st1 /\
    initializeEntitiesFrom 0 (classes pd).*1 st1 = (Ok tt, st2) /\
    parsedData st2 = Some pd /\
    (forall c, c ∉ (classes pd).*1 -> entities st2 !! c = None) /\
    (forall c, c ∈ (classes pd).*1 ->
               exists cd e,
                 assoc c (classes pd) = Some cd /\
                 entities st2 !! c = Some e /\
                 relationships e = [] /\ fields e = [] /\
                 optionsFor (settingsOf (snd (init (merge args) st))) cd e) /\
    forEach fillEntity (classes pd).*1 st2 = (Ok tt, st_r) /\
    resolutionFrame st2 st_r /\
    parsedData st' = parsedData st_r /\
    forall c, es !! c = if bool_decide (isUserClass pd c) then None
                        else entities st_r !! c.
Proof.
  intros Hpd Hrun.
  destruct (createEntities_resolved args pd st es st' Hpd Hrun)
    as (st2 & st_r & Hall & _ & _ & _ & _ & Hpd' & Hes).
  apply createEntities_ok in Hrun
    as (pd' & db & st1 & st2' & st_r' & Hpd1 & Hdb & Hread & Hinit & Hres
        & Hsup & -> & Hall').
  assert (pd' = pd) as -> by congruence.
  assert (st_r' = st_r) as -> by congruence. clear Hall'.
  set (st0 := snd (init (merge args) st)) in *.
  assert (Hframe0 : setupFrame pd (disk st) st0) by (by repeat split).
  destruct (readJSONFiles_ok _ _ _ _ Hframe0 Hread) as (Hframe1 & Hes1 & _).
  assert (Hs1 : settingsOf st1 = settingsOf st0).
  { clear -Hread. unfold readJSONFiles in Hread.
    apply bind_ok in Hread as (pd' & st1' & H1 & Hread).
    apply theParsedData_ok in H1 as [-> _].
    refine (forEach_invariant (fun s => settingsOf s = settingsOf st0)
              readJSONFile _ _ st0 st1 eq_refl Hread).
    intros y s1 s2 _ Hs (pd1 & cd' & _ & _ & Hst')%readJSONFile_ok.
    destruct (disk s1 !! snapshotFile cd') as [[v|]|]; [| done |]; by subst s2. }
  pose proof Hframe1 as (Hpd1' & _ & _).
  unfold initializeEntities in Hinit.
  rewrite (bind_run _ _ _ _ _ (theParsedData_run _ _ Hpd1')) in Hinit.
  change (map fst (classes pd)) with (classes pd).*1 in Hinit.
  destruct (initializeEntitiesFrom_run pd (classes pd).*1 0 st1 Hpd1')
    as (st2'' & Hinit' & Hpd2 & Hs2 & _ & Hout & Hin);
    [intros c; apply assoc_of_key |].
  assert (st2'' = st2') as -> by congruence. clear Hinit'.
  unfold resolveEntities in Hres.
  rewrite (bind_run _ _ _ _ _ (theParsedData_run _ _ Hpd2)) in Hres.
  change (map fst (classes pd)) with (classes pd).*1 in Hres.
  exists st1, st2', st_r. do 5 (split; [done |]). split; [| split].
  - intros c Hc. rewrite Hout, Hes1 by done. apply lookup_empty.
  - intros c Hc. destruct (Hin c Hc) as (cd & e & ? & ? & ? & ? & Ho).
    exists cd, e. rewrite Hs1 in Ho. done.
  - split; [done |]. split; [| done].
    eapply resolveLoop_keeps, Hres.
Qed.

Lemma createEntities_stages (args : Args DB) pd st es st' :
  arg_parsedData args = Some pd ->
  createEntities args st = (Ok es, st') ->
  exists st1 st2 st_r,
    readJSONFiles (snd (init (merge args) st)) = (Ok tt, st1) /\
    setupFrame pd (disk st) st1 /\
    initializeEntitiesFrom 0 (classes pd).*1 st1 = (Ok tt, st2) /\
    parsedData st2 = Some pd /\
    (forall c, c ∉ (classes pd).*1 -> entities st2 !! c = None) /\
    (forall c, c ∈ (classes pd).*1 ->
               exists cd e,
                 assoc c (classes pd) = Some cd /\
                 entities st2 !! c = Some e /\
                 relationships e = [] /\ fields e = [] /\
                 optionsFor (settingsOf (snd (init (merge args) st))) cd e) /\
    forEach fillEntity (classes pd).*1 st2 = (Ok tt, st_r) /\
    resolutionFrame st2 st_r /\
    parsedData st' = parsedData st_r /\
    forall c, es !! c = if bool_decide (isUserClass pd c) then None
                        else entities st_r !! c.
Proof.
  intros Hpd Hrun.
  destruct (createEntities_stages_run args pd st es st' Hpd Hrun)
    as (st1 & st2 & st_r & _ & H).
  by exists st1, st2, st_r.
Qed.

Lemma entity_returned_iff (args : Args DB) pd st es st' c :
  arg_parsedData args = Some pd ->
  createEntities args st = (Ok es, st') ->
  is_Some (es !! c) <-> c ∈ (classes pd).*1 /\ ~ isUserClass pd c.
Proof.
  intros Hpd Hrun.
  destruct (createEntities_stages args pd st es st' Hpd Hrun)
    as (st1 & st2 & st_r & _ & _ & _ & _ & Hout & Hin & _ & (_ & _ & Hkeep) & _ & Hes).
  rewrite Hes. specialize (Hkeep c).
  assert (Hdom : is_Some (entities st_r !! c) <-> c ∈ (classes pd).*1).
  { destruct (decide (c ∈ (classes pd).*1)) as [Hc | Hc].
    - destruct (Hin c Hc) as (cd & e & _ & He & _). rewrite He in Hkeep.
      destruct (entities st_r !! c); [| done]. split; eauto.
    - rewrite (Hout c Hc) in Hkeep.
      destruct (entities st_r !! c); [done |].
      split; [by intros []%is_Some_None | done]. }
  case_bool_decide as Hu.
  - split; [by intros []%is_Some_None | tauto].
  - rewrite Hdom. tauto.
Qed.

(** X8.  The result has one entity for each class that is not named "User",
    and nothing else. *)
Theorem createEntities_domain (args : Args DB) pd st es st' c :
  arg_parsedData args = Some pd ->
  createEntities args st = (Ok es, st') ->
  is_Some (es !! c) <-> c ∈ (classes pd).*1 /\ ~ isUserClass pd c.
Proof. apply entity_returned_iff. Qed.

(** X9.  The generation options of a returned entity: the collections of the
    arguments go before what the class says, and resolving the fields
    and the relationships changes none of them. *)
Theorem entity_options (args : Args DB) pd st es st' c cd e :
  arg_parsedData args = Some pd ->
  assoc c (classes pd) = Some cd ->
  createEntities args st = (Ok es, st') ->
  es !! c = Some e ->
  dto e = (if contains (default [] (arg_listDTO args)) (class_name cd)
           then JStr "mapstruct" else class_dto cd) /\
  pagination e
  = default (class_pagination cd)
      (default ∅ (arg_listPagination args) !! class_name cd) /\
  service e
  = default (class_service cd)
      (default ∅ (arg_listService args) !! class_name cd) /\
  microserviceName e
  = default (class_microserviceName cd)
      (default ∅ (arg_microserviceNames args) !! class_name cd) /\
  searchEngine e
  = (if contains (default [] (arg_searchEngines args)) (class_name cd)
     then JStr "elasticsearch" else class_searchEngine cd) /\
  javadoc e = formatComment (class_comment cd) /\
  entityTableName e = snakeCase (class_tableName cd).
Proof.
  intros Hpd Hcd Hrun He.
  destruct (createEntities_stages args pd st es st' Hpd Hrun)
    as (st1 & st2 & st_r & _ & _ & _ & _ & _ & Hin & _ & (_ & _ & Hkeep) & _ & Hes).
  rewrite Hes in He. destruct (bool_decide _); [discriminate |].
  destruct (Hin c) as (cd' & e2 & Hcd' & He2 & _ & _ & Ho);
    [by eapply assoc_is_key |].
  assert (cd' = cd) as -> by congruence.
  specialize (Hkeep c). rewrite He, He2 in Hkeep. cbn in Hkeep.
  injection Hkeep as -> -> -> -> -> -> -> _.
  exact Ho.
Qed.

End Pipeline.

Section Fields.
Context {DB G : Type} `{!Externals DB} `{!Tagging G}.

Implicit Types (st : State DB G) (pd : ParsedData).

Local Abbreviation relates := (relates (DB:=DB) (G:=G)).
Local Abbreviation resolutionFrame := (resolutionFrame (DB:=DB) (G:=G)).

(** The state after [entities[classId].fields] has got the records
    [rs]. *)
Local Abbreviation withFields c rs st :=
  (set_entities (alter (set_fields (G:=G) (fun fs => fs ++ rs)) c) st).

Lemma getField_run st pd fid :
  parsedData st = Some pd ->
  getField fid st
  = (match pd_fields pd !! fid with Some f => Ok f | None => Throw TypeError end,
     st).
Proof.
  intros Hpd. unfold getField.
  rewrite (bind_run _ _ _ _ _ (theParsedData_run _ _ Hpd)).
  by destruct (pd_fields pd !! fid).
Qed.

Lemma bind_unfold {A B} (m : M A) (k : A -> M B) st :
  bind m k st
  = match m st with
    | (Ok a, st') => k a st'
    | (Throw e, st') => (Throw e, st')
    end.
Proof. reflexivity. Qed.

Lemma getValidation_run st pd vid :
  parsedData st = Some pd ->
  getValidation vid st
  = (match pd_validations pd !! vid with
     | Some v => Ok v
     | None => Throw TypeError
     end, st).
Proof.
  intros Hpd. unfold getValidation.
  rewrite (bind_run _ _ _ _ _ (theParsedData_run _ _ Hpd)).
  by destruct (pd_validations pd !! vid).
Qed.

Lemma setValidations_run st pd ids : forall field,
  parsedData st = Some pd ->
  setValidations field ids st
  = (match validatedBy (pd_validations pd) field ids with
     | Some r => Ok r
     | None => Throw TypeError
     end, st).
Proof.
  induction ids as [|vid ids IH]; intros field Hpd; [reflexivity |].
  cbn [setValidations validatedBy]. rewrite bind_unfold.
  unfold setValidation. rewrite bind_unfold, (getValidation_run _ _ _ Hpd).
  unfold ruled.
  destruct (pd_validations pd !! vid) as [v|]; [| reflexivity].
  destruct (default JUndefined (assoc "fieldValidateRules" field));
    try reflexivity.
  destruct (negb _); cbn [ret]; by rewrite IH.
Qed.

Lemma setField_run st pd c e fid :
  parsedData st = Some pd -> entities st !! c = Some e ->
  setField c fid st
  = match pd_fields pd !! fid with
    | Some f =>
        match fieldRecord pd (length (fields e) + 1) f with
        | Some r => (Ok tt, withFields c [r] st)
        | None => (Throw TypeError, st)
        end
    | None => (Throw TypeError, st)
    end.
Proof.
  intros Hpd He. unfold setField.
  rewrite (bind_run _ _ _ _ _ (getEntity_run _ _ _ He)).
  rewrite bind_unfold, (getField_run _ _ _ Hpd).
  destruct (pd_fields pd !! fid) as [f|] eqn:Hf; [| reflexivity].
  rewrite (bind_run _ _ _ _ _ (theParsedData_run _ _ Hpd)).
  fold (typedField pd (length (fields e) + 1) f).
  rewrite bind_unfold.
  unfold setValidationsOfField, fieldRecord.
  rewrite bind_unfold, (getField_run _ _ _ Hpd), Hf.
  destruct (length (field_validations f) =? 0)%nat.
  - cbn [ret]. by rewrite (bind_run _ _ _ _ _ (getEntity_run _ _ _ He)).
  - rewrite (setValidations_run _ _ _ _ Hpd).
    destruct (validatedBy _ _ _) as [r|]; [| reflexivity].
    by rewrite (bind_run _ _ _ _ _ (getEntity_run _ _ _ He)).
Qed.

Lemma withFields_nil c st : withFields c [] st = st.
Proof.
  destruct st. unfold set_entities. cbn. f_equal.
  apply map_eq. intros c0. rewrite lookup_alter. case_decide; [subst |]; [| done].
  destruct (_ !! c0) as [e|]; [| done]. cbn. f_equal.
  destruct e. unfold set_fields. cbn. by rewrite app_nil_r.
Qed.

Lemma withFields_app c rs1 rs2 st :
  withFields c rs2 (withFields c rs1 st) = withFields c (rs1 ++ rs2) st.
Proof.
  unfold set_entities. cbn. f_equal.
  apply map_eq. intros c0. rewrite !lookup_alter.
  repeat case_decide; subst; try done.
  destruct (entities st !! c0) as [e|]; [| done]. cbn. f_equal.
  unfold set_fields. cbn. by rewrite app_assoc.
Qed.

Lemma setFieldsLoop_run pd c ids : forall st e,
  parsedData st = Some pd -> entities st !! c = Some e ->
  match fieldRecords pd (length (fields e)) ids with
  | Some rs => forEach (setField c) ids st = (Ok tt, withFields c rs st)
  | None => fst (forEach (setField c) ids st) = Throw TypeError
  end.
Proof.
  induction ids as [|fid ids IH]; intros st e Hpd He.
  - cbn. by rewrite withFields_nil.
  - cbn [fieldRecords forEach].
    rewrite bind_unfold, (setField_run _ _ _ _ _ Hpd He).
    destruct (pd_fields pd !! fid) as [f|]; [| reflexivity].
    destruct (fieldRecord pd (length (fields e) + 1) f) as [r|]; [| reflexivity].
    assert (He1 : entities (withFields c [r] st) !! c
                  = Some (set_fields (fun fs => fs ++ [r]) e))
      by (cbn; by rewrite lookup_alter_eq, He).
    specialize (IH (withFields c [r] st) _ Hpd He1).
    cbn [set_fields fields] in IH.
    rewrite length_app in IH. cbn [length] in IH.
    rewrite Nat.add_1_r in IH.
    destruct (fieldRecords pd (S (length (fields e))) ids) as [rs|]; [| done].
    by rewrite IH, withFields_app.
Qed.

Lemma setFieldsOfEntity_run st pd c cd e :
  parsedData st = Some pd -> assoc c (classes pd) = Some cd ->
  entities st !! c = Some e ->
  match fieldRecords pd (length (fields e)) (class_fields cd) with
  | Some rs => setFieldsOfEntity c st = (Ok tt, withFields c rs st)
  | None => fst (setFieldsOfEntity c st) = Throw TypeError
  end.
Proof.
  intros Hpd Hcd He. unfold setFieldsOfEntity.
  rewrite (bind_run _ _ _ _ _ (getClass_run _ _ _ _ Hpd Hcd)).
  by apply setFieldsLoop_run.
Qed.

(** The records depend on the parsed model through its fields, types,
    enumerations and validations only. *)
Lemma fieldRecords_parts pd pd' n ids :
  partsOf pd' = partsOf pd -> fieldRecords pd' n ids = fieldRecords pd n ids.
Proof.
  intros [= Hc Hf Ht He Hv _]. revert n.
  induction ids as [|fid ids IH]; intros n; [reflexivity |].
  cbn [fieldRecords]. rewrite Hf, IH.
  destruct (pd_fields pd !! fid) as [f|]; [| reflexivity].
  unfold fieldRecord, typedField. by rewrite Ht, He, Hv.
Qed.

Lemma resolutionFrame_field c fd st :
  resolutionFrame st
    (set_entities (alter (set_fields (fun fs => fs ++ [fd])) c) st).
Proof.
  unfold resolutionFrame. cbn. repeat split.
  intros c0. rewrite lookup_alter. case_decide; [subst |]; [| done].
  by destruct (entities st !! c0).
Qed.

Lemma resolutionFrame_push c r st : resolutionFrame st (pushed c r st).
Proof.
  unfold resolutionFrame. cbn. repeat split.
  intros c0. rewrite lookup_alter. case_decide; [subst |]; [| done].
  by destruct (entities st !! c0).
Qed.

Lemma resolutionFrame_assoc aid f st :
  resolutionFrame st
    (set_parsedData (fmap (set_associations (update aid f))) st).
Proof.
  unfold resolutionFrame. cbn. repeat split.
  destruct (parsedData st) as [pd|]; [| done]. cbn. unfold partsOf. cbn.
  do 2 f_equal. clear. induction (associations pd) as [|[k v] l IH]; [done |].
  cbn. destruct (String.eqb aid k); cbn; [done | by rewrite IH].
Qed.

Lemma setRelationshipOfEntity_keeps c :
  relates resolutionFrame (setRelationshipOfEntity c).
Proof.
  apply relates_setRelationshipOfEntity; [apply _ | |].
  - apply resolutionFrame_push.
  - apply resolutionFrame_assoc.
Qed.

(** The first loop of [fillEntities] gives each class it goes through
    the records of its fields, and leaves the fields of the others. *)
Lemma resolveLoop_fields pd l : forall st st',
  NoDup l ->
  partsOf <$> parsedData st = Some (partsOf pd) ->
  forEach fillEntity l st = (Ok tt, st') ->
  forall c e,
    entities st !! c = Some e ->
    exists e',
      entities st' !! c = Some e' /\
      if decide (c ∈ l)
      then exists cd rs,
          assoc c (classes pd) = Some cd /\
          fieldRecords pd (length (fields e)) (class_fields cd) = Some rs /\
          fields e' = fields e ++ rs
      else fields e' = fields e.
Proof.
  induction l as [|c0 l IH]; intros st st' Hnd Hparts Hrun c e He.
  - apply ret_ok in Hrun as [_ ->]. exists e. split; [done |].
    rewrite decide_False; [done | apply not_elem_of_nil].
  - apply NoDup_cons in Hnd as [Hc0 Hnd].
    apply forEach_cons_ok in Hrun as (st1 & Hstep & Hrun).
    apply fillEntity_ok in Hstep as (pd0 & cd0 & st2 & Hpd0 & Hcd0 & Hf & Hr).
    rewrite Hpd0 in Hparts. apply (inj Some) in Hparts.
    assert (Hcs : classes pd0 = classes pd) by (by injection Hparts).
    set (stm := if String.eqb (toLowerCase (class_name cd0)) USER
                then set_entitiesToSuppress (fun l => l ++ [c0]) st else st) in *.
    assert (Hpdm : parsedData stm = Some pd0)
      by (unfold stm; by destruct (String.eqb _ _)).
    assert (Hem : entities stm = entities st)
      by (unfold stm; by destruct (String.eqb _ _)).
    (* the fields of [c] after the field assembler *)
    assert (H2 : parsedData st2 = Some pd0 /\
                 exists e2,
                   entities st2 !! c = Some e2 /\
                   if decide (c = c0)
                   then exists rs,
                       fieldRecords pd (length (fields e)) (class_fields cd0)
                       = Some rs /\
                       fields e2 = fields e ++ rs
                   else fields e2 = fields e).
    { destruct (entities st !! c0) as [e0|] eqn:He0.
      - pose proof (setFieldsOfEntity_run stm pd0 c0 cd0 e0 Hpdm Hcd0) as Hfwd.
        rewrite Hem in Hfwd. specialize (Hfwd He0).
        rewrite (fieldRecords_parts pd pd0) in Hfwd by done.
        destruct (fieldRecords pd (length (fields e0)) (class_fields cd0))
          as [rs|] eqn:Hrs; [| by rewrite Hf in Hfwd].
        rewrite Hf in Hfwd. injection Hfwd as ->. split; [done |].
        cbn. rewrite lookup_alter, Hem. case_decide as Hc.
        + subst c0. rewrite He. assert (e0 = e) as -> by congruence.
          eexists. split; [reflexivity |]. rewrite decide_True by done.
          by exists rs.
        + exists e. split; [done |]. by rewrite decide_False by done.
      - unfold setFieldsOfEntity in Hf.
        rewrite (bind_run _ _ _ _ _ (getClass_run _ _ _ _ Hpdm Hcd0)) in Hf.
        destruct (class_fields cd0) as [|fid fids].
        + apply ret_ok in Hf as [_ ->]. split; [done |].
          exists e. rewrite Hem. split; [done |].
          rewrite decide_False; [done | congruence].
        + cbn [forEach] in Hf. apply bind_ok in Hf as (? & ? & Hf & _).
          unfold setField in Hf. apply bind_ok in Hf as (? & ? & Hf & _).
          apply getEntity_ok in Hf as [_ Hf]. rewrite Hem in Hf. congruence. }
    destruct H2 as (Hpd2 & e2 & He2 & Hfields2).
    pose proof (setRelationshipOfEntity_keeps _ _ _ _ Hr) as (Hparts1 & _ & _).
    pose proof (setRelationshipOfEntity_frame _ _ _ _ Hr) as (_ & _ & Hkeep1).
    specialize (Hkeep1 c). rewrite He2 in Hkeep1.
    destruct (entities st1 !! c) as [e1|] eqn:He1; [| discriminate].
    injection Hkeep1 as Hf1 _.
    assert (Hparts1' : partsOf <$> parsedData st1 = Some (partsOf pd))
      by (rewrite Hparts1, Hpd2; cbn; congruence).
    destruct (IH st1 st' Hnd Hparts1' Hrun c e1 He1) as (e' & He' & Hfields').
    exists e'. split; [done |].
    destruct (decide (c = c0)) as [-> | Hne].
    + rewrite decide_True by left. rewrite decide_False in Hfields' by done.
      destruct Hfields2 as (rs & Hrs & Hfields2).
      exists cd0, rs. rewrite <- Hcs. split; [done |]. split; [done |]. congruence.
    + destruct (decide (c ∈ l)) as [Hcl | Hcl].
      * rewrite decide_True by (by right).
        destruct Hfields' as (cd & rs & ? & Hrs & ?). exists cd, rs.
        split; [done |]. split; congruence.
      * rewrite decide_False by (intros [? | ?]%elem_of_cons; done). congruence.
Qed.

Lemma entity_fieldRecords (args : Args DB) pd st es st' c cd e :
  arg_parsedData args = Some pd ->
  NoDup (classes pd).*1 ->
  assoc c (classes pd) = Some cd ->
  createEntities args st = (Ok es, st') ->
  es !! c = Some e ->
  fieldRecords pd 0 (class_fields cd) = Some (fields e).
Proof.
  intros Hpd Hnd Hcd Hrun He.
  destruct (createEntities_stages args pd st es st' Hpd Hrun)
    as (st1 & st2 & st_r & _ & _ & _ & Hpd2 & _ & Hin & Hres & _ & _ & Hes).
  rewrite Hes in He. destruct (bool_decide _); [discriminate |].
  assert (Hc : c ∈ (classes pd).*1) by (by eapply assoc_is_key).
  destruct (Hin c Hc) as (cd' & e2 & Hcd' & He2 & _ & Hf2 & _).
  assert (Hparts : partsOf <$> parsedData st2 = Some (partsOf pd))
    by (by rewrite Hpd2).
  destruct (resolveLoop_fields pd _ _ _ Hnd Hparts Hres c e2 He2)
    as (e' & He' & Hfields).
  assert (e' = e) as -> by congruence.
  rewrite decide_True in Hfields by done.
  destruct Hfields as (cd'' & rs & Hcd'' & Hrs & Hfields).
  assert (cd'' = cd) as -> by congruence.
  rewrite Hf2 in Hrs, Hfields. cbn in Hrs, Hfields. congruence.
Qed.

(** X11.  The fields of a returned entity are the records of the fields
    of its class, in the order of the class and numbered from 1; resolving
    the relationships, and the fields of the other classes, changes none of
    them. *)
Theorem fields_of_entity (args : Args DB) pd st es st' c cd e :
  arg_parsedData args = Some pd ->
  NoDup (classes pd).*1 ->
  assoc c (classes pd) = Some cd ->
  createEntities args st = (Ok es, st') ->
  es !! c = Some e ->
  fieldRecords pd 0 (class_fields cd) = Some (fields e).
Proof. apply entity_fieldRecords. Qed.

(** ** What a field record holds *)

Lemma assoc_setProp k k' v (l : list (string * JsVal)) :
  assoc k (setProp k' v l) = if String.eqb k k' then Some v else assoc k l.
Proof.
  induction l as [|[k0 w] l IH]; cbn.
  - by destruct (String.eqb k k').
  - destruct (String.eqb_spec k' k0) as [-> | Hne]; cbn.
    + by destruct (String.eqb k k0).
    + rewrite IH. destruct (String.eqb_spec k k0) as [-> | ?]; [| done].
      by rewrite (proj2 (String.eqb_neq k0 k')).
Qed.

Lemma prefix_append p x : String.prefix p (p +:+ x) = true.
Proof.
  induction p as [|a p IH]; [by destruct x |].
  rewrite append_cons. cbn. by rewrite Ascii.eqb_refl || destruct (ascii_dec a a).
Qed.

Lemma prefix_refl p : String.prefix p p = true.
Proof. rewrite <- (append_empty_r p) at 2. apply prefix_append. Qed.

Lemma append_eq_self p x : p +:+ x = p -> x = "".
Proof.
  induction p as [|a p IH]; [done |]. rewrite append_cons. intros [= H]. auto.
Qed.

Lemma append_inj_l p x y : p +:+ x = p +:+ y -> x = y.
Proof.
  induction p as [|a p IH]; [done |]. rewrite !append_cons. intros [= H]. auto.
Qed.

Section Ruled.
Context (k : string).
Hypothesis k_other : String.prefix "fieldValidateRules" k = false.

Lemma ruled_other field v r :
  ruled field v = Some r -> assoc k r = assoc k field.
Proof.
  unfold ruled.
  destruct (default JUndefined (assoc "fieldValidateRules" field)); try done.
  intros [= <-].
  assert (H1 : String.eqb k "fieldValidateRules" = false).
  { apply String.eqb_neq. intros ->. by rewrite prefix_refl in k_other. }
  assert (H2 : forall x, String.eqb k ("fieldValidateRules" +:+ x) = false).
  { intros x. apply String.eqb_neq. intros ->.
    by rewrite prefix_append in k_other. }
  destruct (negb _); rewrite ?assoc_setProp, ?H2, ?H1; done.
Qed.

Lemma validatedBy_other vs ids : forall field r,
  validatedBy vs field ids = Some r -> assoc k r = assoc k field.
Proof.
  induction ids as [|vid ids IH]; intros field r; cbn; [by intros [= <-] |].
  destruct (vs !! vid) as [v|]; [| done].
  destruct (ruled field v) as [field1|] eqn:H1; [| done].
  intros Hr. rewrite (IH _ _ Hr). by eapply ruled_other.
Qed.

Lemma fieldRecord_other pd n f r :
  fieldRecord pd n f = Some r -> assoc k r = assoc k (typedField pd n f).
Proof.
  unfold fieldRecord. destruct (_ =? 0)%nat; [by intros [= <-] |].
  intros Hr. rewrite (validatedBy_other _ _ _ _ Hr), assoc_setProp.
  replace (String.eqb k "fieldValidateRules") with false; [done |].
  symmetry. apply String.eqb_neq. intros ->. by rewrite prefix_refl in k_other.
Qed.
End Ruled.

Lemma typedField_head pd n f :
  assoc "fieldId" (typedField pd n f) = Some (JNum (Z.of_nat n)) /\
  assoc "fieldName" (typedField pd n f) = Some (JStr (camelCase (field_name f))) /\
  assoc "javadoc" (typedField pd n f)
  = Some (ofOption (formatComment (field_comment f))).
Proof.
  unfold typedField. repeat case_match; repeat split; reflexivity.
Qed.

Lemma typedField_type pd n f :
  assoc "fieldType" (typedField pd n f)
  = (fun T => JStr (if blobContent T is Some _ then "byte[]" else T)) <$> declaredType pd f
  /\
  assoc "fieldTypeBlobContent" (typedField pd n f)
  = JStr <$> (declaredType pd f ≫= blobContent).
Proof.
  unfold typedField, declaredType, blobContent.
  destruct (pd_types pd !! field_type f) as [t|];
    [| destruct (pd_enums pd !! field_type f) as [en|]]; cbn.
  - destruct (String.eqb (type_name t) "ImageBlob"); [done |].
    by destruct (String.eqb (type_name t) "Blob" || String.eqb (type_name t) "AnyBlob").
  - destruct (String.eqb (enum_name en) "ImageBlob"); [done |].
    by destruct (String.eqb (enum_name en) "Blob" || String.eqb (enum_name en) "AnyBlob").
  - done.
Qed.

Lemma fieldRecords_lookup pd ids : forall n rs,
  fieldRecords pd n ids = Some rs ->
  length rs = length ids /\
  forall i r,
    rs !! i = Some r ->
    exists fid f,
      ids !! i = Some fid /\ pd_fields pd !! fid = Some f /\
      fieldRecord pd (n + i + 1) f = Some r.
Proof.
  induction ids as [|fid ids IH]; intros n rs; cbn [fieldRecords].
  - intros [= <-]. split; [done |]. intros i r. by rewrite lookup_nil.
  - destruct (pd_fields pd !! fid) as [f|] eqn:Hf; [| done].
    destruct (fieldRecord pd (n + 1) f) as [r0|] eqn:Hr0; [| done].
    destruct (fieldRecords pd (S n) ids) as [rs0|] eqn:Hrs0; [| done].
    intros [= <-]. destruct (IH _ _ Hrs0) as [Hlen Hall].
    split; [cbn; by rewrite Hlen |].
    intros [|i] r; cbn.
    + intros [= <-]. exists fid, f. by rewrite Nat.add_0_r.
    + intros Hi. destruct (Hall i r Hi) as (fid' & f' & ? & ? & Hr).
      exists fid', f'. split; [done |]. split; [done |].
      by replace (n + S i + 1) with (S n + i + 1) by lia.
Qed.

(** The field at position [i] of a returned entity, and the field of the
    class it comes from. *)
Lemma field_of_entity (args : Args DB) pd st es st' c cd e i r :
  arg_parsedData args = Some pd ->
  NoDup (classes pd).*1 ->
  assoc c (classes pd) = Some cd ->
  createEntities args st = (Ok es, st') ->
  es !! c = Some e ->
  fields e !! i = Some r ->
  exists fid f,
    class_fields cd !! i = Some fid /\ pd_fields pd !! fid = Some f /\
    fieldRecord pd (i + 1) f = Some r.
Proof.
  intros Hpd Hnd Hcd Hrun He Hi.
  pose proof (entity_fieldRecords args pd st es st' c cd e Hpd Hnd Hcd Hrun He) as Hrs.
  destruct (fieldRecords_lookup _ _ _ _ Hrs) as [_ Hall].
  exact (Hall i r Hi).
Qed.

(** X12.  The fields of a returned entity are as many as the fields of its
    class; the one at position [i] carries the number [i + 1], the name of
    the field of the class at that position, in camel case, and its
    formatted comment. *)
Theorem fields_numbered_and_named (args : Args DB) pd st es st' c cd e :
  arg_parsedData args = Some pd ->
  NoDup (classes pd).*1 ->
  assoc c (classes pd) = Some cd ->
  createEntities args st = (Ok es, st') ->
  es !! c = Some e ->
  length (fields e) = length (class_fields cd) /\
  forall i r,
    fields e !! i = Some r ->
    exists fid f,
      class_fields cd !! i = Some fid /\ pd_fields pd !! fid = Some f /\
      assoc "fieldId" r = Some (JNum (Z.of_nat (i + 1))) /\
      assoc "fieldName" r = Some (JStr (camelCase (field_name f))) /\
      assoc "javadoc" r = Some (ofOption (formatComment (field_comment f))).
Proof.
  intros Hpd Hnd Hcd Hrun He.
  pose proof (entity_fieldRecords args pd st es st' c cd e Hpd Hnd Hcd Hrun He) as Hrs.
  destruct (fieldRecords_lookup _ _ _ _ Hrs) as [Hlen Hall].
  split; [done |]. intros i r Hi.
  destruct (Hall i r Hi) as (fid & f & Hfid & Hf & Hr).
  exists fid, f. do 2 (split; [done |]).
  destruct (typedField_head pd (i + 1) f) as (H1 & H2 & H3).
  rewrite !(fun k H => fieldRecord_other k H _ _ _ _ Hr) by reflexivity.
  done.
Qed.

(** X13.  The type of a field of a returned entity: the name of the type or
    enumeration it refers to, but [byte[]] for the three binary types,
    whose kind goes to [fieldTypeBlobContent]; so no field has the type
    [ImageBlob], [Blob] or [AnyBlob]. *)
Theorem field_binary_types (args : Args DB) pd st es st' c cd e i r :
  arg_parsedData args = Some pd ->
  NoDup (classes pd).*1 ->
  assoc c (classes pd) = Some cd ->
  createEntities args st = (Ok es, st') ->
  es !! c = Some e ->
  fields e !! i = Some r ->
  exists fid f,
    class_fields cd !! i = Some fid /\ pd_fields pd !! fid = Some f /\
    assoc "fieldType" r
    = (fun T => JStr (if blobContent T is Some _ then "byte[]" else T))
        <$> declaredType pd f /\
    assoc "fieldTypeBlobContent" r = JStr <$> (declaredType pd f ≫= blobContent) /\
    assoc "fieldType" r <> Some (JStr "ImageBlob") /\
    assoc "fieldType" r <> Some (JStr "Blob") /\
    assoc "fieldType" r <> Some (JStr "AnyBlob").
Proof.
  intros Hpd Hnd Hcd Hrun He Hi.
  destruct (field_of_entity args pd st es st' c cd e i r)
    as (fid & f & Hfid & Hf & Hr); try done.
  exists fid, f. do 2 (split; [done |]).
  destruct (typedField_type pd (i + 1) f) as (H1 & H2).
  rewrite !(fun k H => fieldRecord_other k H _ _ _ _ Hr) by reflexivity.
  rewrite H1. split; [done |]. split; [done |].
  destruct (declaredType pd f) as [T|]; cbn; [| done].
  unfold blobContent.
  destruct (String.eqb_spec T "ImageBlob") as [-> | H3]; [done |].
  destruct (String.eqb_spec T "Blob") as [-> | H4]; [done |].
  destruct (String.eqb_spec T "AnyBlob") as [-> | H5]; [done |].
  cbn. repeat split; congruence.
Qed.

(** ** The validations of a field *)

Lemma ruleKey_not_rules v :
  capitalize (validation_name v) <> "" -> ruleKey v <> "fieldValidateRules".
Proof. intros Hne Heq. by apply append_eq_self in Heq. Qed.

Lemma validatedBy_rules vs ids : forall field rules r,
  assoc "fieldValidateRules" field = Some (JArr rules) ->
  (forall vid v, vid ∈ ids -> vs !! vid = Some v ->
                 validation_name v <> "required" ->
                 capitalize (validation_name v) <> "") ->
  validatedBy vs field ids = Some r ->
  exists vl,
    Forall2 (fun vid v => vs !! vid = Some v) ids vl /\
    assoc "fieldValidateRules" r
    = Some (JArr (rules ++ (JStr ∘ validation_name <$> vl))).
Proof.
  induction ids as [|vid ids IH]; intros field rules r Hrules Hcap; cbn.
  - intros [= <-]. exists []. split; [constructor |]. by rewrite app_nil_r.
  - destruct (vs !! vid) as [v|] eqn:Hv; [| done].
    unfold ruled. rewrite Hrules. cbn [default].
    intros Hr.
    apply (IH _ (rules ++ [JStr (validation_name v)])) in Hr as (vl & Hvl & Hr).
    + exists (v :: vl). split; [by constructor |].
      rewrite Hr. cbn. by rewrite <- app_assoc.
    + destruct (String.eqb_spec (validation_name v) "required") as [Hreq | Hreq];
        cbn [negb]; rewrite !assoc_setProp; [done |].
      rewrite (proj2 (String.eqb_neq _ _)); [done |].
      intros Heq. symmetry in Heq. revert Heq. apply ruleKey_not_rules.
      eapply Hcap; [left | done | done].
    + intros vid' v' Hin. apply Hcap. by right.
Qed.

Lemma validatedBy_keeps key vs ids : forall field r,
  key <> "fieldValidateRules" ->
  (forall vid v, vid ∈ ids -> vs !! vid = Some v ->
                 validation_name v <> "required" -> ruleKey v <> key) ->
  validatedBy vs field ids = Some r ->
  assoc key r = assoc key field.
Proof.
  induction ids as [|vid ids IH]; intros field r Hkey Hother; cbn;
    [by intros [= <-] |].
  destruct (vs !! vid) as [v|] eqn:Hv; [| done].
  destruct (ruled field v) as [field1|] eqn:H1; [| done].
  intros Hr.
  assert (Hother1 : forall vid' v', vid' ∈ ids -> vs !! vid' = Some v' ->
                                    validation_name v' <> "required" ->
                                    ruleKey v' <> key)
    by (intros vid' v' Hin; apply Hother; by right).
  rewrite (IH _ _ Hkey Hother1 Hr).
  revert H1. unfold ruled.
  destruct (default JUndefined (assoc "fieldValidateRules" field)); try done.
  intros [= <-].
  assert (Hk : String.eqb key "fieldValidateRules" = false)
    by (by apply String.eqb_neq).
  destruct (String.eqb_spec (validation_name v) "required") as [Hreq | Hreq];
    cbn [negb]; rewrite !assoc_setProp, ?Hk; [done |].
  rewrite (proj2 (String.eqb_neq _ _)); [done |].
  intros Heq. symmetry in Heq. revert Heq. fold (ruleKey v).
  eapply Hother; [left | done | done].
Qed.

Lemma validatedBy_app vs ids1 ids2 : forall field,
  validatedBy vs field (ids1 ++ ids2)
  = validatedBy vs field ids1 ≫= fun field1 => validatedBy vs field1 ids2.
Proof.
  induction ids1 as [|vid ids1 IH]; intros field; [reflexivity |].
  cbn [validatedBy app]. destruct (vs !! vid) as [v|]; [| reflexivity].
  destruct (ruled field v); [apply IH | reflexivity].
Qed.

Lemma validatedBy_value vs ids1 vid ids2 v field r :
  validatedBy vs field (ids1 ++ vid :: ids2) = Some r ->
  vs !! vid = Some v ->
  validation_name v <> "required" ->
  capitalize (validation_name v) <> "" ->
  (forall vid' v', vid' ∈ ids2 -> vs !! vid' = Some v' ->
                   validation_name v' <> "required" ->
                   ruleKey v' <> ruleKey v) ->
  assoc (ruleKey v) r = Some (validation_value v).
Proof.
  intros Hr Hv Hreq Hcap Hlater. rewrite validatedBy_app in Hr.
  destruct (validatedBy vs field ids1) as [field1|]; [| done].
  cbn in Hr. rewrite Hv in Hr.
  destruct (ruled field1 v) as [field2|] eqn:H2; [| done].
  rewrite (validatedBy_keeps (ruleKey v) vs ids2 field2 r);
    [| by apply ruleKey_not_rules | done | done].
  revert H2. unfold ruled.
  destruct (default JUndefined (assoc "fieldValidateRules" field1)); try done.
  intros [= <-]. rewrite (proj2 (String.eqb_neq _ _)) by done. cbn [negb].
  rewrite assoc_setProp. fold (ruleKey v). by rewrite String.eqb_refl.
Qed.

Lemma typedField_no_rules pd n f :
  assoc "fieldValidateRules" (typedField pd n f) = None.
Proof. unfold typedField. repeat case_match; reflexivity. Qed.

(** X14.  The validations of a field of a returned entity, when no
    validation but [required] has a name that capitalizes to nothing:
    without validation the record has no [fieldValidateRules]; otherwise
    that array lists the names of the validations in their order; and the
    value of a validation other than [required] is under its own key,
    unless a later validation of the field writes the same key. *)
Theorem field_validation_rules (args : Args DB) pd st es st' c cd e i fid f r :
  arg_parsedData args = Some pd ->
  NoDup (classes pd).*1 ->
  assoc c (classes pd) = Some cd ->
  createEntities args st = (Ok es, st') ->
  es !! c = Some e ->
  fields e !! i = Some r ->
  class_fields cd !! i = Some fid ->
  pd_fields pd !! fid = Some f ->
  (forall vid v, vid ∈ field_validations f -> pd_validations pd !! vid = Some v ->
                 validation_name v <> "required" ->
                 capitalize (validation_name v) <> "") ->
  exists vl,
    Forall2 (fun vid v => pd_validations pd !! vid = Some v)
      (field_validations f) vl /\
    assoc "fieldValidateRules" r
    = (if decide (vl = []) then None
       else Some (JArr (JStr ∘ validation_name <$> vl))) /\
    forall ids1 vid ids2 v,
      field_validations f = ids1 ++ vid :: ids2 ->
      pd_validations pd !! vid = Some v ->
      validation_name v <> "required" ->
      (forall vid' v', vid' ∈ ids2 -> pd_validations pd !! vid' = Some v' ->
                       validation_name v' <> "required" ->
                       ruleKey v' <> ruleKey v) ->
      assoc (ruleKey v) r = Some (validation_value v).
Proof.
  intros Hpd Hnd Hcd Hrun He Hi Hfid Hf Hcap.
  destruct (field_of_entity args pd st es st' c cd e i r)
    as (fid' & f' & Hfid' & Hf' & Hr); try done.
  assert (fid' = fid) as -> by congruence.
  assert (f' = f) as -> by congruence.
  unfold fieldRecord in Hr.
  destruct (field_validations f) as [|vid0 ids0] eqn:Hids; cbn [length Nat.eqb] in Hr.
  - injection Hr as <-. exists []. split; [constructor |].
    split; [apply typedField_no_rules |].
    intros ids1 vid ids2 v Heq. by destruct ids1.
  - eapply validatedBy_rules in Hr as Hrules;
      [| by rewrite assoc_setProp | done].
    destruct Hrules as (vl & Hvl & Hrules). exists vl. split; [done |].
    split.
    + rewrite Hrules. inversion Hvl; subst. by rewrite decide_False.
    + intros ids1 vid ids2 v Heq Hv Hreq Hlater. rewrite Heq in Hr.
      eapply validatedBy_value; [exact Hr | done | done | | done].
      eapply Hcap; [| done | done]. rewrite Heq, elem_of_app. right. left.
Qed.
End Fields.

Section Evolution.
Context {DB G : Type} `{!Externals DB} `{!Tagging G}.

Implicit Types (st : State DB G) (pd : ParsedData).

Lemma evolved_refl a : evolved a a.
Proof. by left. Qed.

Lemma evolved_from a a' : evolved a a' -> assoc_from a' = assoc_from a.
Proof. by intros [-> | [_ ->]]. Qed.

Lemma evolved_to a a' : evolved a a' -> assoc_to a' = assoc_to a.
Proof. by intros [-> | [_ ->]]. Qed.

Lemma evolved_injectedFieldInTo a a' :
  evolved a a' -> injectedFieldInTo a' = injectedFieldInTo a.
Proof. by intros [-> | [_ ->]]. Qed.

Lemma evolved_synthesizes a a' :
  evolved a a' -> synthesizes a' = true -> a' = a.
Proof.
  intros [-> | [_ ->]]; [done |]. unfold synthesizes. cbn.
  by rewrite bool_decide_eq_false_2.
Qed.

Lemma evolved_retype a a' :
  evolved a a' -> synthesizes a' = true ->
  evolved a (set_assoc_type MANY_TO_ONE a').
Proof.
  intros He Hs. rewrite (evolved_synthesizes _ _ He Hs) in Hs |- *.
  right. done.
Qed.

Lemma evolvedList_refl l : evolvedList l l.
Proof. induction l; constructor; [split; [done | apply evolved_refl] | done]. Qed.

Lemma evolvedList_assoc l l' k :
  evolvedList l l' ->
  match assoc k l, assoc k l' with
  | Some a, Some a' => evolved a a'
  | None, None => True
  | _, _ => False
  end.
Proof.
  induction 1 as [|[k0 a0] [k0' a0'] l l' [Hk He] _ IH]; cbn; [done |].
  cbn in Hk, He. subst k0'. by destruct (String.eqb k k0).
Qed.

Lemma evolvedList_update l l' aid a :
  evolvedList l l' -> assoc aid l' = Some a -> synthesizes a = true ->
  evolvedList l (update aid (set_assoc_type MANY_TO_ONE) l').
Proof.
  induction 1 as [|[k0 a0] [k0' a0'] l l' [Hk He] Hrest IH]; cbn; [done |].
  cbn in Hk, He. subst k0'. destruct (String.eqb aid k0).
  - intros [= ->] Hs. constructor; [| done]. split; [done |]. cbn.
    by apply evolved_retype.
  - intros Ha Hs. constructor; [done | by apply IH].
Qed.

Lemma set_associations_same pd :
  set_associations (fun _ => associations pd) pd = pd.
Proof. by destruct pd. Qed.

Lemma relationshipId_fromRecord a fromName toName id (g : G) :
  relationshipId (fromRecord a fromName toName id g) = id.
Proof.
  unfold fromRecord. destruct (assoc_type a); try reflexivity.
  by destruct (present _).
Qed.

Lemma relationshipId_toRecord a fromName id (g : G) :
  relationshipId (toRecord a fromName id g) = id.
Proof. unfold toRecord. by destruct (assoc_type a). Qed.

Lemma numbered_push (rs : list (Relationship G)) r :
  numbered rs -> relationshipId r = length rs + 1 -> numbered (rs ++ [r]).
Proof.
  unfold numbered. intros Hrs Hr.
  rewrite fmap_app, length_app, seq_app, Hrs. cbn. rewrite Hr.
  by rewrite Nat.add_1_r.
Qed.

Section Run.
Variable pd : ParsedData.

Local Abbreviation evolving := (evolving (DB:=DB) (G:=G) pd).

Lemma numbered_pushed st c r e :
  (forall c e, entities st !! c = Some e -> numbered (relationships e)) ->
  entities st !! c = Some e ->
  relationshipId r = length (relationships e) + 1 ->
  forall c' e', entities (pushed c r st) !! c' = Some e' ->
                numbered (relationships e').
Proof.
  intros HJ He Hr c' e'. cbn. rewrite lookup_alter.
  case_decide as Hc; [subst c' |]; [| apply HJ].
  rewrite He. cbn. intros [= <-]. cbn. apply numbered_push; [| done].
  by eapply HJ.
Qed.

Lemma fromStep_evolving c aid st st' :
  evolving st ->
  (forall a, assoc aid (associations pd) = Some a -> assoc_from a = c) ->
  fromStep c aid st = (Ok tt, st') ->
  evolving st'.
Proof.
  intros [(l' & Hpd & Hev) HJ] Hfrom Hstep.
  apply fromStep_ok in Hstep
    as (pd1 & a & fc & tc & e & Hpd1 & Ha & _ & _ & _ & He & Hst').
  rewrite Hpd in Hpd1. injection Hpd1 as <-. cbn in Ha.
  pose proof (evolvedList_assoc _ _ aid Hev) as Ha0. rewrite Ha in Ha0.
  destruct (assoc aid (associations pd)) as [a0|] eqn:Ha0'; [| done].
  cbn zeta in Hst'. destruct (synthesizes a) eqn:Hs.
  - destruct Hst' as (et & Het & ->).
    assert (a = a0) as -> by (by eapply evolved_synthesizes).
    split.
    + exists (update aid (set_assoc_type MANY_TO_ONE) l'). split.
      * cbn. by rewrite Hpd.
      * by eapply evolvedList_update.
    + intros Hfree.
      assert (Hne : assoc_to a0 <> c).
      { rewrite <- (Hfrom a0 eq_refl). intros Heq.
        by eapply Hfree. }
      eapply numbered_pushed.
      * eapply (numbered_pushed (retyped aid st));
          [by apply HJ | exact Het | reflexivity].
      * cbn. rewrite lookup_alter_ne by done. exact He.
      * by rewrite relationshipId_fromRecord.
  - subst st'. split.
    + exists l'. by split.
    + intros Hfree. eapply numbered_pushed; [by apply HJ | exact He |].
      by rewrite relationshipId_fromRecord.
Qed.

Lemma toStep_evolving c aid st st' :
  evolving st ->
  (exists a, assoc aid (associations pd) = Some a /\
             present (injectedFieldInTo a) = true) ->
  toStep c aid st = (Ok tt, st') ->
  evolving st'.
Proof.
  intros [(l' & Hpd & Hev) HJ] (a0 & Ha0 & Hto) Hstep.
  apply toStep_ok in Hstep as (pd1 & a & Hpd1 & Ha & Hst').
  rewrite Hpd in Hpd1. injection Hpd1 as <-. cbn in Ha.
  pose proof (evolvedList_assoc _ _ aid Hev) as He. rewrite Ha, Ha0 in He.
  rewrite (evolved_injectedFieldInTo _ _ He) in Hst'.
  destruct (Hst' Hto) as (fc & e & _ & Hent & ->).
  split.
  - exists l'. by split.
  - intros Hfree. eapply numbered_pushed; [by apply HJ | exact Hent |].
    by rewrite relationshipId_toRecord.
Qed.

Lemma setRelationshipOfEntity_evolving c st st' :
  evolving st -> setRelationshipOfEntity c st = (Ok tt, st') -> evolving st'.
Proof.
  intros Hinv Hrun. pose proof Hinv as [(l' & Hpd & Hev) _].
  unfold setRelationshipOfEntity in Hrun.
  apply bind_ok in Hrun as (pd1 & st0 & H0 & Hrun).
  apply theParsedData_ok in H0 as [-> Hpd1].
  rewrite Hpd in Hpd1. injection Hpd1 as <-. cbn in Hrun.
  apply bind_ok in Hrun as ([F T] & st0 & H0 & Hrun).
  apply defined_ok in H0 as [Hrel ->].
  apply getRelatedAssociations_spec in Hrel as (HF & HT & _).
  apply bind_ok in Hrun as ([] & st1 & Hfrom & Hto). cbn in Hfrom, Hto.
  assert (Hinv1 : evolving st1).
  { eapply (forEach_invariant evolving); [| exact Hinv | exact Hfrom].
    intros aid s1 s2 Hin HI Hstep.
    eapply fromStep_evolving; [exact HI | | exact Hstep].
    intros a0 Ha0. apply HF in Hin as (_ & a & Ha & <-).
    pose proof (evolvedList_assoc _ _ aid Hev) as He. rewrite Ha, Ha0 in He.
    symmetry. by apply evolved_from. }
  eapply (forEach_invariant evolving); [| exact Hinv1 | exact Hto].
  intros aid s1 s2 Hin HI Hstep.
  eapply toStep_evolving; [exact HI | | exact Hstep].
  apply HT in Hin as (_ & a & Ha & _ & Hp).
  pose proof (evolvedList_assoc _ _ aid Hev) as He. rewrite Ha in He.
  destruct (assoc aid (associations pd)) as [a0|]; [| done].
  exists a0. split; [done |]. by rewrite <- (evolved_injectedFieldInTo _ _ He).
Qed.

Lemma fillEntity_evolving c st st' :
  evolving st -> fillEntity c st = (Ok tt, st') -> evolving st'.
Proof.
  intros Hinv Hrun.
  apply fillEntity_ok in Hrun as (pd1 & cd & st2 & _ & _ & Hf & Hr).
  eapply setRelationshipOfEntity_evolving; [| exact Hr].
  apply setFieldsOfEntity_frame in Hf as (Hf1 & _ & Hf3).
  assert (Hm : evolving (if String.eqb (toLowerCase (class_name cd)) USER
                         then set_entitiesToSuppress (fun l => l ++ [c]) st
                         else st)) by (by destruct (String.eqb _ _)).
  destruct Hm as [(l' & Hpd & Hev) HJ]. split.
  - exists l'. split; [congruence | done].
  - intros Hfree c0 e2 He2. specialize (Hf3 c0). rewrite He2 in Hf3.
    destruct (entities _ !! c0) as [e0|] eqn:He0; [| done].
    injection Hf3 as -> _. by eapply HJ.
Qed.

Lemma createEntities_evolving (args : Args DB) st es st' :
  arg_parsedData args = Some pd ->
  createEntities args st = (Ok es, st') ->
  exists st_r,
    evolving st_r /\ parsedData st' = parsedData st_r /\
    forall c e, es !! c = Some e -> entities st_r !! c = Some e.
Proof.
  intros Hpd Hrun.
  destruct (createEntities_stages args pd st es st' Hpd Hrun)
    as (st1 & st2 & st_r & _ & _ & _ & Hpd2 & Hout & Hin & Hres & _ & Hpd' & Hes).
  exists st_r. split; [| split; [done |]].
  - eapply (forEach_invariant evolving); [| | exact Hres].
    + intros c s1 s2 _. apply fillEntity_evolving.
    + split.
      * exists (associations pd). rewrite set_associations_same.
        split; [done | apply evolvedList_refl].
      * intros _ c e He.
        destruct (decide (c ∈ (classes pd).*1)) as [Hc | Hc].
        -- destruct (Hin c Hc) as (cd & e' & _ & He' & Hr & _).
           assert (e' = e) as -> by congruence. by rewrite Hr.
        -- by rewrite (Hout c Hc) in He.
  - intros c e. rewrite Hes. by destruct (bool_decide _).
Qed.
End Run.

(** X15.  A run leaves the caller's model as it was but for the types of
    associations: the classes, fields, types and enumerations are the
    same, the associations are the same identifiers in the same order with
    the same ends and injected fields (the assignment of line 364 changes
    nothing), and a type either stays or goes from ONE_TO_MANY without
    [injectedFieldInTo] to MANY_TO_ONE. *)
Theorem createEntities_keeps_model (args : Args DB) pd st es st' :
  arg_parsedData args = Some pd ->
  createEntities args st = (Ok es, st') ->
  exists pd',
    parsedData st' = Some pd' /\
    classes pd' = classes pd /\ pd_fields pd' = pd_fields pd /\
    pd_types pd' = pd_types pd /\ pd_enums pd' = pd_enums pd /\
    Forall2 (fun p p' =>
               p'.1 = p.1 /\
               (p'.2 = p.2 \/
                assoc_type p.2 = ONE_TO_MANY /\
                present (injectedFieldInTo p.2) = false /\
                p'.2 = set_assoc_type MANY_TO_ONE p.2))
      (associations pd) (associations pd').
Proof.
  intros Hpd Hrun.
  destruct (createEntities_evolving pd args st es st' Hpd Hrun)
    as (st_r & [(l' & Hpd_r & Hev) _] & Hpd' & _).
  eexists. split; [by rewrite Hpd', Hpd_r |]. cbn. do 4 (split; [done |]).
  eapply Forall2_impl; [exact Hev |].
  intros p p' [Hk [He | [Hs He]]]; (split; [done |]); [by left | right].
  unfold synthesizes in Hs. apply andb_prop in Hs as [Ht Hp].
  apply bool_decide_eq_true in Ht. apply negb_true_iff in Hp. done.
Qed.

(** X16.  In every returned entity the records are numbered 1, 2, ... in their
    order, when no ONE_TO_MANY association without [injectedFieldInTo]
    loops on one class. *)
Theorem relationshipIds_consecutive (args : Args DB) pd st es st' c e :
  arg_parsedData args = Some pd ->
  selfFree pd ->
  createEntities args st = (Ok es, st') ->
  es !! c = Some e ->
  relationshipId <$> relationships e = seq 1 (length (relationships e)).
Proof.
  intros Hpd Hfree Hrun He.
  destruct (createEntities_evolving pd args st es st' Hpd Hrun)
    as (st_r & [_ HJ] & _ & Hes).
  eapply HJ; [done | by apply Hes].
Qed.
End Evolution.

Section Admission.
Context {DB G : Type} `{!Externals DB} `{!Tagging G}.

Implicit Types (st : State DB G) (pd : ParsedData).

Lemma assoc_update_ne {A} k k' (f : A -> A) (l : list (string * A)) :
  k' <> k -> assoc k' (update k f l) = assoc k' l.
Proof.
  intros Hne. induction l as [|[k0 v] l IH]; cbn; [done |].
  destruct (String.eqb_spec k k0) as [-> | ?]; cbn.
  - by rewrite (proj2 (String.eqb_neq k' k0)).
  - by rewrite IH.
Qed.

Lemma evolvedList_keys l l' : evolvedList l l' -> l'.*1 = l.*1.
Proof. induction 1 as [|p p' l l' [Hk _] _ IH]; cbn; congruence. Qed.

Section Run.
Variable pd : ParsedData.
Hypothesis Hwf : wellFormed pd.

Local Abbreviation tracking := (tracking (DB:=DB) (G:=G) pd).

Lemma tracking_ext (T T' : string -> Prop) st :
  (forall aid, T aid <-> T' aid) -> tracking T st -> tracking T' st.
Proof.
  intros HT [(l' & Hpd & Hev & Hun) Hadm]. split.
  - exists l'. do 2 (split; [done |]). intros aid Hn. apply Hun. by rewrite HT.
  - intros aid a Ha. apply Hadm. by rewrite HT.
Qed.

Lemma fromStep_tracking T c aid st st' :
  tracking T st -> ~ T aid ->
  fromStep c aid st = (Ok tt, st') ->
  tracking (fun x => T x \/ x = aid) st'.
Proof.
  intros [(l' & Hpd & Hev & Hun) Hadm] Hnew Hstep.
  apply fromStep_ok in Hstep
    as (pd1 & a & fc & tc & e & Hpd1 & Ha & Hfc & Htc & Hok & He & Hst').
  rewrite Hpd in Hpd1. injection Hpd1 as <-. cbn in Ha, Hfc, Htc.
  rewrite (Hun aid Hnew) in Ha.
  split.
  - cbn zeta in Hst'. destruct (synthesizes a) eqn:Hs.
    + destruct Hst' as (et & _ & ->).
      exists (update aid (set_assoc_type MANY_TO_ONE) l'). split; [| split].
      * cbn. by rewrite Hpd.
      * eapply evolvedList_update; [done | | done]. by rewrite (Hun aid Hnew).
      * intros aid' Hn. rewrite assoc_update_ne by (intros ->; apply Hn; by right).
        apply Hun. intros ?. apply Hn. by left.
    + subst st'. exists l'. do 2 (split; [done |]).
      intros aid' Hn. apply Hun. intros ?. apply Hn. by left.
  - intros aid' a' [HT | ->] Ha'; [by eapply Hadm |].
    assert (a' = a) as -> by congruence. by exists fc, tc.
Qed.

Lemma toStep_model c aid st st' l' :
  parsedData st = Some (set_associations (fun _ => l') pd) ->
  evolvedList (associations pd) l' ->
  (exists a, assoc aid (associations pd) = Some a /\
             present (injectedFieldInTo a) = true) ->
  toStep c aid st = (Ok tt, st') ->
  parsedData st' = parsedData st /\
  forall c', is_Some (entities st' !! c') <-> is_Some (entities st !! c').
Proof.
  intros Hpd Hev (a0 & Ha0 & Hto) Hstep.
  apply toStep_ok in Hstep as (pd1 & a & Hpd1 & Ha & Hst').
  rewrite Hpd in Hpd1. injection Hpd1 as <-. cbn in Ha.
  pose proof (evolvedList_assoc _ _ aid Hev) as He. rewrite Ha, Ha0 in He.
  rewrite (evolved_injectedFieldInTo _ _ He) in Hst'.
  destruct (Hst' Hto) as (fc & e & _ & Hent & ->). split; [done |].
  intros c'. cbn. rewrite lookup_alter. case_decide; [subst |]; [| done].
  rewrite Hent. cbn. split; eauto.
Qed.

Lemma toStep_tracking T c aid st st' :
  tracking T st ->
  (exists a, assoc aid (associations pd) = Some a /\
             present (injectedFieldInTo a) = true) ->
  toStep c aid st = (Ok tt, st') ->
  tracking T st'.
Proof.
  intros [(l' & Hpd & Hev & Hun) Hadm] Hto Hstep.
  destruct (toStep_model _ _ _ _ _ Hpd Hev Hto Hstep) as [Hsame _].
  split; [| done]. exists l'. split; [congruence | done].
Qed.

Lemma fromLoop_tracking c F : forall T st st',
  NoDup F -> (forall aid, aid ∈ F -> ~ T aid) ->
  tracking T st ->
  forEach (fromStep c) F st = (Ok tt, st') ->
  tracking (fun x => T x \/ x ∈ F) st'.
Proof.
  induction F as [|aid F IH]; intros T st st' Hnd Hnew Hinv Hrun.
  - apply ret_ok in Hrun as [_ ->]. eapply tracking_ext; [| exact Hinv].
    intros x. split; [auto |]. by intros [? | ?%elem_of_nil].
  - apply NoDup_cons in Hnd as [Haid Hnd].
    apply forEach_cons_ok in Hrun as (st1 & Hstep & Hrun).
    eapply fromStep_tracking in Hstep; [| exact Hinv | apply Hnew; left].
    eapply IH in Hrun; [| exact Hnd | | exact Hstep].
    + eapply tracking_ext; [| exact Hrun]. intros x. rewrite elem_of_cons. tauto.
    + intros x Hx [HT | ->]; [| done]. eapply Hnew; [by right | done].
Qed.

(** The identifiers that [getRelatedAssociations] returns, in terms of
    the model as the caller passed it. *)
Lemma related_original l' c F R :
  evolvedList (associations pd) l' ->
  getRelatedAssociations c l'.*1 l' = Some (F, R) ->
  NoDup F /\
  (forall aid, aid ∈ F <->
               exists a, assoc aid (associations pd) = Some a /\
                         assoc_from a = c) /\
  (forall aid, aid ∈ R ->
               exists a, assoc aid (associations pd) = Some a /\
                         present (injectedFieldInTo a) = true).
Proof.
  intros Hev Hrel. pose proof (evolvedList_keys _ _ Hev) as Hkeys.
  apply getRelatedAssociations_spec in Hrel as (HF & HR & Hnd).
  destruct Hwf as [_ Hnd0]. change (NoDup (associations pd).*1) in Hnd0.
  rewrite <- Hkeys in Hnd0. split; [by apply Hnd |]. split.
  - intros aid. rewrite HF.
    pose proof (evolvedList_assoc _ _ aid Hev) as He. split.
    + intros (_ & a & Ha & Hc). rewrite Ha in He.
      destruct (assoc aid (associations pd)) as [a0|]; [| done].
      exists a0. split; [done |]. by rewrite <- (evolved_from _ _ He).
    + intros (a0 & Ha0 & Hc). rewrite Ha0 in He.
      destruct (assoc aid l') as [a|] eqn:Ha; [| done].
      split; [by eapply assoc_is_key |].
      exists a. split; [done |]. by rewrite (evolved_from _ _ He).
  - intros aid (_ & a & Ha & _ & Hp)%HR.
    pose proof (evolvedList_assoc _ _ aid Hev) as He. rewrite Ha in He.
    destruct (assoc aid (associations pd)) as [a0|]; [| done].
    exists a0. split; [done |]. by rewrite <- (evolved_injectedFieldInTo _ _ He).
Qed.

Lemma setRelationshipOfEntity_tracking T c st st' :
  tracking T st ->
  (forall aid, leaving pd [c] aid -> ~ T aid) ->
  setRelationshipOfEntity c st = (Ok tt, st') ->
  tracking (fun x => T x \/ leaving pd [c] x) st'.
Proof.
  intros Hinv Hnew Hrun. pose proof Hinv as [(l' & Hpd & Hev & _) _].
  unfold setRelationshipOfEntity in Hrun.
  apply bind_ok in Hrun as (pd1 & st0 & H0 & Hrun).
  apply theParsedData_ok in H0 as [-> Hpd1].
  rewrite Hpd in Hpd1. injection Hpd1 as <-. cbn in Hrun.
  apply bind_ok in Hrun as ([F R] & st0 & H0 & Hrun).
  apply defined_ok in H0 as [Hrel ->].
  change (map fst l') with l'.*1 in Hrel.
  destruct (related_original _ _ _ _ Hev Hrel) as (HndF & HF & HR).
  apply bind_ok in Hrun as ([] & st1 & Hfrom & Hto). cbn in Hfrom, Hto.
  assert (Hleave : forall x, x ∈ F <-> leaving pd [c] x).
  { intros x. rewrite HF. unfold leaving.
    by setoid_rewrite list_elem_of_singleton. }
  eapply fromLoop_tracking in Hfrom; [| done | | exact Hinv].
  2:{ intros aid Hin. apply Hnew. by apply Hleave. }
  eapply (tracking_ext (fun x => T x \/ x ∈ F));
    [intros x; by rewrite Hleave |].
  eapply (forEach_invariant (tracking (fun x => T x \/ x ∈ F)));
    [| exact Hfrom | exact Hto].
  intros aid s1 s2 Hin HI Hstep.
  eapply toStep_tracking; [exact HI | by apply HR | exact Hstep].
Qed.

Lemma fillEntity_tracking T c st st' :
  tracking T st ->
  (forall aid, leaving pd [c] aid -> ~ T aid) ->
  fillEntity c st = (Ok tt, st') ->
  tracking (fun x => T x \/ leaving pd [c] x) st'.
Proof.
  intros Hinv Hnew Hrun.
  apply fillEntity_ok in Hrun as (pd1 & cd & st2 & _ & _ & Hf & Hr).
  eapply setRelationshipOfEntity_tracking; [| exact Hnew | exact Hr].
  apply setFieldsOfEntity_frame in Hf as (Hf1 & _ & _).
  destruct Hinv as [(l' & Hpd & Hev & Hun) Hadm]. split; [| done].
  exists l'. split; [| done]. rewrite Hf1. by destruct (String.eqb _ _).
Qed.

Lemma resolveLoop_tracking l : forall done st st',
  NoDup l -> (forall c, c ∈ l -> c ∉ done) ->
  tracking (leaving pd done) st ->
  forEach fillEntity l st = (Ok tt, st') ->
  tracking (leaving pd (done ++ l)) st'.
Proof.
  induction l as [|c l IH]; intros done st st' Hnd Hnew Hinv Hrun.
  - apply ret_ok in Hrun as [_ ->]. by rewrite app_nil_r.
  - apply NoDup_cons in Hnd as [Hc Hnd].
    apply forEach_cons_ok in Hrun as (st1 & Hstep & Hrun).
    eapply fillEntity_tracking in Hstep; [| exact Hinv |].
    2:{ intros aid (a & Ha & Hac%list_elem_of_singleton) (a' & Ha' & Hin).
        assert (a' = a) as -> by congruence. rewrite Hac in Hin.
        eapply Hnew; [left | done]. }
    eapply (tracking_ext _ (leaving pd (done ++ [c]))) in Hstep.
    2:{ intros x. unfold leaving. setoid_rewrite elem_of_app. split.
        - intros [(a & ? & ?) | (a & ? & ?)]; eauto.
        - intros (a & ? & [? | ?]); eauto. }
    eapply IH in Hrun; [| exact Hnd | | exact Hstep].
    + by rewrite <- app_assoc in Hrun.
    + intros c' Hc' [Hin | Heq%list_elem_of_singleton]%elem_of_app;
        [| by subst c'].
      eapply Hnew; [by right | done].
Qed.

Lemma tracking_initial st :
  parsedData st = Some pd -> tracking (leaving pd []) st.
Proof.
  intros Hpd. split.
  - exists (associations pd). rewrite set_associations_same.
    split; [done |]. split; [apply evolvedList_refl | done].
  - by intros aid a (a' & _ & ?%elem_of_nil).
Qed.
End Run.

(** X17.  In a run that succeeds on a well-formed model, every association
    whose source is a class has its target among the classes too, and
    has passed [checkValidityOfAssociation] as the caller passed it, with
    the names of its two classes. *)
Theorem associations_admitted (args : Args DB) pd st es st' aid a :
  arg_parsedData args = Some pd ->
  wellFormed pd ->
  createEntities args st = (Ok es, st') ->
  assoc aid (associations pd) = Some a ->
  assoc_from a ∈ (classes pd).*1 ->
  exists fc tc,
    assoc (assoc_from a) (classes pd) = Some fc /\
    assoc (assoc_to a) (classes pd) = Some tc /\
    checkValidityOfAssociation a (class_name fc) (class_name tc) = true.
Proof.
  intros Hpd Hwf Hrun Ha Hfrom.
  destruct (createEntities_stages args pd st es st' Hpd Hrun)
    as (st1 & st2 & st_r & _ & _ & _ & Hpd2 & _ & _ & Hres & _).
  pose proof Hwf as [Hnd _]. change (NoDup (classes pd).*1) in Hnd.
  eapply (resolveLoop_tracking pd Hwf _ []) in Hres as [_ Hadm];
    [| done | by intros c _ ?%elem_of_nil | by apply tracking_initial].
  eapply Hadm; [| done]. by exists a.
Qed.
End Admission.

Section Progress.
Context {DB G : Type} `{!Externals DB} `{!Tagging G}.

Implicit Types (st : State DB G) (pd : ParsedData).

(** ** Running the resolver forward *)

Lemma getAssociation_run st pd aid a :
  parsedData st = Some pd -> assoc aid (associations pd) = Some a ->
  getAssociation aid st = (Ok a, st).
Proof.
  intros Hpd Ha. unfold getAssociation.
  rewrite (bind_run _ _ _ _ _ (theParsedData_run _ _ Hpd)). by rewrite Ha.
Qed.

Lemma pushRelationship_run st c r (e : Entity G) :
  entities st !! c = Some e ->
  pushRelationship c r st = (Ok tt, pushed c r st).
Proof.
  intros He. unfold pushRelationship.
  by rewrite (bind_run _ _ _ _ _ (getEntity_run _ _ _ He)).
Qed.

Lemma pushed_domain st c (r : Relationship G) c' :
  is_Some (entities (pushed c r st) !! c') <-> is_Some (entities st !! c').
Proof.
  cbn. rewrite lookup_alter. case_decide; [subst |]; [| done].
  destruct (entities st !! c'); cbn; [| done]. split; eauto.
Qed.

Lemma pushRelationship_go st c r :
  is_Some (entities st !! c) ->
  exists st',
    pushRelationship c r st = (Ok tt, st') /\
    parsedData st' = parsedData st /\
    forall c', is_Some (entities st' !! c') <-> is_Some (entities st !! c').
Proof.
  intros [e He]. exists (pushed c r st).
  split; [by eapply pushRelationship_run |]. split; [done |].
  apply pushed_domain.
Qed.

Lemma fromStep_go st pd c aid a fc tc :
  parsedData st = Some pd -> assoc aid (associations pd) = Some a ->
  assoc (assoc_from a) (classes pd) = Some fc ->
  assoc (assoc_to a) (classes pd) = Some tc ->
  checkValidityOfAssociation a (class_name fc) (class_name tc) = true ->
  is_Some (entities st !! c) -> is_Some (entities st !! assoc_to a) ->
  exists st',
    fromStep c aid st = (Ok tt, st') /\
    forall c', is_Some (entities st' !! c') <-> is_Some (entities st !! c').
Proof.
  intros Hpd Ha Hfc Htc Hok [e He] [et Het]. unfold fromStep.
  rewrite (bind_run _ _ _ _ _ (getAssociation_run _ _ _ _ Hpd Ha)),
    (bind_run _ _ _ _ _ (getClass_run _ _ _ _ Hpd Hfc)),
    (bind_run _ _ _ _ _ (getClass_run _ _ _ _ Hpd Htc)), Hok.
  cbn [negb]. rewrite (bind_run _ _ _ _ _ (getEntity_run _ _ _ He)).
  assert (Hpush : forall r,
             exists st',
               pushRelationship c r st = (Ok tt, st') /\
               forall c', is_Some (entities st' !! c')
                          <-> is_Some (entities st !! c')).
  { intros r. destruct (pushRelationship_go st c r) as (st' & ? & _ & ?); eauto. }
  destruct (assoc_type a); try apply Hpush.
  - destruct (present (injectedFieldInTo a)); cbn [negb]; [apply Hpush |].
    rewrite (bind_run _ _ _ _ _ (getEntity_run _ _ _ Het)).
    assert (Hmod : modifyAssociation aid (set_assoc_type MANY_TO_ONE) st
                   = (Ok tt, retyped aid st)) by reflexivity.
    rewrite (bind_run _ _ _ _ _ Hmod).
    destruct (pushRelationship_go (retyped aid st) (assoc_to a)
                (mkRelationship (length (relationships et) + 1) MANY_TO_ONE
                   (Some (camelCase (lowerFirst (class_name fc))))
                   (Some (lowerFirst (camelCase (class_name fc))))
                   (Some (lowerFirst
                            (sf_otherEntityField
                               (extractField (injectedFieldInTo a)))))
                   None None (tag aid Synthesized)))
      as (st1 & Hrun1 & _ & Hdom1); [by exists et |].
    rewrite (bind_run _ _ _ _ _ Hrun1).
    match goal with
    | |- exists st', pushRelationship c ?r st1 = _ /\ _ =>
        destruct (pushRelationship_go st1 c r) as (st2 & Hrun2 & _ & Hdom2)
    end.
    { apply Hdom1. cbn. by exists e. }
    exists st2. split; [done |]. intros c'. by rewrite Hdom2, Hdom1.
  - destruct (present (injectedFieldInFrom a)); apply Hpush.
Qed.

Lemma toStep_go st pd c aid a fc :
  parsedData st = Some pd -> assoc aid (associations pd) = Some a ->
  assoc (assoc_from a) (classes pd) = Some fc ->
  is_Some (entities st !! c) ->
  exists st', toStep c aid st = (Ok tt, st').
Proof.
  intros Hpd Ha Hfc [e He]. unfold toStep.
  rewrite (bind_run _ _ _ _ _ (getAssociation_run _ _ _ _ Hpd Ha)),
    (bind_run _ _ _ _ _ (getEntity_run _ _ _ He)).
  assert (Hpush : forall r, exists st', pushRelationship c r st = (Ok tt, st')).
  { intros r. destruct (pushRelationship_go st c r) as (st' & ? & _); eauto. }
  destruct (assoc_type a).
  - rewrite (bind_run _ _ _ _ _ (getClass_run _ _ _ _ Hpd Hfc)). apply Hpush.
  - match goal with
    | |- exists st', bind (modifyAssociation aid ?f) _ st = _ =>
        set (stm := set_parsedData (fmap (set_associations (update aid f))) st);
        assert (Hmod : modifyAssociation aid f st = (Ok tt, stm)) by reflexivity
    end.
    rewrite (bind_run _ _ _ _ _ Hmod).
    assert (Hpdm : parsedData stm
                   = Some (set_associations
                             (update aid
                                (set_injectedFieldInTo
                                   (Some (optOrElse (injectedFieldInTo a)
                                            (lowerFirst (assoc_from a))))))
                             pd))
      by (unfold stm; cbn; by rewrite Hpd).
    rewrite (bind_run _ _ _ _ _ (getClass_run stm _ _ _ Hpdm Hfc)).
    match goal with
    | |- exists st', pushRelationship c ?r stm = _ =>
        destruct (pushRelationship_go stm c r) as (st' & ? & _); eauto
    end.
  - destruct (present (injectedFieldInTo a)); [| apply Hpush].
    rewrite (bind_run _ _ _ _ _ (getClass_run _ _ _ _ Hpd Hfc)). apply Hpush.
  - rewrite (bind_run _ _ _ _ _ (getClass_run _ _ _ _ Hpd Hfc)). apply Hpush.
Qed.

(** ** The records of the fields are there *)

Lemma validatedBy_some vs ids : forall field rules,
  assoc "fieldValidateRules" field = Some (JArr rules) ->
  (forall vid, vid ∈ ids ->
               exists v, vs !! vid = Some v /\
                         (validation_name v = "required" \/
                          capitalize (validation_name v) <> "")) ->
  is_Some (validatedBy vs field ids).
Proof.
  induction ids as [|vid ids IH]; intros field rules Hrules Hall; cbn; [eauto |].
  destruct (Hall vid) as (v & Hv & Hcap); [left |]. rewrite Hv.
  unfold ruled. rewrite Hrules. cbn [default].
  eapply (IH _ (rules ++ [JStr (validation_name v)])).
  - destruct (String.eqb_spec (validation_name v) "required") as [Hreq | Hreq];
      cbn [negb]; rewrite !assoc_setProp; [done |].
    rewrite (proj2 (String.eqb_neq _ _)); [done |].
    intros Heq. symmetry in Heq. revert Heq. apply ruleKey_not_rules.
    by destruct Hcap.
  - intros vid' Hin. apply Hall. by right.
Qed.

Lemma fieldRecords_some pd ids :
  (forall fid, fid ∈ ids ->
               exists f,
                 pd_fields pd !! fid = Some f /\
                 forall vid, vid ∈ field_validations f ->
                             exists v,
                               pd_validations pd !! vid = Some v /\
                               (validation_name v = "required" \/
                                capitalize (validation_name v) <> "")) ->
  forall n, is_Some (fieldRecords pd n ids).
Proof.
  induction ids as [|fid ids IH]; intros Hall n; cbn [fieldRecords]; [eauto |].
  destruct (Hall fid) as (f & Hf & Hv); [left |]. rewrite Hf.
  assert (Hr : is_Some (fieldRecord pd (n + 1) f)).
  { unfold fieldRecord. destruct (_ =? 0)%nat; [eauto |].
    eapply validatedBy_some; [by rewrite assoc_setProp | done]. }
  destruct Hr as [r ->].
  destruct (IH (fun fid' Hin => Hall fid' (proj2 (elem_of_cons _ _ _) (or_intror Hin)))
              (S n)) as [rs ->].
  eauto.
Qed.

(** ** The first loop of [fillEntities] goes through *)

Section Run.
Variable pd : ParsedData.
Hypothesis Hwf : wellFormed pd.
Hypothesis Hadm : forall aid a,
  assoc aid (associations pd) = Some a -> admitted pd a.
Hypothesis Hfields : fieldsResolvable pd.

Local Abbreviation tracking := (tracking (DB:=DB) (G:=G) pd).

Local Abbreviation populated := (populated (DB:=DB) (G:=G) pd).

Lemma fromLoop_go c F : forall T st,
  NoDup F ->
  (forall aid, aid ∈ F -> ~ T aid /\ is_Some (assoc aid (associations pd))) ->
  tracking T st -> populated st -> c ∈ (classes pd).*1 ->
  exists st',
    forEach (fromStep c) F st = (Ok tt, st') /\ populated st'.
Proof.
  induction F as [|aid F IH]; intros T st Hnd Hnew Hinv Hdom Hc.
  - by exists st.
  - apply NoDup_cons in Hnd as [Haid Hnd].
    destruct (Hnew aid) as [HT [a Ha]]; [left |].
    pose proof Hinv as [(l' & Hpd & Hev & Hun) _].
    destruct (Hadm aid a Ha) as (fc & tc & Hfc & Htc & Hok).
    destruct (fromStep_go st _ c aid a fc tc Hpd) as (st1 & Hstep & Hdom1);
      [cbn; by rewrite (Hun aid HT) | done | done | done | by apply Hdom | |].
    { apply Hdom. by eapply assoc_is_key. }
    pose proof (fromStep_tracking pd T c aid st st1 Hinv HT Hstep) as Hinv1.
    destruct (IH (fun x => T x \/ x = aid) st1 Hnd) as (st' & Hrun & Hdom');
      [| exact Hinv1 | intros c' Hc'; apply Hdom1; by apply Hdom | done |].
    { intros aid' Hin. destruct (Hnew aid') as [HT' Hsome]; [by right |].
      split; [| done]. intros [? | ->]; done. }
    exists st'. split; [| done]. cbn [forEach].
    by rewrite (bind_run _ _ _ _ _ Hstep).
Qed.

Lemma toLoop_go c R : forall T st,
  (forall aid, aid ∈ R ->
               exists a, assoc aid (associations pd) = Some a /\
                         present (injectedFieldInTo a) = true) ->
  tracking T st -> populated st -> c ∈ (classes pd).*1 ->
  exists st',
    forEach (toStep c) R st = (Ok tt, st') /\ populated st'.
Proof.
  induction R as [|aid R IH]; intros T st Hto Hinv Hdom Hc.
  - by exists st.
  - destruct (Hto aid) as (a0 & Ha0 & Hp); [left |].
    pose proof Hinv as [(l' & Hpd & Hev & _) _].
    pose proof (evolvedList_assoc _ _ aid Hev) as He. rewrite Ha0 in He.
    destruct (assoc aid l') as [a|] eqn:Ha; [| done].
    destruct (Hadm aid a0 Ha0) as (fc & _ & Hfc & _).
    destruct (toStep_go st _ c aid a fc Hpd) as (st1 & Hstep);
      [done | by rewrite (evolved_from _ _ He) | by apply Hdom |].
    assert (Hto0 : exists a, assoc aid (associations pd) = Some a /\
                             present (injectedFieldInTo a) = true) by eauto.
    destruct (toStep_model pd c aid st st1 l' Hpd Hev Hto0 Hstep) as [_ Hdom1].
    pose proof (toStep_tracking pd T c aid st st1 Hinv Hto0 Hstep) as Hinv1.
    destruct (IH T st1) as (st' & Hrun & Hdom');
      [intros; apply Hto; by right | done
      | intros c' Hc'; apply Hdom1; by apply Hdom | done |].
    exists st'. split; [| done]. cbn [forEach].
    by rewrite (bind_run _ _ _ _ _ Hstep).
Qed.

Lemma setRelationshipOfEntity_go T c st :
  tracking T st ->
  (forall aid, leaving pd [c] aid -> ~ T aid) ->
  populated st -> c ∈ (classes pd).*1 ->
  exists st',
    setRelationshipOfEntity c st = (Ok tt, st') /\ populated st'.
Proof.
  intros Hinv Hnew Hdom Hc. pose proof Hinv as [(l' & Hpd & Hev & _) _].
  unfold setRelationshipOfEntity.
  rewrite (bind_run _ _ _ _ _ (theParsedData_run _ _ Hpd)).
  cbn [associations set_associations].
  change (map fst l') with l'.*1.
  pose proof (getRelatedAssociations_on_keys c l') as Hrel. rewrite Hrel.
  destruct (related_original pd Hwf _ _ _ _ Hev Hrel) as (HndF & HF & HR).
  cbn [defined]. unfold ret at 1. unfold bind at 1. cbn [fst snd].
  set (F := List.filter (leavesFrom l' c) l'.*1) in *.
  set (R := List.filter (arrivesAt l' c) l'.*1) in *.
  destruct (fromLoop_go c F T st HndF) as (st1 & Hfrom & Hdom1); try done.
  { intros aid Hin. apply HF in Hin as (a & Ha & Hfrom). split; [| eauto].
    apply Hnew. exists a. split; [done |]. rewrite Hfrom. left. }
  assert (Hinv1 : tracking (fun x => T x \/ x ∈ F) st1).
  { eapply fromLoop_tracking; [exact HndF | | exact Hinv | exact Hfrom].
    intros aid Hin. apply HF in Hin as (a & Ha & Hfrom').
    apply Hnew. exists a. split; [done |]. rewrite Hfrom'. left. }
  destruct (toLoop_go c R _ st1 HR Hinv1 Hdom1 Hc) as (st' & Hto & Hdom').
  exists st'. split; [| done].
  by rewrite (bind_run _ _ _ _ _ Hfrom).
Qed.

Lemma fillEntity_go T c st :
  tracking T st ->
  (forall aid, leaving pd [c] aid -> ~ T aid) ->
  populated st -> c ∈ (classes pd).*1 ->
  exists st', fillEntity c st = (Ok tt, st') /\ populated st'.
Proof.
  intros Hinv Hnew Hdom Hc. pose proof Hinv as [(l' & Hpd & Hev & Hun) Hadm'].
  destruct (assoc_of_key c (classes pd) Hc) as [cd Hcd].
  destruct (Hdom c Hc) as [e He].
  unfold fillEntity.
  rewrite (bind_run _ _ _ _ _ (getClass_run _ _ _ _ Hpd Hcd)).
  set (stm := if String.eqb (toLowerCase (class_name cd)) USER
              then set_entitiesToSuppress (fun l => l ++ [c]) st else st).
  assert (Hmark : (if String.eqb (toLowerCase (class_name cd)) USER
                   then modify (set_entitiesToSuppress (fun l => l ++ [c]))
                   else ret tt) st = (Ok tt, stm))
    by (unfold stm; by destruct (String.eqb _ _)).
  rewrite (bind_run _ _ _ _ _ Hmark).
  assert (Hpdm : parsedData stm = Some (set_associations (fun _ => l') pd))
    by (unfold stm; by destruct (String.eqb _ _)).
  assert (Hem : entities stm = entities st)
    by (unfold stm; by destruct (String.eqb _ _)).
  pose proof (setFieldsOfEntity_run stm _ c cd e Hpdm Hcd) as Hf.
  rewrite Hem in Hf. specialize (Hf He).
  rewrite (fieldRecords_parts pd) in Hf
    by (unfold partsOf; cbn; f_equal; apply (evolvedList_keys _ _ Hev)).
  destruct (fieldRecords_some pd (class_fields cd)
              (fun fid Hin => Hfields c cd fid Hcd Hin) (length (fields e)))
    as [rs Hrs].
  rewrite Hrs in Hf. rewrite (bind_run _ _ _ _ _ Hf).
  eapply (setRelationshipOfEntity_go T); [| done | | done].
  - split; [| done]. exists l'. by split.
  - intros c' Hc'. cbn. rewrite lookup_alter, Hem.
    destruct (Hdom c' Hc') as [e' He'].
    case_decide; [subst c' |]; rewrite He'; cbn; eauto.
Qed.

Lemma resolveLoop_go l : forall done st,
  NoDup l -> (forall c, c ∈ l -> (c ∉ done) /\ (c ∈ (classes pd).*1)) ->
  tracking (leaving pd done) st -> populated st ->
  exists st', forEach fillEntity l st = (Ok tt, st').
Proof.
  induction l as [|c l IH]; intros done st Hnd Hnew Hinv Hdom.
  - by exists st.
  - apply NoDup_cons in Hnd as [Hc Hnd].
    destruct (Hnew c) as [Hcd Hck]; [left |].
    assert (Hfresh : forall aid, leaving pd [c] aid -> ~ leaving pd done aid).
    { intros aid (a & Ha & Hac%list_elem_of_singleton) (a' & Ha' & Hin).
      assert (a' = a) as -> by congruence. by rewrite Hac in Hin. }
    destruct (fillEntity_go _ c st Hinv Hfresh Hdom Hck) as (st1 & Hstep & Hdom1).
    assert (Hone : forEach fillEntity [c] st = (Ok tt, st1))
      by (cbn [forEach]; by rewrite (bind_run _ _ _ _ _ Hstep)).
    assert (Hinv1 : tracking (leaving pd (done ++ [c])) st1).
    { eapply (resolveLoop_tracking pd Hwf [c] done st st1);
        [apply NoDup_singleton | | exact Hinv | exact Hone].
      intros c' Heq%list_elem_of_singleton. by subst c'. }
    destruct (IH (done ++ [c]) st1 Hnd) as (st' & Hrun); [| done | done |].
    + intros c' Hc'. destruct (Hnew c') as [? ?]; [by right |].
      split; [| done].
      intros [? | Heq%list_elem_of_singleton]%elem_of_app; [done |].
      by subst c'.
    + exists st'. cbn [forEach]. by rewrite (bind_run _ _ _ _ _ Hstep).
Qed.
End Run.

Lemma suppressLoop_go l : forall st,
  exists st', forEach (suppressEntity (DB:=DB) (G:=G)) l st = (Ok tt, st').
Proof.
  induction l as [|c l IH]; intros st; [by exists st |].
  destruct (IH (set_entities (delete c) st)) as (st' & Hrun).
  exists st'. cbn [forEach].
  assert (Hstep : suppressEntity c st = (Ok tt, set_entities (delete c) st))
    by reflexivity.
  by rewrite (bind_run _ _ _ _ _ Hstep).
Qed.

End Progress.

Section Necessary.
Context {DB G : Type} `{!Externals DB} `{!Tagging G}.

Implicit Types (st : State DB G) (pd : ParsedData).

(** A loop that went through has run its callback on each element, from
    a state where the invariant of the loop holds. *)
Lemma forEach_step {A} (I : State DB G -> Prop) (f : A -> M unit) l x :
  (forall y st st', y ∈ l -> I st -> f y st = (Ok tt, st') -> I st') ->
  x ∈ l ->
  forall st st',
    I st -> forEach f l st = (Ok tt, st') ->
    exists s1 s2, I s1 /\ f x s1 = (Ok tt, s2).
Proof.
  induction l as [|y l IH]; intros Hstep Hx st st' HI Hrun;
    [by apply elem_of_nil in Hx |].
  apply forEach_cons_ok in Hrun as (st1 & Hy & Hrun).
  apply elem_of_cons in Hx as [-> | Hx]; [by exists st, st1 |].
  eapply (IH (fun z s s' Hz => Hstep z s s' (proj2 (elem_of_cons _ _ _) (or_intror Hz))));
    [done | | exact Hrun].
  eapply Hstep; [left | done | done].
Qed.

(** X18.  In a run that succeeds, an association with [injectedFieldInTo]
    whose target is a class has its source among the classes. *)
Theorem arrivals_have_source (args : Args DB) pd st es st' aid a :
  arg_parsedData args = Some pd ->
  createEntities args st = (Ok es, st') ->
  assoc aid (associations pd) = Some a ->
  assoc_to a ∈ (classes pd).*1 ->
  present (injectedFieldInTo a) = true ->
  assoc_from a ∈ (classes pd).*1.
Proof.
  intros Hpd Hrun Ha Hto Hp.
  destruct (createEntities_stages args pd st es st' Hpd Hrun)
    as (st1 & st2 & st_r & _ & _ & _ & Hpd2 & Hout & Hin & Hres & _).
  assert (Hinv2 : evolving pd st2).
  { split.
    - exists (associations pd). rewrite set_associations_same.
      split; [done | apply evolvedList_refl].
    - intros _ c e He. destruct (decide (c ∈ (classes pd).*1)) as [Hc | Hc].
      + destruct (Hin c Hc) as (cd & e' & _ & He' & Hr & _).
        assert (e' = e) as -> by congruence. by rewrite Hr.
      + by rewrite (Hout c Hc) in He. }
  destruct (forEach_step (evolving pd) fillEntity _ (assoc_to a)
              (fun c s s' _ => fillEntity_evolving pd c s s') Hto
              _ _ Hinv2 Hres) as (s1 & s2 & Hinv1 & Hfill).
  apply fillEntity_ok in Hfill as (pd1 & cd & s3 & Hpd1 & _ & Hf & Hr).
  assert (Hinv3 : evolving pd s3).
  { apply setFieldsOfEntity_frame in Hf as (Hf1 & _ & Hf3).
    assert (Hm : evolving pd
                   (if String.eqb (toLowerCase (class_name cd)) USER
                    then set_entitiesToSuppress (fun l => l ++ [assoc_to a]) s1
                    else s1)) by (by destruct (String.eqb _ _)).
    destruct Hm as [(l' & Hpdm & Hev) HJ]. split.
    - exists l'. split; [congruence | done].
    - intros Hfree c0 e2 He2. specialize (Hf3 c0). rewrite He2 in Hf3.
      destruct (entities _ !! c0) as [e0|] eqn:He0; [| done].
      injection Hf3 as -> _. by eapply HJ. }
  clear Hf Hpd1. pose proof Hinv3 as [(l' & Hpd3 & Hev) _].
  unfold setRelationshipOfEntity in Hr.
  apply bind_ok in Hr as (pd3 & s0 & H0 & Hr).
  apply theParsedData_ok in H0 as [-> Hpd3'].
  rewrite Hpd3 in Hpd3'. injection Hpd3' as <-. cbn in Hr.
  apply bind_ok in Hr as ([F R] & s0 & H0 & Hr).
  apply defined_ok in H0 as [Hrel ->].
  apply getRelatedAssociations_spec in Hrel as (HF & HR & _).
  apply bind_ok in Hr as ([] & s4 & Hfrom & Hto'). cbn in Hfrom, Hto'.
  assert (Hinv4 : evolving pd s4).
  { eapply (forEach_invariant (evolving pd)); [| exact Hinv3 | exact Hfrom].
    intros aid' t1 t2 Hin' HI Hstep.
    eapply fromStep_evolving; [exact HI | | exact Hstep].
    intros a0 Ha0. apply HF in Hin' as (_ & a' & Ha' & <-).
    pose proof (evolvedList_assoc _ _ aid' Hev) as He. rewrite Ha', Ha0 in He.
    symmetry. by apply evolved_from. }
  assert (HR0 : forall x, x ∈ R ->
                          exists a0, assoc x (associations pd) = Some a0 /\
                                     present (injectedFieldInTo a0) = true).
  { intros x (_ & a' & Ha' & _ & Hp')%HR.
    pose proof (evolvedList_assoc _ _ x Hev) as He. rewrite Ha' in He.
    destruct (assoc x (associations pd)) as [a0|]; [| done].
    exists a0. split; [done |]. by rewrite <- (evolved_injectedFieldInTo _ _ He). }
  assert (Hin' : aid ∈ R).
  { apply HR. pose proof (evolvedList_assoc _ _ aid Hev) as He. rewrite Ha in He.
    destruct (assoc aid l') as [a'|] eqn:Ha'; [| done].
    split; [by eapply assoc_is_key |]. exists a'. split; [done |].
    by rewrite (evolved_to _ _ He), (evolved_injectedFieldInTo _ _ He). }
  destruct (forEach_step (evolving pd) (toStep (assoc_to a)) R aid
              (fun x s s' Hx HI => toStep_evolving pd (assoc_to a) x s s' HI
                                     (HR0 x Hx))
              Hin' _ _ Hinv4 Hto') as (t1 & t2 & [(l1 & Hpdt & Hev1) _] & Hstep).
  apply toStep_ok in Hstep as (pdt & a1 & Hpdt' & Ha1 & Hst').
  rewrite Hpdt in Hpdt'. injection Hpdt' as <-. cbn in Ha1.
  pose proof (evolvedList_assoc _ _ aid Hev1) as He1. rewrite Ha, Ha1 in He1.
  rewrite (evolved_injectedFieldInTo _ _ He1) in Hst'.
  destruct (Hst' Hp) as (fc & _ & Hfc & _). cbn in Hfc.
  rewrite (evolved_from _ _ He1) in Hfc. by eapply assoc_is_key.
Qed.

Lemma validatedBy_resolved vs ids : forall field r,
  validatedBy vs field ids = Some r ->
  forall vid, vid ∈ ids -> is_Some (vs !! vid).
Proof.
  induction ids as [|vid0 ids IH]; intros field r Hr vid Hin;
    [by apply elem_of_nil in Hin |].
  cbn in Hr. destruct (vs !! vid0) as [v|] eqn:Hv; [| done].
  destruct (ruled field v) as [field1|]; [| done].
  apply elem_of_cons in Hin as [-> | Hin]; [by rewrite Hv | by eapply IH].
Qed.

Lemma fieldRecords_resolved pd ids : forall n rs,
  fieldRecords pd n ids = Some rs ->
  forall fid,
    fid ∈ ids ->
    exists f,
      pd_fields pd !! fid = Some f /\
      forall vid, vid ∈ field_validations f -> is_Some (pd_validations pd !! vid).
Proof.
  induction ids as [|fid0 ids IH]; intros n rs Hrs fid Hin;
    [by apply elem_of_nil in Hin |].
  cbn [fieldRecords] in Hrs.
  destruct (pd_fields pd !! fid0) as [f|] eqn:Hf; [| done].
  destruct (fieldRecord pd (n + 1) f) as [r|] eqn:Hr; [| done].
  destruct (fieldRecords pd (S n) ids) as [rs0|] eqn:Hrs0; [| done].
  apply elem_of_cons in Hin as [-> | Hin]; [| by eapply IH].
  exists f. split; [done |]. intros vid Hvid. unfold fieldRecord in Hr.
  destruct (field_validations f) as [|v0 vs0] eqn:Hids;
    [by apply elem_of_nil in Hvid |].
  cbn [length Nat.eqb] in Hr. by eapply validatedBy_resolved.
Qed.

(** X19.  In a run that succeeds, every field of every class is in the model,
    and so is every validation of such a field. *)
Theorem fields_resolved (args : Args DB) pd st es st' c cd fid :
  arg_parsedData args = Some pd ->
  NoDup (classes pd).*1 ->
  createEntities args st = (Ok es, st') ->
  assoc c (classes pd) = Some cd ->
  fid ∈ class_fields cd ->
  exists f,
    pd_fields pd !! fid = Some f /\
    forall vid, vid ∈ field_validations f -> is_Some (pd_validations pd !! vid).
Proof.
  intros Hpd Hnd Hrun Hcd Hfid.
  destruct (createEntities_stages args pd st es st' Hpd Hrun)
    as (st1 & st2 & st_r & _ & _ & _ & Hpd2 & _ & Hin & Hres & _).
  assert (Hc : c ∈ (classes pd).*1) by (by eapply assoc_is_key).
  destruct (Hin c Hc) as (cd' & e2 & Hcd' & He2 & _ & Hf2 & _).
  assert (Hparts : partsOf <$> parsedData st2 = Some (partsOf pd))
    by (by rewrite Hpd2).
  destruct (resolveLoop_fields pd _ _ _ Hnd Hparts Hres c e2 He2)
    as (e' & He' & Hfields).
  rewrite decide_True in Hfields by done.
  destruct Hfields as (cd'' & rs & Hcd'' & Hrs & _).
  assert (cd'' = cd) as -> by congruence.
  by eapply fieldRecords_resolved.
Qed.
End Necessary.

Section Schema.
Context {DB G : Type} `{!Externals DB} `{!Tagging G}.
Hypothesis tag_inj :
  forall a s a' s', tag (G:=G) a s = tag a' s' -> a = a' /\ s = s'.

Implicit Types (st : State DB G) (pd : ParsedData).

(** Where a record of a returned entity comes from. *)
Lemma record_shape (args : Args DB) pd st es st' c e r :
  arg_parsedData args = Some pd ->
  wellFormed pd ->
  createEntities args st = (Ok es, st') ->
  es !! c = Some e ->
  r ∈ relationships e ->
  exists aid s a,
    assoc aid (associations pd) = Some a /\ place a s = c /\
    shape (classes pd) aid a s r.
Proof.
  intros Hpd Hwf Hrun He Hr.
  destruct (createEntities_Inv tag_inj args pd st es st' Hpd Hwf Hrun)
    as (D & es_r & pd' & Hres & _ & Hes & _).
  destruct (Hes c e He) as [He_r _].
  destruct (ru_sound _ _ _ _ Hres c e r He_r Hr)
    as (aid & s & a & _ & Ha & _ & Hplace & Hshape).
  by exists aid, s, a.
Qed.

(** X22.  The records of a returned entity by their type: [ownerSide] is
    set exactly on the ONE_TO_ONE and MANY_TO_MANY records; a ONE_TO_MANY
    record has no [otherEntityField] and names the relationship of the
    other entity; a MANY_TO_ONE record has neither [ownerSide] nor
    [otherEntityRelationshipName]. *)
Theorem records_by_type (args : Args DB) pd st es st' c e r :
  arg_parsedData args = Some pd ->
  wellFormed pd ->
  createEntities args st = (Ok es, st') ->
  es !! c = Some e ->
  r ∈ relationships e ->
  (is_Some (ownerSide r) <->
   relationshipType r = ONE_TO_ONE \/ relationshipType r = MANY_TO_MANY) /\
  (relationshipType r = ONE_TO_MANY ->
   otherEntityField r = None /\ is_Some (otherEntityRelationshipName r)) /\
  (relationshipType r = MANY_TO_ONE ->
   ownerSide r = None /\ otherEntityRelationshipName r = None).
Proof.
  intros Hpd Hwf Hrun He Hr.
  destruct (record_shape args pd st es st' c e r Hpd Hwf Hrun He Hr)
    as (aid & s & a & _ & _ & Hshape).
  assert (Hcases :
            forall (o : option bool) (t : Cardinality)
                   (f n : option string),
              ((o = None /\ (t = ONE_TO_MANY \/ t = MANY_TO_ONE)) \/
               (is_Some o /\ (t = ONE_TO_ONE \/ t = MANY_TO_MANY))) ->
              (t = ONE_TO_MANY -> f = None /\ is_Some n) ->
              (t = MANY_TO_ONE -> o = None /\ n = None) ->
              (is_Some o <-> t = ONE_TO_ONE \/ t = MANY_TO_MANY) /\
              (t = ONE_TO_MANY -> f = None /\ is_Some n) /\
              (t = MANY_TO_ONE -> o = None /\ n = None)).
  { intros o t f n Ho H2 H3. split; [| done].
    destruct Ho as [[-> Ht] | [Ho Ht]].
    - split; [by intros []%is_Some_None |].
      intros [-> | ->]; destruct Ht; discriminate.
    - done. }
  destruct s; cbn in Hshape.
  - destruct Hshape as (fc & tc & id & _ & _ & ->). unfold fromRecord.
    destruct (assoc_type a); [| | destruct (present (injectedFieldInFrom a)) |];
      cbn; apply Hcases; try (intros; discriminate); eauto 6.
  - destruct Hshape as (_ & fc & id & _ & ->). unfold synthesizedRecord.
    cbn. apply Hcases; try (intros; discriminate); eauto 6.
  - destruct Hshape as (_ & fc & id & _ & ->). unfold toRecord.
    destruct (assoc_type a); cbn; apply Hcases;
      try (intros; discriminate); eauto 6.
Qed.

(** X23.  The entity of a class at which no association starts or ends
    has no relationship. *)
Theorem no_association_no_relationship (args : Args DB) pd st es st' c e :
  arg_parsedData args = Some pd ->
  wellFormed pd ->
  createEntities args st = (Ok es, st') ->
  es !! c = Some e ->
  (forall aid a, assoc aid (associations pd) = Some a ->
                 assoc_from a <> c /\ assoc_to a <> c) ->
  relationships e = [].
Proof.
  intros Hpd Hwf Hrun He Hnone.
  destruct (relationships e) as [|r rs] eqn:Hrs; [done |]. exfalso.
  destruct (record_shape args pd st es st' c e r Hpd Hwf Hrun He)
    as (aid & s & a & Ha & Hplace & _); [rewrite Hrs; left |].
  destruct (Hnone aid a Ha) as [Hf Ht]. by destruct s.
Qed.

(** X24.  Of the records of a ONE_TO_ONE or MANY_TO_MANY association, the
    one at the source is the owner side and the one at the target is
    not. *)
Theorem owner_side_is_the_source `{!EqDecision G} (args : Args DB) pd st es
    st' aid a :
  arg_parsedData args = Some pd ->
  wellFormed pd ->
  createEntities args st = (Ok es, st') ->
  assoc aid (associations pd) = Some a ->
  assoc_type a = ONE_TO_ONE \/ assoc_type a = MANY_TO_MANY ->
  (forall e r, es !! assoc_from a = Some e ->
               r ∈ recordsOf e aid FromSide -> ownerSide r = Some true) /\
  (forall e r, es !! assoc_to a = Some e ->
               r ∈ recordsOf e aid ToSide -> ownerSide r = Some false).
Proof.
  intros Hpd Hwf Hrun Ha Htype. split; intros e r He Hr.
  - destruct (fromSide_record tag_inj args pd st st' es aid a Hpd Hwf Ha Hrun
                e He) as (fc & tc & id & _ & _ & Heq).
    rewrite Heq in Hr. apply list_elem_of_singleton in Hr. subst r.
    unfold fromRecord. by destruct Htype as [-> | ->].
  - destruct (present (injectedFieldInTo a)) eqn:HiT.
    + destruct (toSide_record tag_inj args pd st st' es aid a Hpd Hwf Ha Hrun
                  e He HiT) as (fc & id & _ & Heq).
      rewrite Heq in Hr. apply list_elem_of_singleton in Hr. subst r.
      unfold toRecord. by destruct Htype as [-> | ->].
    + rewrite (toSide_none tag_inj args pd st st' es aid a Hpd Hwf Ha Hrun
                 (assoc_to a) e He) in Hr; [by apply elem_of_nil in Hr |].
      intros [_ ?]. congruence.
Qed.
End Schema.

(** ** The state between the two loops of [fillEntities] *)

Section Reached.
Context {DB G : Type} `{!Externals DB} `{!Tagging G} `{!EqDecision G}.

Implicit Types (st : State DB G) (pd : ParsedData).

(** The state that a successful run reaches at the end of the first
    loop: every class has its entity there, with its fields. *)
Lemma createEntities_before_removal (args : Args DB) pd st es st' :
  arg_parsedData args = Some pd ->
  createEntities args st = (Ok es, st') ->
  exists st_r,
    resolveAll args st = (Ok tt, st_r) /\
    suppressEntities st_r = (Ok tt, st') /\ es = entities st' /\
    (forall c, is_Some (entities st_r !! c) <-> c ∈ (classes pd).*1) /\
    (NoDup (classes pd).*1 ->
     forall c cd e,
       assoc c (classes pd) = Some cd -> entities st_r !! c = Some e ->
       fieldRecords pd 0 (class_fields cd) = Some (fields e)) /\
    forall c, es !! c = if bool_decide (isUserClass pd c) then None
                        else entities st_r !! c.
Proof.
  intros Hpd Hrun.
  destruct (createEntities_stages_run args pd st es st' Hpd Hrun)
    as (st1 & st2 & st_r & (Hall & Hsup & Hes') & _ & _ & _ & Hpd2 & Hout
        & Hin & Hres & (_ & _ & Hkeep) & _ & Hes).
  exists st_r. do 3 (split; [done |]). split; [| split; [| done]].
  - intros c. specialize (Hkeep c).
    destruct (decide (c ∈ (classes pd).*1)) as [Hc | Hc].
    + destruct (Hin c Hc) as (cd & e & _ & He & _). rewrite He in Hkeep.
      destruct (entities st_r !! c); [| done]. split; eauto.
    + rewrite (Hout c Hc) in Hkeep.
      destruct (entities st_r !! c); [done |].
      split; [by intros []%is_Some_None | done].
  - intros Hnd c cd e Hcd He.
    assert (Hc : c ∈ (classes pd).*1) by (by eapply assoc_is_key).
    destruct (Hin c Hc) as (cd' & e2 & Hcd' & He2 & _ & Hf2 & _).
    assert (Hparts : partsOf <$> parsedData st2 = Some (partsOf pd))
      by (by rewrite Hpd2).
    destruct (resolveLoop_fields pd _ _ _ Hnd Hparts Hres c e2 He2)
      as (e' & He' & Hfields).
    assert (e' = e) as -> by congruence.
    rewrite decide_True in Hfields by done.
    destruct Hfields as (cd'' & rs & Hcd'' & Hrs & Hfields).
    assert (cd'' = cd) as -> by congruence.
    rewrite Hf2 in Hrs, Hfields. cbn in Hrs, Hfields. congruence.
Qed.

End Reached.

Section Resolved.
Context {DB G : Type} `{!Externals DB} `{!Tagging G} `{!EqDecision G}.
Hypothesis tag_inj :
  forall a s a' s', tag (G:=G) a s = tag a' s' -> a = a' /\ s = s'.

Implicit Types (st : State DB G) (pd : ParsedData).

(** In that state every record that is due has been pushed, once. *)
Lemma createEntities_resolution (args : Args DB) pd st es st' :
  arg_parsedData args = Some pd ->
  wellFormed pd ->
  createEntities args st = (Ok es, st') ->
  exists D st_r,
    resolveAll args st = (Ok tt, st_r) /\
    resolvedUpTo (classes pd) (associations pd) D (entities st_r) /\
    (forall x, x ∈ D <-> doneBy (associations pd) (classes pd).*1 x).
Proof.
  intros Hpd [Hcs Has] Hrun.
  destruct (createEntities_stages_run args pd st es st' Hpd Hrun)
    as (st1 & st2 & st_r & (Hall & _) & _ & _ & _ & Hpd2 & Hout
        & Hin & Hres & _).
  assert (HInv2 : Inv (classes pd) (associations pd) [] st2).
  { eapply Inv_initial; [done | done | done |].
    intros c e He. destruct (decide (c ∈ (classes pd).*1)) as [Hc | Hc].
    - destruct (Hin c Hc) as (cd & e' & _ & He' & Hr & _). congruence.
    - rewrite (Hout c Hc) in He. discriminate. }
  destruct (resolveLoop_Inv (classes pd) (associations pd) Has tag_inj
              (classes pd).*1 [] st2 st_r Hcs)
    as (D & (pd_r & Hpd_r & Hcs_r & Has_r & Hru) & HD);
    [ intros x _; apply not_elem_of_nil | done | done |].
  exists D, st_r. split; [done |]. split; [done |].
  intros x. rewrite HD. split; [| auto].
  intros [?%elem_of_nil | ?]; done.
Qed.

(** A record that is due sits, alone of its origin, on the entity of
    its place. *)
Lemma resolved_record (args : Args DB) pd st es st' aid a s :
  arg_parsedData args = Some pd ->
  wellFormed pd ->
  createEntities args st = (Ok es, st') ->
  assoc aid (associations pd) = Some a ->
  doneBy (associations pd) (classes pd).*1 (aid, s) ->
  exists st_r e r,
    resolveAll args st = (Ok tt, st_r) /\
    entities st_r !! place a s = Some e /\
    recordsOf e aid s = [r] /\ shape (classes pd) aid a s r.
Proof.
  intros Hpd Hwf Hrun Ha Hdue.
  destruct (createEntities_resolution args pd st es st' Hpd Hwf Hrun)
    as (D & st_r & Hall & Hru & HD).
  apply HD in Hdue.
  destruct (ru_complete _ _ _ _ Hru aid s a Hdue Ha) as (e & r0 & He & _).
  destruct (recordsOf_emitted tag_inj _ _ _ _ _ e aid a s Hru He Ha Hdue
              eq_refl) as (r & Hr & Hshape).
  by exists st_r, e, r.
Qed.

(** The target entity of an association whose inverse side is
    synthesized. *)
Lemma one_to_many_target (args : Args DB) pd st es st' aid a :
  arg_parsedData args = Some pd ->
  wellFormed pd ->
  assoc aid (associations pd) = Some a ->
  synthesizes a = true ->
  assoc_from a ∈ (classes pd).*1 ->
  createEntities args st = (Ok es, st') ->
  exists st_r t,
    resolveAll args st = (Ok tt, st_r) /\
    entities st_r !! assoc_to a = Some t /\
    (~ isUserClass pd (assoc_to a) -> es !! assoc_to a = Some t).
Proof.
  intros Hpd Hwf Ha Hsyn Hfrom Hrun.
  destruct (resolved_record args pd st es st' aid a Synthesized Hpd Hwf Hrun Ha)
    as (st_r & t & r & Hall & Ht & _); [exists a; by split |].
  destruct (createEntities_before_removal args pd st es st' Hpd Hrun)
    as (st_r' & Hall' & _ & _ & _ & _ & Hes).
  assert (st_r' = st_r) as -> by congruence.
  exists st_r, t. split; [done |]. split; [done |].
  intros Hu. by rewrite Hes, bool_decide_eq_false_2.
Qed.

(** ** The synthesized inverse side *)

(** C2.  For a ONE_TO_MANY association without [injectedFieldInTo]
    whose source is a class of a well-formed model, a successful run
    reaches the end of the first loop of [fillEntities] with a target
    entity that holds exactly one synthesized record for the association
    and none from the to-side; that record is MANY_TO_ONE, its
    [relationshipName] is [camelCase (lowerFirst source)] and its
    [otherEntityName] is [lowerFirst (camelCase source)].  Unless the
    target class is named "User", that entity is the target entity of the
    result.  The association stored in the caller's model is MANY_TO_ONE
    afterwards. *)
Theorem one_to_many_inverse_synthesized (args : Args DB) pd st es st' aid a fc :
  arg_parsedData args = Some pd ->
  wellFormed pd ->
  assoc aid (associations pd) = Some a ->
  assoc_type a = ONE_TO_MANY ->
  present (injectedFieldInTo a) = false ->
  assoc (assoc_from a) (classes pd) = Some fc ->
  createEntities args st = (Ok es, st') ->
  (exists st_r target r,
      resolveAll args st = (Ok tt, st_r) /\
      entities st_r !! assoc_to a = Some target /\
      (~ isUserClass pd (assoc_to a) -> es !! assoc_to a = Some target) /\
      recordsOf target aid Synthesized = [r] /\
      relationshipType r = MANY_TO_ONE /\
      relationshipName r = Some (camelCase (lowerFirst (class_name fc))) /\
      otherEntityName r = Some (lowerFirst (camelCase (class_name fc))) /\
      recordsOf target aid ToSide = []) /\
  exists pd',
    parsedData st' = Some pd' /\
    assoc aid (associations pd') = Some (set_assoc_type MANY_TO_ONE a).
Proof.
  intros Hpd Hwf Ha Hty HiT Hfc Hrun.
  assert (Hsyn : synthesizes a = true).
  { unfold synthesizes. by rewrite Hty, HiT. }
  assert (Hfrom : assoc_from a ∈ (classes pd).*1) by (by eapply assoc_is_key).
  split.
  - destruct (createEntities_resolution args pd st es st' Hpd Hwf Hrun)
      as (D & st_r & Hall & Hru & HD).
    destruct (createEntities_before_removal args pd st es st' Hpd Hrun)
      as (st_r' & Hall' & _ & _ & _ & _ & Hes).
    assert (st_r' = st_r) as -> by congruence.
    assert (Hdue : (aid, Synthesized) ∈ D).
    { apply HD. exists a. by split. }
    destruct (ru_complete _ _ _ _ Hru aid Synthesized a Hdue Ha)
      as (target & r0 & Ht & _).
    cbn in Ht.
    destruct (recordsOf_emitted tag_inj _ _ _ _ _ target aid a Synthesized
                Hru Ht Ha Hdue eq_refl)
      as (r & Hrec & _ & fc' & id & Hfc' & ->).
    assert (fc' = fc) as -> by congruence.
    exists st_r, target. eexists. split; [done |]. split; [done |].
    split; [| split; [exact Hrec |]].
    + intros Hu. by rewrite Hes, bool_decide_eq_false_2.
    + repeat split.
      eapply (recordsOf_none tag_inj); [done | done | done |].
      intros [(a' & Ha' & _ & HiT')%HD _]. cbn in Ha', HiT'.
      assert (a' = a) as -> by congruence. congruence.
  - destruct (association_after tag_inj args pd st st' es aid a Hpd Hwf Ha Hrun)
      as (pd' & Hpd' & _ & _ & Ha').
    exists pd'. split; [done |].
    by rewrite Ha', Hsyn, bool_decide_eq_true_2.
Qed.

(** ** A second run on the model that a run leaves *)

Lemma isUserClass_same pd pd' c :
  classes pd' = classes pd -> isUserClass pd' c <-> isUserClass pd c.
Proof. intros Hcs. unfold isUserClass. by rewrite Hcs. Qed.

(** C10.  A run rewrites the caller's model: a ONE_TO_MANY association
    without [injectedFieldInTo] (whose source is a class) is stored as
    MANY_TO_ONE afterwards.  The first result holds, when the class is
    not named "User", the source entity with one from-side record, of
    type ONE_TO_MANY, and the target entity with one synthesized record.
    Any later run on the rewritten model returns entities for the same
    classes, but another source entity: its from-side record is of type
    MANY_TO_ONE; and no entity has a synthesized record for the
    association. *)
Theorem second_run_on_rewritten_model (args : Args DB) pd st es st' aid a fc :
  arg_parsedData args = Some pd ->
  wellFormed pd ->
  assoc aid (associations pd) = Some a ->
  assoc_type a = ONE_TO_MANY ->
  present (injectedFieldInTo a) = false ->
  assoc (assoc_from a) (classes pd) = Some fc ->
  createEntities args st = (Ok es, st') ->
  exists pd1,
    parsedData st' = Some pd1 /\
    assoc aid (associations pd1) = Some (set_assoc_type MANY_TO_ONE a) /\
    (~ isUserClass pd (assoc_from a) ->
     exists e r, es !! assoc_from a = Some e /\
                 recordsOf e aid FromSide = [r] /\
                 relationshipType r = ONE_TO_MANY) /\
    (~ isUserClass pd (assoc_to a) ->
     exists t r, es !! assoc_to a = Some t /\
                 recordsOf t aid Synthesized = [r]) /\
    forall (args2 : Args DB) st2 es2 st2',
      arg_parsedData args2 = Some pd1 ->
      createEntities args2 st2 = (Ok es2, st2') ->
      (forall c, is_Some (es2 !! c) <-> is_Some (es !! c)) /\
      (~ isUserClass pd (assoc_from a) ->
       exists e r, es2 !! assoc_from a = Some e /\
                   recordsOf e aid FromSide = [r] /\
                   relationshipType r = MANY_TO_ONE /\
                   es2 !! assoc_from a <> es !! assoc_from a) /\
      (forall c t, es2 !! c = Some t -> recordsOf t aid Synthesized = []).
Proof.
  intros Hpd Hwf Ha Hty HiT Hfc Hrun.
  assert (Hsyn : synthesizes a = true).
  { unfold synthesizes. by rewrite Hty, HiT. }
  assert (Hfrom : assoc_from a ∈ (classes pd).*1) by (by eapply assoc_is_key).
  destruct (association_after tag_inj args pd st st' es aid a Hpd Hwf Ha Hrun)
    as (pd1 & Hpd1 & Hcs1 & Hkeys1 & Ha1).
  rewrite Hsyn, bool_decide_eq_true_2 in Ha1 by done. cbn in Ha1.
  assert (Hfirst : ~ isUserClass pd (assoc_from a) ->
                   exists e r, es !! assoc_from a = Some e /\
                               recordsOf e aid FromSide = [r] /\
                               relationshipType r = ONE_TO_MANY).
  { intros Hu.
    destruct (proj2 (entity_returned_iff args pd st es st' (assoc_from a)
                       Hpd Hrun) (conj Hfrom Hu)) as [e He].
    destruct (fromSide_record tag_inj args pd st st' es aid a Hpd Hwf Ha Hrun
                e He) as (fc' & tc & id & _ & _ & Hrec).
    exists e. eexists. split; [done |]. split; [exact Hrec |].
    by rewrite relationshipType_fromRecord. }
  exists pd1. split; [done |]. split; [done |]. split; [done |]. split.
  - intros Hu.
    destruct (one_to_many_target args pd st es st' aid a Hpd Hwf Ha Hsyn Hfrom
                Hrun) as (st_r & t & Hall & Ht & Hes).
    specialize (Hes Hu).
    destruct (synthesized_record tag_inj args pd st st' es aid a Hpd Hwf Ha
                Hrun t Hes Hsyn Hfrom) as (fc' & id & _ & Hrec).
    eauto.
  - intros args2 st2 es2 st2' Hpd2 Hrun2.
    pose proof (wellFormed_after pd pd1 Hwf Hcs1 Hkeys1) as Hwf1.
    split; [| split].
    + intros c.
      rewrite (entity_returned_iff args2 pd1 st2 es2 st2' c Hpd2 Hrun2).
      rewrite (entity_returned_iff args pd st es st' c Hpd Hrun).
      by rewrite Hcs1, (isUserClass_same pd pd1 c Hcs1).
    + intros Hu. destruct (Hfirst Hu) as (e1 & r1 & He1 & Hrec1 & Hty1).
      assert (Hfrom2 : assoc_from a ∈ (classes pd1).*1) by (by rewrite Hcs1).
      assert (Hu2 : ~ isUserClass pd1 (assoc_from a))
        by (by rewrite (isUserClass_same pd pd1 _ Hcs1)).
      destruct (proj2 (entity_returned_iff args2 pd1 st2 es2 st2' (assoc_from a)
                         Hpd2 Hrun2) (conj Hfrom2 Hu2)) as [e2 He2].
      destruct (fromSide_record tag_inj args2 pd1 st2 st2' es2 aid _ Hpd2 Hwf1
                  Ha1 Hrun2 e2 He2) as (fc' & tc & id & _ & _ & Hrec2).
      cbn in He2.
      exists e2. eexists. split; [done |]. split; [exact Hrec2 |].
      split; [by rewrite relationshipType_fromRecord |].
      rewrite He1, He2. intros [= ->]. rewrite Hrec1 in Hrec2.
      injection Hrec2 as ->.
      rewrite relationshipType_fromRecord in Hty1. discriminate.
    + intros c t Ht.
      eapply (synthesized_none tag_inj args2 pd1 st2 st2' es2 aid _ Hpd2 Hwf1
                Ha1 Hrun2 c t Ht).
      intros (_ & Hsyn1 & _). unfold synthesizes in Hsyn1. cbn in Hsyn1.
      by rewrite bool_decide_eq_false_2 in Hsyn1.
Qed.
End Resolved.

(** ** Suppression of the User entity *)

Section Removal.
Context {DB G : Type} `{!Externals DB} `{!Tagging G} `{!EqDecision G}.

Implicit Types (st : State DB G) (pd : ParsedData).

(** C9.  A successful run first reaches the state [st_r] at the end of
    the first loop of [fillEntities], and the second loop takes it from
    there to the result.  In [st_r] nothing is removed yet: every class,
    those named "User" included, has its entity, with all the fields of
    the class and, for every association, the records that are due.  In
    the result the entity of every class named "User" (in any case) is
    missing, and every other entry is exactly the entry of [st_r]: the
    removal changes no record of the entities that stay. *)
Theorem user_entities_removed_last (args : Args DB) pd st es st' :
  arg_parsedData args = Some pd ->
  createEntities args st = (Ok es, st') ->
  exists st_r,
    resolveAll args st = (Ok tt, st_r) /\
    suppressEntities st_r = (Ok tt, st') /\ es = entities st' /\
    (forall c, c ∈ (classes pd).*1 -> is_Some (entities st_r !! c)) /\
    (NoDup (classes pd).*1 ->
     forall c cd,
       assoc c (classes pd) = Some cd ->
       exists e, entities st_r !! c = Some e /\
                 fieldRecords pd 0 (class_fields cd) = Some (fields e)) /\
    (wellFormed pd ->
     (forall a s a' s', tag (G:=G) a s = tag a' s' -> a = a' /\ s = s') ->
     forall aid a s,
       assoc aid (associations pd) = Some a ->
       doneBy (associations pd) (classes pd).*1 (aid, s) ->
       exists e r, entities st_r !! place a s = Some e /\
                   recordsOf e aid s = [r]) /\
    forall c,
      (isUserClass pd c -> es !! c = None) /\
      (~ isUserClass pd c -> es !! c = entities st_r !! c).
Proof.
  intros Hpd Hrun.
  destruct (createEntities_before_removal args pd st es st' Hpd Hrun)
    as (st_r & Hall & Hsup & Hes' & Hdom & Hfields & Hes).
  exists st_r. do 3 (split; [done |]). split; [| split; [| split]].
  - intros c Hc. by apply Hdom.
  - intros Hnd c cd Hcd.
    destruct (proj2 (Hdom c)) as [e He]; [by eapply assoc_is_key |].
    exists e. split; [done |]. by eapply Hfields.
  - intros Hwf tag_inj aid a s Ha Hdue.
    destruct (resolved_record tag_inj args pd st es st' aid a s Hpd Hwf Hrun
                Ha Hdue) as (st_r' & e & r & Hall' & He & Hr & _).
    assert (st_r' = st_r) as -> by congruence. eauto.
  - intros c. rewrite Hes. split; intros Hu.
    + by rewrite bool_decide_eq_true_2.
    + by rewrite bool_decide_eq_false_2.
Qed.
End Removal.

(** X21.  The increment of [dateFormatForLiquibase] counts modulo 60:
    whole minutes added to it are lost. *)
Theorem dateFormatForLiquibase_wraps t i k :
  dateFormatForLiquibase t (i + 60 * k) = dateFormatForLiquibase t i.
Proof.
  unfold dateFormatForLiquibase.
  replace ((utcSeconds t + (i + 60 * k)) mod 60) with ((utcSeconds t + i) mod 60);
    [reflexivity |].
  rewrite Nat.add_assoc, (Nat.mul_comm 60 k). symmetry.
  apply Nat.Div0.mod_add.
Qed.

(** * The properties of the functions on concrete models *)

Lemma NoDup_catalogue : NoDup (classes catalogue).*1.
Proof. apply (bool_decide_unpack _). vm_compute. exact I. Defined.

Lemma wellFormed_catalogue : wellFormed catalogue.
Proof. split; apply (bool_decide_unpack _); vm_compute; exact I. Defined.

Lemma selfFree_authorHasBooks : selfFree authorHasBooks.
Proof.
  intros aid a Ha _. cbn in Ha.
  destruct (String.eqb aid "a1"); [| discriminate].
  injection Ha as <-. discriminate.
Defined.

Lemma admitted_catalogue aid a :
  assoc aid (associations catalogue) = Some a -> admitted catalogue a.
Proof.
  intros Ha. cbn in Ha. destruct (String.eqb aid "a1"); [| discriminate].
  injection Ha as <-.
  exists (mkClass "Author" "Author" None (JStr "no") (JStr "no") (JStr "no")
            JUndefined JUndefined ["f1"; "f2"]),
    (mkClass "Book" "Book" None (JStr "no") (JStr "no") (JStr "no")
       JUndefined JUndefined ["f3"]).
  repeat split; reflexivity.
Defined.

Lemma maxlength_capitalizes vid v :
  vid ∈ ["v1"; "v2"] -> pd_validations catalogue !! vid = Some v ->
  validation_name v = "required" \/ capitalize (validation_name v) <> "".
Proof.
  intros Hin Hv.
  apply elem_of_cons in Hin as [-> | Hin].
  - vm_compute in Hv. injection Hv as <-. by left.
  - apply elem_of_cons in Hin as [-> | Hin]; [| by apply elem_of_nil in Hin].
    vm_compute in Hv. injection Hv as <-. right. vm_compute. discriminate.
Defined.

Lemma fieldsResolvable_catalogue : fieldsResolvable catalogue.
Proof.
  intros c cd fid Hcd Hin. cbn in Hcd.
  destruct (String.eqb c "c1").
  - injection Hcd as <-. cbn in Hin.
    apply elem_of_cons in Hin as [-> | Hin].
    + exists (mkField "name" "t1" None ["v1"; "v2"]).
      split; [vm_compute; reflexivity |]. cbn. intros vid Hvid.
      destruct (pd_validations catalogue !! vid) as [v|] eqn:Hv.
      * exists v. split; [done |]. by eapply maxlength_capitalizes.
      * exfalso. apply elem_of_cons in Hvid as [-> | Hvid];
          [vm_compute in Hv; discriminate |].
        apply elem_of_cons in Hvid as [-> | Hvid];
          [vm_compute in Hv; discriminate | by apply elem_of_nil in Hvid].
    + apply elem_of_cons in Hin as [-> | Hin]; [| by apply elem_of_nil in Hin].
      exists (mkField "portrait" "t2" None []).
      split; [vm_compute; reflexivity |]. cbn. by intros vid ?%elem_of_nil.
  - destruct (String.eqb c "c2"); [| discriminate].
    injection Hcd as <-. cbn in Hin.
    apply elem_of_cons in Hin as [-> | Hin]; [| by apply elem_of_nil in Hin].
    exists (mkField "title" "t1" None []).
    split; [vm_compute; reflexivity |]. cbn. by intros vid ?%elem_of_nil.
Defined.

(** ** [extractField] and [getRelatedAssociations] *)

Lemma extractField_round_trip_witness :
  extractField (Some ("owner" +:+ "(" +:+ "name" +:+ ")"))
  = mkSplitField "name" "owner".
Proof.
  refine (extractField_round_trip "owner" "name" _ _ _ _ _); reflexivity.
Defined.

Lemma extractField_bare_name_witness :
  extractField (Some "books") = mkSplitField "id" "books".
Proof. refine (extractField_bare_name "books" _ _ _); reflexivity. Defined.

(** A slash separates like a parenthesis, and a second parenthesis is
    kept. *)
Example extractField_slash :
  extractField (Some "owner/name") = mkSplitField "name" "owner" /\
  extractField (Some "owner(first)(last)") = mkSplitField "first(last)" "owner".
Proof. split; reflexivity. Qed.

(** An association that loops on a class is on both lists. *)
Example getRelatedAssociations_loop :
  getRelatedAssociations "c1" ["a1"]
    [("a1", mkAssociation "c1" "c1" MANY_TO_MANY (Some "friends") (Some "friendOf"))]
  = Some (["a1"], ["a1"]).
Proof. reflexivity. Qed.

(** The name of an inherited property is read and put on neither list;
    any other name that is not a key makes the call throw. *)
Example getRelatedAssociations_inherited :
  getRelatedAssociations "c1" ["toString"; "a1"]
    (associations authorHasBooks) = Some (["a1"], []) /\
  getRelatedAssociations "c1" ["a1"; "a7"]
    (associations authorHasBooks) = None.
Proof. split; vm_compute; reflexivity. Qed.

(** ** Errors *)

Example missing_storage_types :
  createEntities (mkArgs (Some authorHasBooks) None None None None None None)
    (freshAt noon ∅)
  = (Throw NullPointer, freshAt noon ∅).
Proof. reflexivity. Qed.

Example broken_snapshot :
  fst (runAt noon brokenSnapshot authorHasBooks) = Throw SyntaxError.
Proof. vm_compute. reflexivity. Qed.

Lemma createEntities_forgets_previous_run_witness :
  fst (createEntities (argsOf sql authorHasBooks) (freshAt noon ∅))
  = fst (createEntities (argsOf sql authorHasBooks) leftover) /\
  (is_Some (arg_parsedData (argsOf sql authorHasBooks)) ->
   is_Some (arg_databaseTypes (argsOf sql authorHasBooks)) ->
   createEntities (argsOf sql authorHasBooks) (freshAt noon ∅)
   = createEntities (argsOf sql authorHasBooks) leftover).
Proof.
  refine (createEntities_forgets_previous_run (argsOf sql authorHasBooks)
            (freshAt noon ∅) leftover _ _ _).
  - vm_compute. reflexivity.
  - reflexivity.
  - reflexivity.
Defined.

(** The state left over does hold the entities of the previous run. *)
Example leftover_entities : is_Some (entities leftover !! "c2").
Proof. eexists. vm_compute. reflexivity. Qed.

(** ** The entities and their options *)

Lemma createEntities_domain_witness :
  is_Some (entitiesOf (runAt noon ∅ userOwnsBook) !! "c2") <->
  "c2" ∈ (classes userOwnsBook).*1 /\ ~ isUserClass userOwnsBook "c2".
Proof.
  refine (createEntities_domain (argsOf sql userOwnsBook) userOwnsBook
            (freshAt noon ∅) (entitiesOf (runAt noon ∅ userOwnsBook))
            (snd (runAt noon ∅ userOwnsBook)) "c2" _ _).
  - reflexivity.
  - vm_compute. reflexivity.
Defined.

Lemma entity_options_witness :
  let e := default (entityOf (runAt noon ∅ authorHasBooks) "c1")
             (entitiesOf (createEntities argsWithOptions (freshAt noon ∅)) !! "c1") in
  dto e = JStr "mapstruct" /\
  pagination e = JStr "pager" /\
  service e = JStr "no" /\
  microserviceName e = JUndefined /\
  searchEngine e = JUndefined /\
  javadoc e = None /\
  entityTableName e = "author".
Proof.
  refine (entity_options argsWithOptions authorHasBooks (freshAt noon ∅)
            (entitiesOf (createEntities argsWithOptions (freshAt noon ∅)))
            (snd (createEntities argsWithOptions (freshAt noon ∅)))
            "c1" (plainClass "Author") _ _ _ _ _).
  - reflexivity.
  - reflexivity.
  - vm_compute. reflexivity.
  - vm_compute. reflexivity.
Defined.

(** The Book is in the list of the search engines. *)
Example entity_options_book :
  searchEngine
    (default (entityOf (runAt noon ∅ authorHasBooks) "c2")
       (entitiesOf (createEntities argsWithOptions (freshAt noon ∅)) !! "c2"))
  = JStr "elasticsearch".
Proof. vm_compute. reflexivity. Qed.


(** ** The fields *)

Example catalogue_author_fields :
  fields (entityOf (runAt noon ∅ catalogue) "c1")
  = [ [("fieldId", JNum 1); ("fieldName", JStr "name"); ("javadoc", JUndefined);
       ("fieldType", JStr "String");
       ("fieldValidateRules", JArr [JStr "required"; JStr "maxlength"]);
       ("fieldValidateRulesMaxlength", JNum 40)];
      [("fieldId", JNum 2); ("fieldName", JStr "portrait");
       ("javadoc", JUndefined); ("fieldType", JStr "byte[]");
       ("fieldTypeBlobContent", JStr "image")] ].
Proof. vm_compute. reflexivity. Qed.

Lemma fields_of_entity_witness :
  fieldRecords catalogue 0 ["f1"; "f2"]
  = Some (fields (entityOf (runAt noon ∅ catalogue) "c1")).
Proof.
  refine (fields_of_entity (argsOf sql catalogue) catalogue (freshAt noon ∅)
            (entitiesOf (runAt noon ∅ catalogue)) (snd (runAt noon ∅ catalogue))
            "c1"
            (mkClass "Author" "Author" None (JStr "no") (JStr "no") (JStr "no")
               JUndefined JUndefined ["f1"; "f2"])
            (entityOf (runAt noon ∅ catalogue) "c1") _ _ _ _ _).
  - reflexivity.
  - apply NoDup_catalogue.
  - reflexivity.
  - vm_compute. reflexivity.
  - vm_compute. reflexivity.
Defined.

Lemma fields_numbered_and_named_witness :
  length (fields (entityOf (runAt noon ∅ catalogue) "c1")) = 2 /\
  forall i r,
    fields (entityOf (runAt noon ∅ catalogue) "c1") !! i = Some r ->
    exists fid f,
      ["f1"; "f2"] !! i = Some fid /\ pd_fields catalogue !! fid = Some f /\
      assoc "fieldId" r = Some (JNum (Z.of_nat (i + 1))) /\
      assoc "fieldName" r = Some (JStr (asciiLowerFirst (field_name f))) /\
      assoc "javadoc" r = Some (ofOption (field_comment f)).
Proof.
  refine (fields_numbered_and_named (argsOf sql catalogue) catalogue
            (freshAt noon ∅)
            (entitiesOf (runAt noon ∅ catalogue)) (snd (runAt noon ∅ catalogue))
            "c1"
            (mkClass "Author" "Author" None (JStr "no") (JStr "no") (JStr "no")
               JUndefined JUndefined ["f1"; "f2"])
            (entityOf (runAt noon ∅ catalogue) "c1") _ _ _ _ _).
  - reflexivity.
  - apply NoDup_catalogue.
  - reflexivity.
  - vm_compute. reflexivity.
  - vm_compute. reflexivity.
Defined.

Lemma field_binary_types_witness :
  let r := [("fieldId", JNum 2); ("fieldName", JStr "portrait");
            ("javadoc", JUndefined); ("fieldType", JStr "byte[]");
            ("fieldTypeBlobContent", JStr "image")] in
  exists fid f,
    ["f1"; "f2"] !! 1 = Some fid /\ pd_fields catalogue !! fid = Some f /\
    assoc "fieldType" r
    = (fun T => JStr (if blobContent T is Some _ then "byte[]" else T))
        <$> declaredType catalogue f /\
    assoc "fieldTypeBlobContent" r
    = JStr <$> (declaredType catalogue f ≫= blobContent) /\
    assoc "fieldType" r <> Some (JStr "ImageBlob") /\
    assoc "fieldType" r <> Some (JStr "Blob") /\
    assoc "fieldType" r <> Some (JStr "AnyBlob").
Proof.
  refine (field_binary_types (argsOf sql catalogue) catalogue (freshAt noon ∅)
            (entitiesOf (runAt noon ∅ catalogue)) (snd (runAt noon ∅ catalogue))
            "c1"
            (mkClass "Author" "Author" None (JStr "no") (JStr "no") (JStr "no")
               JUndefined JUndefined ["f1"; "f2"])
            (entityOf (runAt noon ∅ catalogue) "c1") 1 _ _ _ _ _ _ _).
  - reflexivity.
  - apply NoDup_catalogue.
  - reflexivity.
  - vm_compute. reflexivity.
  - vm_compute. reflexivity.
  - vm_compute. reflexivity.
Defined.

Lemma field_validation_rules_witness :
  let r := [("fieldId", JNum 1); ("fieldName", JStr "name");
            ("javadoc", JUndefined); ("fieldType", JStr "String");
            ("fieldValidateRules", JArr [JStr "required"; JStr "maxlength"]);
            ("fieldValidateRulesMaxlength", JNum 40)] in
  exists vl,
    Forall2 (fun vid v => pd_validations catalogue !! vid = Some v)
      ["v1"; "v2"] vl /\
    assoc "fieldValidateRules" r
    = (if decide (vl = []) then None
       else Some (JArr (JStr ∘ validation_name <$> vl))) /\
    forall ids1 vid ids2 v,
      ["v1"; "v2"] = ids1 ++ vid :: ids2 ->
      pd_validations catalogue !! vid = Some v ->
      validation_name v <> "required" ->
      (forall vid' v', vid' ∈ ids2 -> pd_validations catalogue !! vid' = Some v' ->
                       validation_name v' <> "required" ->
                       ruleKey v' <> ruleKey v) ->
      assoc (ruleKey v) r = Some (validation_value v).
Proof.
  refine (field_validation_rules (argsOf sql catalogue) catalogue
            (freshAt noon ∅)
            (entitiesOf (runAt noon ∅ catalogue)) (snd (runAt noon ∅ catalogue))
            "c1"
            (mkClass "Author" "Author" None (JStr "no") (JStr "no") (JStr "no")
               JUndefined JUndefined ["f1"; "f2"])
            (entityOf (runAt noon ∅ catalogue) "c1") 0 "f1"
            (mkField "name" "t1" None ["v1"; "v2"]) _ _ _ _ _ _ _ _ _ _).
  - reflexivity.
  - apply NoDup_catalogue.
  - reflexivity.
  - vm_compute. reflexivity.
  - vm_compute. reflexivity.
  - vm_compute. reflexivity.
  - reflexivity.
  - vm_compute. reflexivity.
  - intros vid v Hin Hv Hreq.
    destruct (maxlength_capitalizes vid v Hin Hv) as [? | ?]; done.
Defined.

(** ** The model after the run, and the numbering of the records *)

Lemma createEntities_keeps_model_witness :
  exists pd',
    parsedData (snd (runAt noon ∅ authorHasBooks)) = Some pd' /\
    classes pd' = classes authorHasBooks /\
    pd_fields pd' = pd_fields authorHasBooks /\
    pd_types pd' = pd_types authorHasBooks /\
    pd_enums pd' = pd_enums authorHasBooks /\
    Forall2 (fun p p' =>
               p'.1 = p.1 /\
               (p'.2 = p.2 \/
                assoc_type p.2 = ONE_TO_MANY /\
                present (injectedFieldInTo p.2) = false /\
                p'.2 = set_assoc_type MANY_TO_ONE p.2))
      (associations authorHasBooks) (associations pd').
Proof.
  refine (createEntities_keeps_model (argsOf sql authorHasBooks) authorHasBooks
            (freshAt noon ∅) (entitiesOf (runAt noon ∅ authorHasBooks))
            (snd (runAt noon ∅ authorHasBooks)) _ _).
  - reflexivity.
  - vm_compute. reflexivity.
Defined.

Lemma relationshipIds_consecutive_witness :
  relationshipId <$> relationships (entityOf (runAt noon ∅ authorHasBooks) "c1")
  = seq 1 (length (relationships (entityOf (runAt noon ∅ authorHasBooks) "c1"))).
Proof.
  refine (relationshipIds_consecutive (argsOf sql authorHasBooks) authorHasBooks
            (freshAt noon ∅) (entitiesOf (runAt noon ∅ authorHasBooks))
            (snd (runAt noon ∅ authorHasBooks)) "c1"
            (entityOf (runAt noon ∅ authorHasBooks) "c1") _ _ _ _).
  - reflexivity.
  - apply selfFree_authorHasBooks.
  - vm_compute. reflexivity.
  - vm_compute. reflexivity.
Defined.

(** On a class that has many of itself, the synthesized record and the
    record of the source get the same number. *)
Example self_association_repeats_number :
  relationshipId <$> relationships (entityOf (runAt noon ∅ nodeTree) "c1")
  = [1; 1].
Proof. vm_compute. reflexivity. Qed.

(** ** The records by their type *)

Lemma records_by_type_witness :
  let r := mkRelationship 1 ONE_TO_MANY (Some "books") (Some "book") None None
             (Some "author") ("a1", FromSide) in
  (is_Some (ownerSide r) <->
   relationshipType r = ONE_TO_ONE \/ relationshipType r = MANY_TO_MANY) /\
  (relationshipType r = ONE_TO_MANY ->
   otherEntityField r = None /\ is_Some (otherEntityRelationshipName r)) /\
  (relationshipType r = MANY_TO_ONE ->
   ownerSide r = None /\ otherEntityRelationshipName r = None).
Proof.
  refine (records_by_type origin_tag_inj (argsOf sql authorHasBooks)
            authorHasBooks (freshAt noon ∅)
            (entitiesOf (runAt noon ∅ authorHasBooks))
            (snd (runAt noon ∅ authorHasBooks)) "c1"
            (entityOf (runAt noon ∅ authorHasBooks) "c1") _ _ _ _ _ _).
  - reflexivity.
  - apply wellFormed_authorBook.
  - vm_compute. reflexivity.
  - vm_compute. reflexivity.
  - vm_compute. left.
Defined.

Lemma no_association_no_relationship_witness :
  relationships (entityOf (runAt noon ∅ withShelf) "c3") = [].
Proof.
  refine (no_association_no_relationship origin_tag_inj (argsOf sql withShelf)
            withShelf (freshAt noon ∅)
            (entitiesOf (runAt noon ∅ withShelf))
            (snd (runAt noon ∅ withShelf)) "c3"
            (entityOf (runAt noon ∅ withShelf) "c3") _ _ _ _ _).
  - reflexivity.
  - split; apply (bool_decide_unpack _); vm_compute; exact I.
  - vm_compute. reflexivity.
  - vm_compute. reflexivity.
  - intros aid a Ha. cbn in Ha.
    destruct (String.eqb aid "a1"); [| discriminate].
    injection Ha as <-. split; discriminate.
Defined.

Lemma owner_side_is_the_source_witness :
  (forall e r, entitiesOf (runAt noon ∅ coAuthored) !! "c1" = Some e ->
               r ∈ recordsOf e "a1" FromSide -> ownerSide r = Some true) /\
  (forall e r, entitiesOf (runAt noon ∅ coAuthored) !! "c2" = Some e ->
               r ∈ recordsOf e "a1" ToSide -> ownerSide r = Some false).
Proof.
  refine (owner_side_is_the_source origin_tag_inj (argsOf sql coAuthored)
            coAuthored (freshAt noon ∅)
            (entitiesOf (runAt noon ∅ coAuthored))
            (snd (runAt noon ∅ coAuthored)) "a1"
            (mkAssociation "c1" "c2" MANY_TO_MANY (Some "books")
               (Some "authors")) _ _ _ _ _).
  - reflexivity.
  - split; apply (bool_decide_unpack _); vm_compute; exact I.
  - vm_compute. reflexivity.
  - reflexivity.
  - right. reflexivity.
Defined.

Example coAuthored_owner_sides :
  (ownerSide <$> relationships (entityOf (runAt noon ∅ coAuthored) "c1"),
   ownerSide <$> relationships (entityOf (runAt noon ∅ coAuthored) "c2"))
  = ([Some true], [Some false]).
Proof. vm_compute. reflexivity. Qed.

(** ** What a run needs *)

Lemma associations_admitted_witness :
  exists fc tc,
    assoc "c1" (classes catalogue) = Some fc /\
    assoc "c2" (classes catalogue) = Some tc /\
    checkValidityOfAssociation
      (mkAssociation "c1" "c2" ONE_TO_MANY (Some "books") None)
      (class_name fc) (class_name tc) = true.
Proof.
  refine (associations_admitted (argsOf sql catalogue) catalogue (freshAt noon ∅)
            (entitiesOf (runAt noon ∅ catalogue)) (snd (runAt noon ∅ catalogue))
            "a1" (mkAssociation "c1" "c2" ONE_TO_MANY (Some "books") None)
            _ _ _ _ _).
  - reflexivity.
  - apply wellFormed_catalogue.
  - vm_compute. reflexivity.
  - reflexivity.
  - apply (bool_decide_unpack _). vm_compute. exact I.
Defined.

Lemma arrivals_have_source_witness : "c1" ∈ (classes authorAndBook).*1.
Proof.
  refine (arrivals_have_source (argsOf sql authorAndBook) authorAndBook
            (freshAt noon ∅) (entitiesOf (runAt noon ∅ authorAndBook))
            (snd (runAt noon ∅ authorAndBook))
            "a1" (mkAssociation "c1" "c2" ONE_TO_ONE (Some "book") (Some "author"))
            _ _ _ _ _).
  - reflexivity.
  - vm_compute. reflexivity.
  - reflexivity.
  - apply (bool_decide_unpack _). vm_compute. exact I.
  - reflexivity.
Defined.

Lemma fields_resolved_witness :
  exists f,
    pd_fields catalogue !! "f1" = Some f /\
    forall vid, vid ∈ field_validations f ->
                is_Some (pd_validations catalogue !! vid).
Proof.
  refine (fields_resolved (argsOf sql catalogue) catalogue (freshAt noon ∅)
            (entitiesOf (runAt noon ∅ catalogue)) (snd (runAt noon ∅ catalogue))
            "c1"
            (mkClass "Author" "Author" None (JStr "no") (JStr "no") (JStr "no")
               JUndefined JUndefined ["f1"; "f2"])
            "f1" _ _ _ _ _).
  - reflexivity.
  - apply NoDup_catalogue.
  - vm_compute. reflexivity.
  - reflexivity.
  - apply (bool_decide_unpack _). vm_compute. exact I.
Defined.


(** A field that the model does not have stops the run. *)
Example missing_field :
  fst (runAt noon ∅
         (mkParsedData
            [("c1", mkClass "Author" "Author" None (JStr "no") (JStr "no")
                      (JStr "no") JUndefined JUndefined ["f9"])]
            ∅ ∅ ∅ ∅ []))
  = Throw TypeError.
Proof. vm_compute. reflexivity. Qed.

(** ** C2, C10 and C9 on examples *)

Lemma authorBook_not_User t iF iT c : ~ isUserClass (authorBook t iF iT) c.
Proof.
  intros (cd & Hcd & Hu). cbn in Hcd.
  destruct (String.eqb c "c1"); [injection Hcd as <-; discriminate |].
  destruct (String.eqb c "c2"); [injection Hcd as <-; discriminate |].
  discriminate.
Defined.

Lemma wellFormed_userLibrary : wellFormed userLibrary.
Proof. split; apply (bool_decide_unpack _); vm_compute; exact I. Defined.

Lemma one_to_many_inverse_synthesized_witness :
  (exists st_r target r,
      resolveAll (argsOf sql authorHasBooks) (freshAt noon ∅) = (Ok tt, st_r) /\
      entities st_r !! "c2" = Some target /\
      entitiesOf (runAt noon ∅ authorHasBooks) !! "c2" = Some target /\
      recordsOf target "a1" Synthesized = [r] /\
      relationshipType r = MANY_TO_ONE /\
      relationshipName r = Some "author" /\
      otherEntityName r = Some "author" /\
      recordsOf target "a1" ToSide = []) /\
  exists pd',
    parsedData (snd (runAt noon ∅ authorHasBooks)) = Some pd' /\
    assoc "a1" (associations pd')
    = Some (mkAssociation "c1" "c2" MANY_TO_ONE (Some "books") None).
Proof.
  assert (Hrun : createEntities (argsOf sql authorHasBooks) (freshAt noon ∅)
                 = (Ok (entitiesOf (runAt noon ∅ authorHasBooks)),
                    snd (runAt noon ∅ authorHasBooks)))
    by (vm_compute; reflexivity).
  destruct (one_to_many_inverse_synthesized origin_tag_inj
              (argsOf sql authorHasBooks) authorHasBooks (freshAt noon ∅)
              (entitiesOf (runAt noon ∅ authorHasBooks))
              (snd (runAt noon ∅ authorHasBooks))
              "a1" (mkAssociation "c1" "c2" ONE_TO_MANY (Some "books") None)
              (plainClass "Author") eq_refl (wellFormed_authorBook _ _ _)
              eq_refl eq_refl eq_refl eq_refl Hrun)
    as [(st_r & target & r & Hall & Ht & Hes & Hrest) Hmodel].
  split; [| exact Hmodel].
  exists st_r, target, r. split; [exact Hall |]. split; [exact Ht |].
  split; [| exact Hrest]. apply Hes, authorBook_not_User.
Defined.

Lemma second_run_on_rewritten_model_witness :
  let first := runAt noon ∅ authorHasBooks in
  let pd1 := authorBook MANY_TO_ONE (Some "books") None in
  let es2 := entitiesOf (createEntities (argsOf sql pd1) (snd first)) in
  parsedData (snd first) = Some pd1 /\
  (exists e r, entitiesOf first !! "c1" = Some e /\
               recordsOf e "a1" FromSide = [r] /\
               relationshipType r = ONE_TO_MANY) /\
  (exists t r, entitiesOf first !! "c2" = Some t /\
               recordsOf t "a1" Synthesized = [r]) /\
  (forall c, is_Some (es2 !! c) <-> is_Some (entitiesOf first !! c)) /\
  (exists e r, es2 !! "c1" = Some e /\
               recordsOf e "a1" FromSide = [r] /\
               relationshipType r = MANY_TO_ONE /\
               es2 !! "c1" <> entitiesOf first !! "c1") /\
  (forall c t, es2 !! c = Some t -> recordsOf t "a1" Synthesized = []).
Proof.
  intros first pd1 es2.
  assert (Hrun : createEntities (argsOf sql authorHasBooks) (freshAt noon ∅)
                 = (Ok (entitiesOf first), snd first))
    by (vm_compute; reflexivity).
  assert (Hrun2 : createEntities (argsOf sql pd1) (snd first)
                  = (Ok es2, snd (createEntities (argsOf sql pd1) (snd first))))
    by (vm_compute; reflexivity).
  assert (Hleft : parsedData (snd first) = Some pd1)
    by (vm_compute; reflexivity).
  destruct (second_run_on_rewritten_model origin_tag_inj
              (argsOf sql authorHasBooks) authorHasBooks (freshAt noon ∅)
              (entitiesOf first) (snd first)
              "a1" (mkAssociation "c1" "c2" ONE_TO_MANY (Some "books") None)
              (plainClass "Author") eq_refl (wellFormed_authorBook _ _ _)
              eq_refl eq_refl eq_refl eq_refl Hrun)
    as (pd1' & Hpd1 & _ & Hfrom & Hto & Hsecond).
  assert (pd1' = pd1) as -> by congruence.
  destruct (Hsecond (argsOf sql pd1) (snd first) es2 _ eq_refl Hrun2)
    as (Hdom & Hfrom2 & Hnone).
  split; [exact Hleft |].
  split; [apply Hfrom, authorBook_not_User |].
  split; [apply Hto, authorBook_not_User |].
  split; [exact Hdom |].
  split; [apply Hfrom2, authorBook_not_User | exact Hnone].
Defined.

Lemma user_entities_removed_last_witness :
  exists st_r,
    resolveAll (argsOf sql userLibrary) (freshAt noon ∅) = (Ok tt, st_r) /\
    suppressEntities st_r = (Ok tt, snd (runAt noon ∅ userLibrary)) /\
    (exists e, entities st_r !! "c1" = Some e /\
               fieldRecords userLibrary 0 ["f1"] = Some (fields e)) /\
    (exists e r, entities st_r !! "c1" = Some e /\
                 recordsOf e "a2" FromSide = [r]) /\
    (exists e r, entities st_r !! "c2" = Some e /\
                 entitiesOf (runAt noon ∅ userLibrary) !! "c2" = Some e /\
                 recordsOf e "a1" FromSide = [r]) /\
    entitiesOf (runAt noon ∅ userLibrary) !! "c1" = None /\
    entitiesOf (runAt noon ∅ userLibrary) !! "c2" = entities st_r !! "c2".
Proof.
  assert (Hrun : createEntities (argsOf sql userLibrary) (freshAt noon ∅)
                 = (Ok (entitiesOf (runAt noon ∅ userLibrary)),
                    snd (runAt noon ∅ userLibrary)))
    by (vm_compute; reflexivity).
  destruct (user_entities_removed_last (argsOf sql userLibrary) userLibrary
              (freshAt noon ∅) (entitiesOf (runAt noon ∅ userLibrary))
              (snd (runAt noon ∅ userLibrary)) eq_refl Hrun)
    as (st_r & Hall & Hsup & _ & _ & Hfields & Hrecords & Hes).
  pose proof wellFormed_userLibrary as Hwf.
  exists st_r. split; [exact Hall |]. split; [exact Hsup |].
  split; [| split; [| split; [| split]]].
  - apply (Hfields (proj1 Hwf) "c1" _ eq_refl).
  - apply (Hrecords Hwf origin_tag_inj "a2"
             (mkAssociation "c1" "c2" ONE_TO_MANY (Some "books") None)
             FromSide eq_refl).
    eexists. split; [reflexivity |]. apply (bool_decide_unpack _).
    vm_compute. exact I.
  - destruct (Hrecords Hwf origin_tag_inj "a1"
                (mkAssociation "c2" "c1" MANY_TO_ONE (Some "owner") None)
                FromSide eq_refl) as (e & r & He & Hr).
    { eexists. split; [reflexivity |]. apply (bool_decide_unpack _).
      vm_compute. exact I. }
    exists e, r. split; [exact He |]. split; [| exact Hr].
    rewrite <- He. apply (Hes "c2"). intros (cd & Hcd & Hu).
    injection Hcd as <-. discriminate.
  - apply (Hes "c1"). eexists. split; reflexivity.
  - apply (Hes "c2"). intros (cd & Hcd & Hu).
    injection Hcd as <-. discriminate.
Defined.

(** The run on the User and the Books: before the second loop the User
    entity holds its field and its record; the result has no User
    entity, and the Book entity keeps its two records that name the
    User. *)
Example userLibrary_result :
  (exists e,
      entities (snd (resolveAll (argsOf sql userLibrary) (freshAt noon ∅)))
        !! "c1" = Some e /\
      relationshipName <$> relationships e = [Some "books"] /\
      length (fields e) = 1) /\
  entitiesOf (runAt noon ∅ userLibrary) !! "c1" = None /\
  relationships (entityOf (runAt noon ∅ userLibrary) "c2")
  = [mkRelationship 1 MANY_TO_ONE (Some "user") (Some "user") (Some "id")
       None None ("a2", Synthesized);
     mkRelationship 2 MANY_TO_ONE (Some "owner") (Some "user") (Some "id")
       None None ("a1", FromSide)].
Proof.
  split; [| split; vm_compute; reflexivity].
  eexists. split; [vm_compute; reflexivity |]. split; reflexivity.
Qed.
